(** * Million Dollar Homepage analytics dashboard: store, filters, overlay,
      tooltip, loader and export, embedded from the TypeScript sources.

    Numbers are JavaScript numbers restricted to integers ([Z]); a value
    that can be [NaN] or [undefined] is an [option].  Strings are sequences
    of 7-bit code units.  Object fields read with optional chaining in the
    sources are [option] fields here. *)

From Stdlib Require Import ZArith String Ascii List Bool Lia DecimalString.
From Stdlib Require DecimalPos DecimalZ.
From Stdlib Require Import Sorted.
From stdpp Require Import base list strings gmap.

Local Open Scope string_scope.
Local Open Scope Z_scope.
Set Warnings "-clear-no-such-hyp".

(** ** JavaScript string and number primitives used by the sources *)

Module JS.

(** White space removed by [String.prototype.trim] (tab, LF, VT, FF, CR,
    space). *)
Definition isWhiteSpace (c : ascii) : bool :=
  let n := nat_of_ascii c in
  ((9 <=? n)%nat && (n <=? 13)%nat) || (n =? 32)%nat.

Fixpoint trimStart (s : string) : string :=
  match s with
  | EmptyString => EmptyString
  | String c r => if isWhiteSpace c then trimStart r else s
  end.

Fixpoint trimEnd (s : string) : string :=
  match s with
  | EmptyString => EmptyString
  | String c r =>
      match trimEnd r with
      | EmptyString => if isWhiteSpace c then EmptyString else String c EmptyString
      | t => String c t
      end
  end.

Definition trim (s : string) : string := trimEnd (trimStart s).

Definition lowerChar (c : ascii) : ascii :=
  let n := nat_of_ascii c in
  if ((65 <=? n)%nat && (n <=? 90)%nat) then ascii_of_nat (n + 32) else c.

Fixpoint toLowerCase (s : string) : string :=
  match s with
  | EmptyString => EmptyString
  | String c r => String (lowerChar c) (toLowerCase r)
  end.

(** [s.startsWith(p)] *)
Definition startsWith (s p : string) : bool := String.prefix p s.

(** [s.includes(p)] *)
Fixpoint includes (s p : string) : bool :=
  String.prefix p s ||
  match s with
  | EmptyString => false
  | String _ r => includes r p
  end.

(** [s.split(',')]: always at least one piece. *)
Fixpoint split (sep : ascii) (s : string) : list string :=
  match s with
  | EmptyString => [EmptyString]
  | String c r =>
      if Ascii.eqb c sep then EmptyString :: split sep r
      else match split sep r with
           | [] => [String c EmptyString]
           | w :: ws => String c w :: ws
           end
  end.

(** [Number(s)] on the integer fragment: surrounding white space is
    dropped, the empty string is [0], an optionally signed run of decimal
    digits is its value, anything else is [NaN] ([None]).  Literals with a
    fraction, an exponent, a radix prefix or [Infinity] are outside this
    model. *)
Definition Number (s : string) : option Z :=
  match trim s with
  | EmptyString => Some 0
  | String "+" r => Z.of_uint <$> NilZero.uint_of_string r
  | t => Z.of_int <$> NilZero.int_of_string t
  end.

(** [n.toString()] for an integer [n]. *)
Definition toString (n : Z) : string := NilZero.string_of_int (Z.to_int n).

(** [Array.from(new Set(xs))] on strings: first occurrences, in order. *)
Fixpoint distinct (seen : list string) (xs : list string) : list string :=
  match xs with
  | [] => []
  | x :: r =>
      if bool_decide (x ∈ seen) then distinct seen r
      else x :: distinct (x :: seen) r
  end.

Definition arrayFromSet (xs : list string) : list string := distinct [] xs.

(** [xs.includes(x)] on an array of strings. *)
Definition arrayIncludes (xs : list string) (x : string) : bool :=
  bool_decide (x ∈ xs).

(** [v !== undefined] *)
Definition defined {A} (o : option A) : bool :=
  match o with Some _ => true | None => false end.

(** Relational operators on numbers that may be [NaN]: false when either
    side is [NaN]. *)
Definition geNum (a b : option Z) : bool :=
  match a, b with Some x, Some y => y <=? x | _, _ => false end.

Definition leNum (a b : option Z) : bool :=
  match a, b with Some x, Some y => x <=? y | _, _ => false end.

(** [x - y], [NaN] when either side is. *)
Definition subNum (a b : option Z) : option Z :=
  match a, b with Some x, Some y => Some (x - y) | _, _ => None end.

End JS.

(** ** Data model (types/index.ts) *)

(** [DomainAnalytics].  The interface declares every field as present; the
    store and the components read them through optional chaining and
    truthiness tests because the records come from JSON, so a field that
    may be missing at run time is an [option]. *)
Record DomainAnalytics := {
  an_domain : string;
  dns_status : option string;
  http_status : option Z;
  whois_status : option string;
  analyzed_at : option string;
  registered_at : option string;
  expiry_date : option string;
  last_updated : option string;
  nameservers : option (list string)
}.

Record AreaCoordinates := { x : Z; y : Z; width : Z; height : Z }.

Record AreaData := {
  area_id : Z;
  domain : string;
  title : string;
  href : string;
  coordinates : AreaCoordinates;
  rawCoords : list Z;
  analytics : option DomainAnalytics;
  hasAnalytics : bool
}.

(** [AppMetadata]; [coordinateRange] and [analyticsMetadata] are never read
    by the code embedded here and are left out. *)
Record AppMetadata := {
  totalAreas : Z;
  areasWithAnalytics : Z;
  areasWithoutAnalytics : Z;
  matchRate : string
}.

Record AppData := { metadata : AppMetadata; areas : list AreaData }.

Record LengthRange := { min : option Z; max : option Z }.
Record DateRange := { start : option string; end_ : option string }.

(** [SearchFilters], with the two sort keys that [SearchBox] adds to the
    object it hands to [setFilters].  [None] is an absent (or [undefined])
    key. *)
Record SearchFilters := {
  dnsStatus : option string;
  httpStatus : option string;
  whoisStatus : option string;
  f_hasAnalytics : option bool;
  domainLength : option LengthRange;
  dateRange : option DateRange;
  hasNameservers : option bool;
  searchInTitle : option bool;
  sortBy : option string;
  sortDirection : option string
}.

(** The filter object [{}]. *)
Definition noFilters : SearchFilters :=
  {| dnsStatus := None; httpStatus := None; whoisStatus := None;
     f_hasAnalytics := None; domainLength := None; dateRange := None;
     hasNameservers := None; searchInTitle := None; sortBy := None;
     sortDirection := None |}.

(** What the store takes from its environment: the fuse.js index
    ([new Fuse(areas, options).search(pattern, {limit})], already mapped to
    the matched items) and the [Date] constructor (time value of
    [new Date(s)], [None] for an invalid date). *)
Class Runtime := {
  fuseSearch : list AreaData -> string -> nat -> list AreaData;
  dateValue : string -> option Z
}.

(** ** The store (stores/appStore.ts) *)

Module AppStore.

Definition SEARCH_LIMIT : nat := 1000.
Definition MIN_MATCH_CHAR_LENGTH : nat := 2.

(** The [Fuse] instance: the collection it indexes. *)
Record Fuse := { docs : list AreaData }.

Record State := {
  appData : option AppData;
  fuse : option Fuse;
  domainMap : option (gmap string AreaData);
  query : string;
  results : list AreaData;
  filters : SearchFilters;
  selectedDomain : option string;
  highlightedAreas : list string
}.

Definition initial : State :=
  {| appData := None; fuse := None; domainMap := None; query := "";
     results := []; filters := noFilters; selectedDomain := None;
     highlightedAreas := [] |}.

(** [data.areas.forEach(area => domainMap.set(area.domain, area))] *)
Definition buildDomainMap (l : list AreaData) : gmap string AreaData :=
  fold_left (fun m a => <[domain a := a]> m) l ∅.

Definition setAppData (data : AppData) (s : State) : State :=
  {| appData := Some data;
     fuse := Some {| docs := areas data |};
     domainMap := Some (buildDomainMap (areas data));
     query := query s; results := results s; filters := filters s;
     selectedDomain := selectedDomain s;
     highlightedAreas := highlightedAreas s |}.

Section Filters.
Context `{Runtime}.

(** [hasFilters]: some key holds a value other than [undefined]. *)
Definition hasFilters (f : SearchFilters) : bool :=
  JS.defined (dnsStatus f) || JS.defined (httpStatus f) ||
  JS.defined (whoisStatus f) || JS.defined (f_hasAnalytics f) ||
  JS.defined (domainLength f) || JS.defined (dateRange f) ||
  JS.defined (hasNameservers f) || JS.defined (searchInTitle f) ||
  JS.defined (sortBy f) || JS.defined (sortDirection f).

(** [a?.field === v] for a string [v]. *)
Definition eqField (field : option string) (v : string) : bool :=
  match field with Some w => String.eqb w v | None => false end.

(** Truthiness of an optional string. *)
Definition truthy (o : option string) : bool :=
  match o with Some s => negb (String.eqb s "") | None => false end.

Definition dnsCondition (v : string) (a : AreaData) : bool :=
  eqField (analytics a ≫= dns_status) v.

Definition httpCondition (v : string) (a : AreaData) : bool :=
  eqField (JS.toString <$> (analytics a ≫= http_status)) v.

Definition whoisCondition (v : string) (a : AreaData) : bool :=
  eqField (analytics a ≫= whois_status) v.

Definition hasAnalyticsCondition (v : bool) (a : AreaData) : bool :=
  Bool.eqb (hasAnalytics a) v.

Definition domainLengthCondition (r : LengthRange) (a : AreaData) : bool :=
  let len := Z.of_nat (String.length (domain a)) in
  match min r with None => true | Some m => m <=? len end &&
  match max r with None => true | Some m => len <=? m end.

Definition dateRangeCondition (r : DateRange) (a : AreaData) : bool :=
  let startDate := if truthy (start r) then dateValue <$> start r else None in
  let endDate := if truthy (end_ r) then dateValue <$> end_ r else None in
  match analytics a ≫= registered_at with
  | None => false
  | Some reg =>
      if negb (truthy (Some reg)) then false
      else
        let registrationDate := dateValue reg in
        match startDate with None => true | Some d => JS.geNum registrationDate d end &&
        match endDate with None => true | Some d => JS.leNum registrationDate d end
  end.

Definition nameserversCondition (v : bool) (a : AreaData) : bool :=
  let has :=
    match analytics a ≫= nameservers with
    | Some ns => (0 <? length ns)%nat
    | None => false
    end in
  if v then has else negb has.

(** The [filterConditions] array, in push order. *)
Definition filterConditions (f : SearchFilters) : list (AreaData -> bool) :=
  match dnsStatus f with Some v => [dnsCondition v] | None => [] end ++
  match httpStatus f with Some v => [httpCondition v] | None => [] end ++
  match whoisStatus f with Some v => [whoisCondition v] | None => [] end ++
  match f_hasAnalytics f with Some v => [hasAnalyticsCondition v] | None => [] end ++
  match domainLength f with
  | Some r => if JS.defined (min r) || JS.defined (max r)
              then [domainLengthCondition r] else []
  | None => []
  end ++
  match dateRange f with
  | Some r => if truthy (start r) || truthy (end_ r)
              then [dateRangeCondition r] else []
  | None => []
  end ++
  match hasNameservers f with Some v => [nameserversCondition v] | None => [] end.

Definition applyFilters (l : list AreaData) (f : SearchFilters) : list AreaData :=
  if negb (hasFilters f) then l
  else List.filter (fun a => forallb (fun c => c a) (filterConditions f)) l.

(** The candidate list computed from the query, the same code in
    [setSearchQuery] and [setFilters]. *)
Definition searchCandidates (fu : Fuse) (data : AppData) (q : string)
  : list AreaData :=
  let trimmedQuery := JS.trim q in
  let len := String.length trimmedQuery in
  if negb (String.eqb trimmedQuery "") && (MIN_MATCH_CHAR_LENGTH <=? len)%nat then
    fuseSearch (docs fu) trimmedQuery SEARCH_LIMIT
  else if (0 <? len)%nat && (len <? MIN_MATCH_CHAR_LENGTH)%nat then
    take SEARCH_LIMIT
      (List.filter
         (fun a =>
            JS.startsWith (JS.toLowerCase (domain a)) (JS.toLowerCase trimmedQuery) ||
            JS.startsWith (JS.toLowerCase (title a)) (JS.toLowerCase trimmedQuery))
         (areas data))
  else take SEARCH_LIMIT (areas data).

Definition highlightsOf (l : list AreaData) : list string :=
  JS.arrayFromSet (map domain l).

Definition setSearchQuery (q : string) (s : State) : State :=
  match fuse s, appData s with
  | Some fu, Some data =>
      let res := applyFilters (searchCandidates fu data q) (filters s) in
      {| appData := appData s; fuse := fuse s; domainMap := domainMap s;
         query := q; results := res; filters := filters s;
         selectedDomain := selectedDomain s;
         highlightedAreas := highlightsOf res |}
  | _, _ =>
      {| appData := appData s; fuse := fuse s; domainMap := domainMap s;
         query := q; results := []; filters := filters s;
         selectedDomain := selectedDomain s; highlightedAreas := [] |}
  end.

Definition setFilters (f : SearchFilters) (s : State) : State :=
  match fuse s, appData s with
  | Some fu, Some data =>
      let res := applyFilters (searchCandidates fu data (query s)) f in
      {| appData := appData s; fuse := fuse s; domainMap := domainMap s;
         query := query s; results := res; filters := f;
         selectedDomain := selectedDomain s;
         highlightedAreas := highlightsOf res |}
  | _, _ =>
      {| appData := appData s; fuse := fuse s; domainMap := domainMap s;
         query := query s; results := results s; filters := f;
         selectedDomain := selectedDomain s;
         highlightedAreas := highlightedAreas s |}
  end.

Definition setSelectedDomain (d : option string) (s : State) : State :=
  {| appData := appData s; fuse := fuse s; domainMap := domainMap s;
     query := query s; results := results s; filters := filters s;
     selectedDomain := d; highlightedAreas := highlightedAreas s |}.

Definition clearSearch (s : State) : State :=
  {| appData := appData s; fuse := fuse s; domainMap := domainMap s;
     query := ""; results := []; filters := noFilters;
     selectedDomain := None; highlightedAreas := [] |}.

Definition highlightDomain (d : string) (s : State) : State :=
  if negb (JS.arrayIncludes (highlightedAreas s) d) then
    {| appData := appData s; fuse := fuse s; domainMap := domainMap s;
       query := query s; results := results s; filters := filters s;
       selectedDomain := selectedDomain s;
       highlightedAreas := highlightedAreas s ++ [d] |}
  else s.

Definition clearHighlights (s : State) : State :=
  {| appData := appData s; fuse := fuse s; domainMap := domainMap s;
     query := query s; results := results s; filters := filters s;
     selectedDomain := selectedDomain s; highlightedAreas := [] |}.

(** The store's actions and the state after a sequence of them. *)
Inductive Action :=
| SetAppData (data : AppData)
| SetSearchQuery (q : string)
| SetFilters (f : SearchFilters)
| SetSelectedDomain (d : option string)
| ClearSearch
| HighlightDomain (d : string)
| ClearHighlights.

Definition step (s : State) (a : Action) : State :=
  match a with
  | SetAppData data => setAppData data s
  | SetSearchQuery q => setSearchQuery q s
  | SetFilters f => setFilters f s
  | SetSelectedDomain d => setSelectedDomain d s
  | ClearSearch => clearSearch s
  | HighlightDomain d => highlightDomain d s
  | ClearHighlights => clearHighlights s
  end.

Definition run (s : State) (l : list Action) : State := fold_left step l s.

End Filters.

End AppStore.

(** ** Coordinate conversion *)

(** The offline script parse-area-map.js. *)
Module ParseAreaMap.

(** The [coordinates] object written by the script; a component is [None]
    when the arithmetic yields [NaN] or the array is too short. *)
Record ScriptCoordinates := {
  sx : option Z; sy : option Z; swidth : option Z; sheight : option Z
}.

(** [coords[i]]: [undefined] past the end, which arithmetic turns into
    [NaN]. *)
Definition at_ (coords : list (option Z)) (i : nat) : option Z :=
  mjoin (coords !! i).

(** From [coordsMatch[1]] to the [coordinates] field:
    [const [x1, y1, x2, y2] = coords] and the object literal. *)
Definition convert (coordsAttr : string) : ScriptCoordinates :=
  let coords := map JS.Number (JS.split "," coordsAttr) in
  let x1 := at_ coords 0 in
  let y1 := at_ coords 1 in
  let x2 := at_ coords 2 in
  let y2 := at_ coords 3 in
  {| sx := x1; sy := y1; swidth := JS.subNum x2 x1; sheight := JS.subNum y2 y1 |}.

End ParseAreaMap.

(** [coordinateUtils] of utils/index.ts. *)
Module CoordinateUtils.

Definition COORDINATE_MIN : Z := 0.

(** The rectangle of four numbers [x1, y1, x2, y2]. *)
Definition rectangle (x1 y1 x2 y2 : Z) : AreaCoordinates :=
  {| x := Z.min x1 x2; y := Z.min y1 y2;
     width := Z.abs (x2 - x1); height := Z.abs (y2 - y1) |}.

Definition parseMapCoordinates (coords : string) : option AreaCoordinates :=
  if String.eqb coords "" then None
  else
    match map JS.Number (JS.split "," coords) with
    | [Some x1; Some y1; Some x2; Some y2] => Some (rectangle x1 y1 x2 y2)
    | _ => None
    end.

Definition isValidCoordinate (x y width height maxWidth maxHeight : Z) : bool :=
  (COORDINATE_MIN <=? x) && (COORDINATE_MIN <=? y) &&
  (x + width <=? maxWidth) && (y + height <=? maxHeight) &&
  (0 <? width) && (0 <? height).

End CoordinateUtils.

(** ** The map overlay (components/InteractiveMap.tsx) *)

Module InteractiveMap.

Definition ORIGINAL_WIDTH : Z := 1000.
Definition ORIGINAL_HEIGHT : Z := 1000.
Definition OFFSET_X : Z := 15.
Definition OFFSET_Y : Z := -10.

Record HtmlMapArea := {
  h_coords : string; h_href : string; h_title : string; h_domain : string
}.

(** [AreaData | HtmlMapArea], told apart by ['coords' in area]. *)
Inductive Renderable :=
| DataArea (a : AreaData)
| HtmlArea (h : HtmlMapArea).

Definition domainOf (r : Renderable) : string :=
  match r with DataArea a => domain a | HtmlArea h => h_domain h end.

Definition areasToRender (htmlMapAreas : list HtmlMapArea)
    (appData : option AppData) : list Renderable :=
  if (0 <? length htmlMapAreas)%nat then map HtmlArea htmlMapAreas
  else match appData with
       | Some data => map DataArea (areas data)
       | None => []
       end.

Definition isHighlighted (highlightedAreas : list string)
    (selectedDomain : option string) (d : string) : bool :=
  JS.arrayIncludes highlightedAreas d ||
  match selectedDomain with Some sd => String.eqb sd d | None => false end.

Definition highlightedAreasToRender (hl : list string) (sel : option string)
    (l : list Renderable) : list Renderable :=
  List.filter (fun r => isHighlighted hl sel (domainOf r)) l.

Definition nonHighlightedAreas (hl : list string) (sel : option string)
    (l : list Renderable) : list Renderable :=
  List.filter (fun r => negb (isHighlighted hl sel (domainOf r))) l.

(** The template strings [html-${domain}-${coords}-${index}] and
    [area-${id || index}-${domain}]. *)
Definition uniqueKey (index : nat) (r : Renderable) : string :=
  match r with
  | HtmlArea h =>
      "html-" +:+ h_domain h +:+ "-" +:+ h_coords h +:+ "-" +:+
      JS.toString (Z.of_nat index)
  | DataArea a =>
      "area-" +:+
      JS.toString (if area_id a =? 0 then Z.of_nat index else area_id a) +:+
      "-" +:+ domain a
  end.

(** The value stored for one area: [null] ([None]) when an HTML area's
    coordinates do not parse or fall outside the image. *)
Definition coordinatesFor (r : Renderable) : option AreaCoordinates :=
  match r with
  | HtmlArea h =>
      match map JS.Number (JS.split "," (h_coords h)) with
      | [Some c0; Some c1; Some c2; Some c3] =>
          let x := Z.min c0 c2 in
          let y := Z.min c1 c3 in
          let width := Z.abs (c2 - c0) in
          let height := Z.abs (c3 - c1) in
          if (0 <=? x) && (0 <=? y) && (x + width <=? ORIGINAL_WIDTH) &&
             (y + height <=? ORIGINAL_HEIGHT) && (0 <? width) && (0 <? height)
          then Some {| x := x; y := y; width := width; height := height |}
          else None
      | _ => None
      end
  | DataArea a =>
      Some {| x := x (coordinates a); y := y (coordinates a);
              width := width (coordinates a);
              height := height (coordinates a) |}
  end.

(** [parsedCoordinates]: [coordMap.set(uniqueKey, ...)] for each area with
    its index in [areasToRender]. *)
Definition parsedCoordinates (l : list Renderable)
  : gmap string (option AreaCoordinates) :=
  fold_left (fun m kv => <[kv.1 := kv.2]> m)
            (imap (fun index r => (uniqueKey index r, coordinatesFor r)) l) ∅.

(** One rendered layer: for each area of the layer, with its index in that
    layer, the rectangle drawn or [None] where the callback returns
    [null]. *)
Definition renderLayer (coordMap : gmap string (option AreaCoordinates))
    (layer : list Renderable) : list (option AreaCoordinates) :=
  imap (fun index r => mjoin (coordMap !! uniqueKey index r)) layer.

(** The rectangles drawn for a store state: the SVG layer of highlighted
    areas, then the layer of invisible click targets. *)
Definition rendered (htmlMapAreas : list HtmlMapArea) (appData : option AppData)
    (hl : list string) (sel : option string)
  : list (option AreaCoordinates) * list (option AreaCoordinates) :=
  let l := areasToRender htmlMapAreas appData in
  let coordMap := parsedCoordinates l in
  (renderLayer coordMap (highlightedAreasToRender hl sel l),
   renderLayer coordMap (nonHighlightedAreas hl sel l)).

(** [domainLookupMap] *)
Definition domainLookupMap (appData : option AppData) : gmap string AreaData :=
  match appData with
  | Some data => fold_left (fun m a => <[domain a := a]> m) (areas data) ∅
  | None => ∅
  end.

(** The analytics shown by [handleAreaHover]. *)
Definition hoverAnalytics (appData : option AppData) (r : Renderable)
  : option DomainAnalytics :=
  match r with
  | DataArea a => analytics a
  | HtmlArea h => domainLookupMap appData !! h_domain h ≫= analytics
  end.

(** [appData.areas.find(area => area.domain === selectedDomain)] of the
    scroll effect. *)
Definition findByDomain (data : AppData) (d : string) : option AreaData :=
  List.find (fun a => String.eqb (domain a) d) (areas data).

Record Position := { px : Z; py : Z }.

(** [tooltip.position] set by [handleAreaHover].  [mouseY > h / 2] is
    [h < 2 * mouseY] on integers. *)
Definition hoverPosition (clientX clientY innerHeight : Z) : Position :=
  let tooltipHeight := 200 in
  let shouldPositionAbove :=
    (innerHeight <? 2 * clientY) || (innerHeight - 20 <? clientY + tooltipHeight) in
  {| px := clientX + OFFSET_X;
     py := if shouldPositionAbove then clientY - tooltipHeight - 10
           else clientY + OFFSET_Y |}.

(** [tooltip.position] set by [handleMouseMove]. *)
Definition movePosition (clientX clientY : Z) : Position :=
  {| px := clientX + OFFSET_X; py := clientY + OFFSET_Y |}.

End InteractiveMap.

(** ** The tooltip (components/DomainTooltip.tsx) *)

Module DomainTooltip.

Record Placement := { left : Z; top : Z }.

Definition getTooltipPosition (position : InteractiveMap.Position)
    (innerWidth innerHeight : Z) : Placement :=
  let tooltipWidth := 320 in
  let tooltipHeight := 300 in
  let padding := 20 in
  let left0 := InteractiveMap.px position + 5 in
  let top0 := InteractiveMap.py position + 5 in
  let left1 :=
    if innerWidth - padding <? left0 + tooltipWidth
    then InteractiveMap.px position - tooltipWidth - 5 else left0 in
  let left2 := if left1 <? padding then padding else left1 in
  let top1 :=
    if innerHeight - padding <? top0 + tooltipHeight
    then InteractiveMap.py position - tooltipHeight + 100 else top0 in
  let top2 := if top1 <? padding then padding else top1 in
  {| left := left2; top := top2 |}.

(** Where the tooltip is drawn when the pointer enters an area at
    [(clientX, clientY)]. *)
Definition placementOnHover (clientX clientY innerWidth innerHeight : Z)
  : Placement :=
  getTooltipPosition (InteractiveMap.hoverPosition clientX clientY innerHeight)
                     innerWidth innerHeight.

End DomainTooltip.

(** ** Export (components/ExportData.tsx) *)

Module ExportData.

Inductive ExportFormat := csv | json | txt.

Record ExportOptions := {
  format : ExportFormat;
  includeAnalytics : bool;
  includeCoordinates : bool;
  includeTimestamps : bool;
  onlyFiltered : bool
}.

Definition getDataToExport (exportOptions : ExportOptions)
    (results : list AreaData) (appData : option AppData) : list AreaData :=
  if onlyFiltered exportOptions && (0 <? length results)%nat then results
  else match appData with
       | Some data => areas data
       | None => []
       end.

(** The export as the component performs it on a store state. *)
Definition exported (exportOptions : ExportOptions) (s : AppStore.State)
  : list AreaData :=
  getDataToExport exportOptions (AppStore.results s) (AppStore.appData s).

End ExportData.

(** ** Dataset loading (App.tsx) *)

Module App.

Record JsError := { name : string; message : string }.

Definition mkError (msg : string) : JsError := {| name := "Error"; message := msg |}.

(** The [metadata] object of the fetched document; [totalAreasField] is
    [None] when [typeof totalAreas !== 'number']. *)
Record RawMetadata := {
  totalAreasField : option Z;
  areasWithAnalyticsField : Z;
  areasWithoutAnalyticsField : Z;
  matchRateField : string
}.

(** The value [response.json()] resolves to: something that is not an
    object, or an object whose [areas] is an array ([Some]) or not, and
    whose [metadata] is an object ([Some]) or not. *)
Inductive RawDocument :=
| NotAnObject
| Document (areasField : option (list AreaData)) (metadataField : option RawMetadata).

Inductive Body :=
| InvalidJson (e : JsError)
| Json (doc : RawDocument).

Record Response := {
  status : Z;
  statusText : string;
  contentType : option string;
  body : Body
}.

(** How [fetch] settles: rejected (a network failure, or the [AbortError]
    raised when the 30 s timer aborts it) or resolved with a response. *)
Inductive FetchResult :=
| Rejected (e : JsError)
| Resolved (r : Response).

(** What one call of [loadAppData] observes: [navigator.onLine] on entry,
    the fetch, and [navigator.onLine] when the [catch] block runs. *)
Record Attempt := {
  onLineAtStart : bool;
  fetched : FetchResult;
  onLineAtCatch : bool
}.

Definition validate (doc : RawDocument) : JsError + AppData :=
  match doc with
  | NotAnObject => inl (mkError "Invalid data format: expected object")
  | Document None _ =>
      inl (mkError "Invalid data format: missing or invalid areas array")
  | Document (Some l) m =>
      if (length l =? 0)%nat then inl (mkError "No domain data available")
      else match m with
           | None => inl (mkError "Invalid data format: missing or invalid metadata")
           | Some md =>
               match totalAreasField md with
               | Some t =>
                   if t <=? 0
                   then inl (mkError "Invalid metadata: totalAreas must be a positive number")
                   else inr {| metadata :=
                                 {| totalAreas := t;
                                    areasWithAnalytics := areasWithAnalyticsField md;
                                    areasWithoutAnalytics := areasWithoutAnalyticsField md;
                                    matchRate := matchRateField md |};
                               areas := l |}
               | None =>
                   inl (mkError "Invalid metadata: totalAreas must be a positive number")
               end
           end
  end.

(** The [try] block: the error thrown, or the validated data. *)
Definition tryLoad (att : Attempt) : JsError + AppData :=
  if negb (onLineAtStart att) then
    inl (mkError "No internet connection. Please check your network and try again.")
  else
    match fetched att with
    | Rejected e => inl e
    | Resolved r =>
        if negb ((200 <=? status r) && (status r <=? 299)) then
          if status r =? 404 then
            inl (mkError "Data file not found. Please ensure the application is properly deployed.")
          else if 500 <=? status r then
            inl (mkError "Server error. Please try again later.")
          else
            inl (mkError ("HTTP " +:+ JS.toString (status r) +:+ ": " +:+ statusText r))
        else
          match contentType r with
          | Some ct =>
              if negb (String.eqb ct "") && JS.includes ct "application/json" then
                match body r with
                | InvalidJson e => inl e
                | Json doc => validate doc
                end
              else inl (mkError "Invalid response format. Expected JSON data.")
          | None => inl (mkError "Invalid response format. Expected JSON data.")
          end
    end.

(** [errorMessage] of the [catch] block. *)
Definition errorMessage (err : JsError) : string :=
  if String.eqb (name err) "AbortError" then "Request timed out"
  else if JS.includes (message err) "Failed to fetch" ||
          JS.includes (message err) "NetworkError"
  then "Network connection error"
  else if JS.includes (message err) "JSON" then "Data parsing error"
  else message err.

Record Loader := {
  loading : bool;
  error : option string;
  retryCount : nat;
  store : AppStore.State
}.

Definition mounted : Loader :=
  {| loading := true; error := None; retryCount := 0%nat;
     store := AppStore.initial |}.

(** A retry handed to [setTimeout]: the delay in milliseconds and the
    attempt number it will run. *)
Record Retry := { delay : Z; nextAttempt : nat }.

(** One call [loadAppData(attempt)], up to the end of its [finally] block:
    the component state and the retry it scheduled, if any. *)
Definition loadAppData (attempt : nat) (att : Attempt) (st : Loader)
  : Loader * option Retry :=
  match tryLoad att with
  | inr data =>
      ({| loading := false; error := None; retryCount := 0%nat;
          store := AppStore.setAppData data (store st) |}, None)
  | inl err =>
      ({| loading := false; error := Some (errorMessage err);
          retryCount := retryCount st; store := store st |},
       if (attempt <? 3)%nat && onLineAtCatch att
       then Some {| delay := 2 ^ Z.of_nat attempt * 1000;
                    nextAttempt := S attempt |}
       else None)
  end.

(** The state in which the timer callback leaves the component before it
    calls [loadAppData] again: [setRetryCount(attempt)]. *)
Definition setRetryCount (n : nat) (st : Loader) : Loader :=
  {| loading := loading st; error := error st; retryCount := n;
     store := store st |}.

(** One entry per call of [loadAppData]: the attempt number, the state it
    ends in and the retry it scheduled. *)
Record Call := { attemptNo : nat; after : Loader; scheduled : option Retry }.

(** The calls made from [loadAppData(attempt)] on as the scheduled timers
    fire, one observed [Attempt] per call. *)
Fixpoint loadFrom (attempt : nat) (atts : list Attempt) (st : Loader)
  : list Call :=
  match atts with
  | [] => []
  | att :: rest =>
      let (st', r) := loadAppData attempt att st in
      {| attemptNo := attempt; after := st'; scheduled := r |} ::
      match r with
      | None => []
      | Some r => loadFrom (nextAttempt r) rest (setRetryCount attempt st')
      end
  end.

(** The delays waited between the calls. *)
Definition delays (calls : list Call) : list Z :=
  omap (fun c => delay <$> scheduled c) calls.

End App.

(** ** Store selectors (stores/appStore.ts) *)

Module Selectors.

(** [selectSearchStats] without [hasActiveFilters], which counts keys whose
    value is [undefined] and so needs more than this model of the filter
    object keeps. *)
Record SearchStats := {
  totalAreasStat : nat;
  filteredResults : nat;
  highlightedCount : nat;
  hasActiveSearch : bool
}.

Definition selectSearchStats (s : AppStore.State) : SearchStats :=
  {| totalAreasStat :=
       match AppStore.appData s with
       | Some data => length (areas data)
       | None => 0%nat
       end;
     filteredResults := length (AppStore.results s);
     highlightedCount := length (AppStore.highlightedAreas s);
     hasActiveSearch := (0 <? String.length (JS.trim (AppStore.query s)))%nat |}.

End Selectors.

(** ** Utilities (utils/index.ts) *)

Module Utils.

Definition calculateArea (width height : Z) : Z := Z.max 0 (width * height).

Definition rectanglesOverlap (rect1 rect2 : AreaCoordinates) : bool :=
  negb ((x rect1 + width rect1 <=? x rect2) ||
        (x rect2 + width rect2 <=? x rect1) ||
        (y rect1 + height rect1 <=? y rect2) ||
        (y rect2 + height rect2 <=? y rect1)).

(** [domainUtils.getTLD] *)
Definition getTLD (d : string) : string :=
  if String.eqb d "" then ""
  else
    let parts := JS.split "." d in
    if (1 <? length parts)%nat then default "" (last parts) else "".

(** [domainUtils.isSubdomain] *)
Definition isSubdomain (d : string) : bool :=
  if String.eqb d "" then false
  else (2 <? length (JS.split "." d))%nat.

Definition NO_ERROR : string := "NOERROR".
Definition OK : Z := 200.
Definition REGISTERED : string := "registered".

Definition isSome {A} (p : A -> bool) (o : option A) : bool :=
  match o with Some v => p v | None => false end.

(** [analyticsUtils.isDomainHealthy] *)
Definition isDomainHealthy (an : option DomainAnalytics) : bool :=
  match an with
  | None => false
  | Some a =>
      isSome (fun v => String.eqb v NO_ERROR) (dns_status a) &&
      isSome (fun v => v =? OK) (http_status a) &&
      isSome (fun v => String.eqb v REGISTERED) (whois_status a)
  end.

(** [analyticsUtils.getDomainHealthScore] *)
Definition getDomainHealthScore (an : option DomainAnalytics) : Z :=
  match an with
  | None => 0
  | Some a =>
      let score := 0 in
      let score :=
        if isSome (fun v => String.eqb v NO_ERROR) (dns_status a)
        then score + 40 else score in
      let score :=
        if isSome (fun v => v =? OK) (http_status a) then score + 30
        else if isSome (fun v => (200 <=? v) && (v <? 400)) (http_status a)
             then score + 20 else score in
      let score :=
        if isSome (fun v => String.eqb v REGISTERED) (whois_status a)
        then score + 20 else score in
      let score :=
        if isSome (fun ns => (0 <? length ns)%nat) (nameservers a)
        then score + 10 else score in
      Z.min 100 score
  end.

Record HealthBuckets := {
  healthy : list AreaData;
  warning : list AreaData;
  critical : list AreaData;
  unknown : list AreaData
}.

(** One turn of the [forEach] of [categorizeDomainsByHealth]. *)
Definition pushByHealth (result : HealthBuckets) (a : AreaData) : HealthBuckets :=
  let score := getDomainHealthScore (analytics a) in
  if negb (hasAnalytics a) then
    {| healthy := healthy result; warning := warning result;
       critical := critical result; unknown := unknown result ++ [a] |}
  else if 80 <=? score then
    {| healthy := healthy result ++ [a]; warning := warning result;
       critical := critical result; unknown := unknown result |}
  else if 50 <=? score then
    {| healthy := healthy result; warning := warning result ++ [a];
       critical := critical result; unknown := unknown result |}
  else
    {| healthy := healthy result; warning := warning result;
       critical := critical result ++ [a]; unknown := unknown result |}.

Definition categorizeDomainsByHealth (l : list AreaData) : HealthBuckets :=
  fold_left pushByHealth l
    {| healthy := []; warning := []; critical := []; unknown := [] |}.

(** [performanceUtils.batchProcess] for a batch size that is a natural
    number.  The [for] loop runs while [i < items.length]; [fuel] bounds
    the number of turns and [None] means the bound was reached. *)
Fixpoint batchLoop {T R} (fuel : nat) (items : list T) (processor : T -> R)
    (batchSize i : nat) (results : list R) : option (list R) :=
  match fuel with
  | O => None
  | S fuel' =>
      if (i <? length items)%nat then
        let batch := take batchSize (drop i items) in
        batchLoop fuel' items processor batchSize (i + batchSize)
                  (results ++ map processor batch)
      else Some results
  end.

Definition batchProcess {T R} (fuel : nat) (items : list T) (processor : T -> R)
    (batchSize : nat) : option (list R) :=
  batchLoop fuel items processor batchSize 0 [].

(** [performanceUtils.throttle]: one call of the returned function at time
    [now] ([Date.now()]) with the closure variable [lastCall]; the new
    [lastCall] and whether [fn] ran. *)
Definition throttleCall (delay lastCall now : Z) : Z * bool :=
  if delay <=? now - lastCall then (now, true) else (lastCall, false).

(** The times at which [fn] ran, for the calls made at [times]. *)
Fixpoint throttleRuns (delay lastCall : Z) (times : list Z) : list Z :=
  match times with
  | [] => []
  | now :: rest =>
      let (lastCall', ran) := throttleCall delay lastCall now in
      if ran then now :: throttleRuns delay lastCall' rest
      else throttleRuns delay lastCall' rest
  end.

(** A throttled function starts with [lastCall = 0]. *)
Definition throttle (delay : Z) (times : list Z) : list Z :=
  throttleRuns delay 0 times.

End Utils.

(** ** The statistics bar (components/TopBar.tsx) *)

Module TopBar.

Record Stats := {
  total : Z;
  registered : Z;
  available : Z;
  dnsResolved : Z;
  dnsErrors : Z;
  httpSuccess : Z;
  httpErrors : Z
}.

Definition count (p : AreaData -> bool) (l : list AreaData) : Z :=
  Z.of_nat (length (List.filter p l)).

(** The [stats] memo, without the three percentages (formatted floating
    point numbers). *)
Definition stats (data : AppData) : Stats :=
  let l := areas data in
  let total := Z.of_nat (length l) in
  let registered :=
    count (fun a => Utils.isSome (fun v => String.eqb v "registered")
                      (analytics a ≫= whois_status)) l in
  let dnsResolved :=
    count (fun a => Utils.isSome (fun v => String.eqb v "NOERROR")
                      (analytics a ≫= dns_status)) l in
  let httpSuccess :=
    count (fun a => Utils.isSome (fun v => v =? 200)
                      (analytics a ≫= http_status)) l in
  {| total := total;
     registered := registered; available := total - registered;
     dnsResolved := dnsResolved; dnsErrors := total - dnsResolved;
     httpSuccess := httpSuccess; httpErrors := total - httpSuccess |}.

End TopBar.

(** ** CSV export and file names (components/ExportData.tsx) *)

Module ExportCsv.
Import ExportData.

(** [xs.join(sep)] *)
Fixpoint join (sep : string) (xs : list string) : string :=
  match xs with
  | [] => EmptyString
  | s :: r =>
      match r with
      | [] => s
      | _ :: _ => s +:+ sep +:+ join sep r
      end
  end.

Definition doubleQuote : string := String (ascii_of_nat 34) EmptyString.
Definition lineFeed : string := String (ascii_of_nat 10) EmptyString.

(** The template [`"${v}"`]. *)
Definition quoted (v : string) : string := doubleQuote +:+ v +:+ doubleQuote.

(** [v || ''] for an optional string. *)
Definition orEmpty (o : option string) : string := default EmptyString o.

(** [v || ''] for an optional number, as it prints in a template: [0] is
    falsy. *)
Definition numberOrEmpty (o : option Z) : string :=
  match o with
  | Some n => if n =? 0 then EmptyString else JS.toString n
  | None => EmptyString
  end.

Definition csvHeaders (o : ExportOptions) : list string :=
  ["Domain"; "Title"] ++
  (if includeCoordinates o then ["X"; "Y"; "Width"; "Height"] else []) ++
  (if includeAnalytics o
   then ["DNS Status"; "HTTP Status"; "WHOIS Status"; "Has Analytics"] else []) ++
  (if includeTimestamps o
   then ["Registered At"; "Expiry Date"; "Analyzed At"] else []).

Definition csvRow (o : ExportOptions) (a : AreaData) : list string :=
  [quoted (domain a); quoted (title a)] ++
  (if includeCoordinates o
   then [JS.toString (x (coordinates a)); JS.toString (y (coordinates a));
         JS.toString (width (coordinates a)); JS.toString (height (coordinates a))]
   else []) ++
  (if includeAnalytics o
   then [quoted (orEmpty (analytics a ≫= dns_status));
         quoted (numberOrEmpty (analytics a ≫= http_status));
         quoted (orEmpty (analytics a ≫= whois_status));
         if hasAnalytics a then "true" else "false"]
   else []) ++
  (if includeTimestamps o
   then [quoted (orEmpty (analytics a ≫= registered_at));
         quoted (orEmpty (analytics a ≫= expiry_date));
         quoted (orEmpty (analytics a ≫= analyzed_at))]
   else []).

(** The [csvRows] array: the header line, then one line per area. *)
Definition csvRows (o : ExportOptions) (data : list AreaData) : list string :=
  join "," (csvHeaders o) :: map (fun a => join "," (csvRow o a)) data.

Definition generateCSV (o : ExportOptions) (data : list AreaData) : string :=
  join lineFeed (csvRows o data).

Definition isAlphaNumeric (c : ascii) : bool :=
  let n := nat_of_ascii c in
  ((48 <=? n)%nat && (n <=? 57)%nat) || ((65 <=? n)%nat && (n <=? 90)%nat) ||
  ((97 <=? n)%nat && (n <=? 122)%nat).

(** [query.replace(/[^a-zA-Z0-9]/g, '_')] *)
Fixpoint sanitize (q : string) : string :=
  match q with
  | EmptyString => EmptyString
  | String c r => String (if isAlphaNumeric c then c else "_"%char) (sanitize r)
  end.

(** [baseFilename] of [handleExport]; [timestamp] is the date part of
    [new Date().toISOString()]. *)
Definition baseFilename (q timestamp : string) : string :=
  if negb (String.eqb q "")
  then "mdh-search-" +:+ sanitize q +:+ "-" +:+ timestamp
  else "mdh-domains-" +:+ timestamp.

Definition extension (f : ExportFormat) : string :=
  match f with csv => ".csv" | json => ".json" | txt => ".txt" end.

Definition filename (o : ExportOptions) (q timestamp : string) : string :=
  baseFilename q timestamp +:+ extension (format o).

End ExportCsv.

(** ** List navigation (hooks/useKeyboardNavigation.ts) *)

Module ListNavigation.

(** [currentIndex.current] after [navigateUp] on a list of [n] items. *)
Definition navigateUp (n : Z) (loop : bool) (currentIndex : Z) : Z :=
  if n =? 0 then currentIndex
  else if currentIndex <=? 0 then (if loop then n - 1 else 0)
  else currentIndex - 1.

Definition navigateDown (n : Z) (loop : bool) (currentIndex : Z) : Z :=
  if n =? 0 then currentIndex
  else if n - 1 <=? currentIndex then (if loop then 0 else n - 1)
  else currentIndex + 1.

(** Whether [selectCurrent] calls [onSelect]. *)
Definition selectCurrent (n currentIndex : Z) : bool :=
  (0 <=? currentIndex) && (currentIndex <? n).

Definition initialIndex : Z := -1.

End ListNavigation.

(** ** The build scripts (parse-area-map.js, integrate-data.js) *)

Module Scripts.

Fixpoint dropChars (n : nat) (s : string) : string :=
  match n, s with
  | O, _ => s
  | S n', String _ r => dropChars n' r
  | S _, EmptyString => EmptyString
  end.

(** [s.replace(pat, rep)] for a string pattern: the first occurrence. *)
Fixpoint replaceFirst (pat rep s : string) : string :=
  if String.prefix pat s then rep +:+ dropChars (String.length pat) s
  else match s with
       | EmptyString => EmptyString
       | String c r => String c (replaceFirst pat rep r)
       end.

Section AreaMap.
(** [new URL(href).hostname], [None] when the constructor throws. *)
Variable hostname : string -> option string.

(** What the three attribute patterns capture in one [<area ...>] tag. *)
Record AreaTag := {
  coordsAttr : option string;
  hrefAttr : option string;
  titleAttr : option string
}.

Record ParsedArea := {
  p_id : nat;
  p_domain : string;
  p_title : string;
  p_href : string;
  p_coordinates : ParseAreaMap.ScriptCoordinates;
  p_rawCoords : list (option Z)
}.

Definition domainOfHref (h : string) : string :=
  if JS.startsWith h "http" then
    match hostname h with
    | Some host => replaceFirst "www." "" host
    | None => h
    end
  else h.

(** The callback of [areas.map]: [null] without [coords] or [href]. *)
Definition parseTag (index : nat) (t : AreaTag) : option ParsedArea :=
  match coordsAttr t, hrefAttr t with
  | Some c, Some h =>
      Some {| p_id := index;
              p_domain := domainOfHref h;
              p_title := default "" (titleAttr t);
              p_href := h;
              p_coordinates := ParseAreaMap.convert c;
              p_rawCoords := map JS.Number (JS.split "," c) |}
  | _, _ => None
  end.

(** [areas.map(...).filter(Boolean)] *)
Definition parsedAreas (tags : list AreaTag) : list ParsedArea :=
  omap (fun o => o) (imap parseTag tags).

(** [summary.uniqueDomains] *)
Definition uniqueDomains (l : list ParsedArea) : nat :=
  length (JS.arrayFromSet (map p_domain l)).

End AreaMap.

(** integrate-data.js *)

Definition cleanDomain (d : string) : string :=
  replaceFirst "www." "" (JS.toLowerCase d).

(** [analyticsMap]: one [set] per analytics record, keyed by its cleaned
    domain. *)
Definition analyticsMap (domains : list DomainAnalytics)
  : gmap string DomainAnalytics :=
  fold_left (fun m a => <[cleanDomain (an_domain a) := a]> m) domains ∅.

(** [{...area, analytics: analytics || null, hasAnalytics: !!analytics}] *)
Definition integrate (m : gmap string DomainAnalytics) (a : AreaData) : AreaData :=
  let found := m !! cleanDomain (domain a) in
  {| area_id := area_id a; domain := domain a; title := title a;
     href := href a; coordinates := coordinates a; rawCoords := rawCoords a;
     analytics := found; hasAnalytics := JS.defined found |}.

Definition integratedData (areaMapData : list AreaData)
    (domains : list DomainAnalytics) : list AreaData :=
  map (integrate (analyticsMap domains)) areaMapData.

(** The counts written to [appData.metadata]. *)
Definition withAnalytics (l : list AreaData) : Z :=
  Z.of_nat (length (List.filter hasAnalytics l)).

Definition withoutAnalytics (l : list AreaData) : Z :=
  Z.of_nat (length l) - withAnalytics l.

End Scripts.

(** ** A runtime for evaluating examples *)

(** Matching by case-insensitive substring of the domain or the title, in
    collection order, and dates written as their time value. *)
Definition exampleRuntime : Runtime :=
  {| fuseSearch := fun docs pattern limit =>
       take limit
         (List.filter
            (fun a => JS.includes (JS.toLowerCase (domain a)) (JS.toLowerCase pattern) ||
                      JS.includes (JS.toLowerCase (title a)) (JS.toLowerCase pattern))
            docs);
     dateValue := JS.Number |}.

Definition mkAnalytics (d dns : string) (http : Z) (whois : string)
  : DomainAnalytics :=
  {| an_domain := d; dns_status := Some dns; http_status := Some http;
     whois_status := Some whois; analyzed_at := None; registered_at := None;
     expiry_date := None; last_updated := None; nameservers := Some [] |}.

Definition mkArea (i : Z) (d : string) (c : AreaCoordinates)
    (an : option DomainAnalytics) : AreaData :=
  {| area_id := i; domain := d; title := ""; href := "http://" +:+ d;
     coordinates := c;
     rawCoords := [x c; y c; x c + width c; y c + height c];
     analytics := an; hasAnalytics := JS.defined an |}.

Definition mkData (l : list AreaData) : AppData :=
  {| metadata := {| totalAreas := Z.of_nat (length l);
                    areasWithAnalytics := 0; areasWithoutAnalytics := 0;
                    matchRate := "" |};
     areas := l |}.

Definition square : AreaCoordinates := {| x := 0; y := 0; width := 10; height := 10 |}.

(** The three areas of the end-to-end scenario. *)
Definition areaA : AreaData :=
  mkArea 1 "a.com" square (Some (mkAnalytics "a.com" "NOERROR" 200 "registered")).
Definition areaB : AreaData := mkArea 2 "b.com" square None.
Definition areaC : AreaData :=
  mkArea 3 "c.org" square (Some (mkAnalytics "c.org" "NXDOMAIN" 0 "available")).
Definition threeAreas : AppData := mkData [areaA; areaB; areaC].

(** ** The query coordinator as the specification states it *)

(** Sections 3, 4.3 and 4.4 of the specification, written down from its
    text and independently of the store, for comparison with the store.
    The registry is the list of areas, and the fuzzy index is the one
    built from the registry. *)
Module Coordinator.
Section Algorithm.
Context `{Runtime}.

Definition CAP : nat := 1000.
Definition MIN_MATCH_LEN : nat := 2.

(** Step 3: the domain or the title starts with the query, letter case
    ignored. *)
Definition prefixMatch (q : string) (a : AreaData) : bool :=
  JS.startsWith (JS.toLowerCase (domain a)) (JS.toLowerCase q) ||
  JS.startsWith (JS.toLowerCase (title a)) (JS.toLowerCase q).

(** Steps 1 to 4: the candidate set, truncated to the cap. *)
Definition candidates (registry : list AreaData) (query : string)
  : list AreaData :=
  let q := JS.trim query in
  if (String.length q =? 0)%nat then take CAP registry
  else if (String.length q <? MIN_MATCH_LEN)%nat
       then take CAP (List.filter (prefixMatch q) registry)
       else take CAP (fuseSearch registry q CAP).

(** Section 4.4: one predicate per filter key; an absent key puts no
    constraint. *)
Definition dnsStatusOk (f : SearchFilters) (a : AreaData) : bool :=
  match dnsStatus f with
  | None => true
  | Some v => bool_decide (analytics a ≫= dns_status = Some v)
  end.

Definition httpStatusOk (f : SearchFilters) (a : AreaData) : bool :=
  match httpStatus f with
  | None => true
  | Some v => bool_decide (JS.toString <$> (analytics a ≫= http_status) = Some v)
  end.

Definition whoisStatusOk (f : SearchFilters) (a : AreaData) : bool :=
  match whoisStatus f with
  | None => true
  | Some v => bool_decide (analytics a ≫= whois_status = Some v)
  end.

Definition hasAnalyticsOk (f : SearchFilters) (a : AreaData) : bool :=
  match f_hasAnalytics f with
  | None => true
  | Some v => bool_decide (hasAnalytics a = v)
  end.

(** The length of the domain within the inclusive bounds that are
    specified. *)
Definition domainLengthOk (f : SearchFilters) (a : AreaData) : bool :=
  match domainLength f with
  | None => true
  | Some r =>
      let n := Z.of_nat (String.length (domain a)) in
      from_option (fun m => m <=? n) true (min r) &&
      from_option (fun m => n <=? m) true (max r)
  end.

(** A date is specified when it is present and not the empty string. *)
Definition specified (o : option string) : option string :=
  match o with
  | Some EmptyString => None
  | _ => o
  end.

(** Comparison of two dates after parsing; a date that does not parse
    compares with nothing. *)
Definition notBefore (d b : string) : bool :=
  match dateValue d, dateValue b with
  | Some t, Some u => u <=? t
  | _, _ => false
  end.

Definition notAfter (d b : string) : bool :=
  match dateValue d, dateValue b with
  | Some t, Some u => t <=? u
  | _, _ => false
  end.

(** [registered_at] within the inclusive bounds that are specified; an
    area without [registered_at] is excluded. *)
Definition dateRangeOk (f : SearchFilters) (a : AreaData) : bool :=
  match dateRange f with
  | None => true
  | Some r =>
      match specified (start r), specified (end_ r) with
      | None, None => true
      | s, e =>
          match specified (analytics a ≫= registered_at) with
          | None => false
          | Some d =>
              from_option (notBefore d) true s && from_option (notAfter d) true e
          end
      end
  end.

(** Boolean match against [nameservers.length > 0]. *)
Definition hasNameserversOk (f : SearchFilters) (a : AreaData) : bool :=
  match hasNameservers f with
  | None => true
  | Some v =>
      bool_decide (v = match analytics a ≫= nameservers with
                       | Some (_ :: _) => true
                       | _ => false
                       end)
  end.

(** The predicates combined with logical AND. *)
Definition accepts (f : SearchFilters) (a : AreaData) : bool :=
  dnsStatusOk f a && httpStatusOk f a && whoisStatusOk f a &&
  hasAnalyticsOk f a && domainLengthOk f a && dateRangeOk f a &&
  hasNameserversOk f a.

(** Steps 1 to 5: [results] for a query and a filter set. *)
Definition compute (registry : list AreaData) (query : string)
    (f : SearchFilters) : list AreaData :=
  List.filter (accepts f) (candidates registry query).

(** Step 6: the distinct domains of the results, as a set. *)
Definition highlightedDomains (r : list AreaData) : gset string :=
  list_to_set (map domain r).

(** The invariant of the query state (section 3) on a store over
    [registry]. *)
Definition invariant (registry : list AreaData) (s : AppStore.State) : Prop :=
  AppStore.results s =
    compute registry (AppStore.query s) (AppStore.filters s) /\
  (list_to_set (AppStore.highlightedAreas s) : gset string) =
    highlightedDomains (AppStore.results s).

End Algorithm.
End Coordinator.

(** ** Predicates used in the statements *)

(** Every code unit of [s] satisfies [p]. *)
Fixpoint allChars (p : ascii -> bool) (s : string) : bool :=
  match s with
  | EmptyString => true
  | String c r => p c && allChars p r
  end.

(** The decimal digits and the minus sign. *)
Definition numeralChar (c : ascii) : bool :=
  let n := nat_of_ascii c in
  ((48 <=? n)%nat && (n <=? 57)%nat) || (n =? 45)%nat.

(** The coordinate string [x1,y1,x2,y2] of four integers. *)
Definition quad (x1 y1 x2 y2 : Z) : string :=
  JS.toString x1 +:+ "," +:+ JS.toString y1 +:+ "," +:+
  JS.toString x2 +:+ "," +:+ JS.toString y2.

Section Predicates.
Context `{Runtime}.
Import AppStore.

(** An area passes when every pushed condition accepts it. *)
Definition passes (f : SearchFilters) (a : AreaData) : bool :=
  forallb (fun c => c a) (filterConditions f).

(** A key of [f'] keeps the value it has in [f] whenever [f] sets it. *)
Definition keeps {A} (o o' : option A) : Prop := o = None \/ o' = o.

(** The same for the two range filters, bound by bound: a range set in [f]
    is set in [f'] with at least the bounds it has in [f]. *)
Definition keepsLength (o o' : option LengthRange) : Prop :=
  match o with
  | None => True
  | Some r => exists r', o' = Some r' /\ keeps (min r) (min r') /\ keeps (max r) (max r')
  end.

Definition keepsDates (o o' : option DateRange) : Prop :=
  match o with
  | None => True
  | Some r => exists r', o' = Some r' /\ keeps (start r) (start r') /\ keeps (end_ r) (end_ r')
  end.

(** [f'] is [f] with further filters added: every key (and every bound of
    a range) set in [f] has the same value in [f']. *)
Definition addsFilters (f f' : SearchFilters) : Prop :=
  keeps (dnsStatus f) (dnsStatus f') /\
  keeps (httpStatus f) (httpStatus f') /\
  keeps (whoisStatus f) (whoisStatus f') /\
  keeps (f_hasAnalytics f) (f_hasAnalytics f') /\
  keepsLength (domainLength f) (domainLength f') /\
  keepsDates (dateRange f) (dateRange f') /\
  keeps (hasNameservers f) (hasNameservers f') /\
  keeps (searchInTitle f) (searchInTitle f') /\
  keeps (sortBy f) (sortBy f') /\
  keeps (sortDirection f) (sortDirection f').

(** An active analytics-based filter of [f] constrains a field that the
    analytics of [a] do not have ([analytics] itself may be [null]); for
    [hasNameservers] only the value [true] counts. *)
Definition constrainsMissingField (f : SearchFilters) (a : AreaData) : Prop :=
  (is_Some (dnsStatus f) /\ analytics a ≫= dns_status = None) \/
  (is_Some (httpStatus f) /\ analytics a ≫= http_status = None) \/
  (is_Some (whoisStatus f) /\ analytics a ≫= whois_status = None) \/
  (exists r, dateRange f = Some r /\
             truthy (start r) || truthy (end_ r) = true /\
             analytics a ≫= registered_at = None) \/
  (hasNameservers f = Some true /\ analytics a ≫= nameservers = None).

(** The store holds a dataset and its index. *)
Definition hasData (s : State) : Prop := is_Some (fuse s) /\ is_Some (appData s).

(** The state after [setAppData] on the initial store. *)
Definition loaded (data : AppData) : State := setAppData data initial.

(** Whether [setSearchQuery] or [setFilters] has run since the start of
    the sequence or since the last [clearSearch]. *)
Definition searchedAfter (b : bool) (a : Action) : bool :=
  match a with
  | SetSearchQuery _ | SetFilters _ => true
  | ClearSearch => false
  | _ => b
  end.

Definition searched (acts : list Action) : bool :=
  fold_left searchedAfter acts false.

(** Whether no [highlightDomain] or [clearHighlights] has run since the
    last [setSearchQuery], [setFilters] or [clearSearch] (or since the
    start). *)
Definition untouchedAfter (b : bool) (a : Action) : bool :=
  match a with
  | SetSearchQuery _ | SetFilters _ | ClearSearch => true
  | HighlightDomain _ | ClearHighlights => false
  | _ => b
  end.

Definition untouched (acts : list Action) : bool :=
  fold_left untouchedAfter acts true.

End Predicates.

Definition onlyDns (v : string) : SearchFilters :=
  {| dnsStatus := Some v; httpStatus := None; whoisStatus := None;
     f_hasAnalytics := None; domainLength := None; dateRange := None;
     hasNameservers := None; searchInTitle := None; sortBy := None;
     sortDirection := None |}.

Definition onlyWhois (v : string) : SearchFilters :=
  {| dnsStatus := None; httpStatus := None; whoisStatus := Some v;
     f_hasAnalytics := None; domainLength := None; dateRange := None;
     hasNameservers := None; searchInTitle := None; sortBy := None;
     sortDirection := None |}.

Definition onlyNameservers (v : bool) : SearchFilters :=
  {| dnsStatus := None; httpStatus := None; whoisStatus := None;
     f_hasAnalytics := None; domainLength := None; dateRange := None;
     hasNameservers := Some v; searchInTitle := None; sortBy := None;
     sortDirection := None |}.

(** Two areas of one domain, and an area whose rectangle leaves the
    image. *)
Definition dupFirst : AreaData :=
  mkArea 1 "dup.com" square (Some (mkAnalytics "dup.com" "NOERROR" 200 "registered")).
Definition dupSecond : AreaData :=
  mkArea 2 "dup.com" {| x := 20; y := 0; width := 10; height := 10 |} None.
Definition bigRectangle : AreaCoordinates :=
  {| x := 990; y := 990; width := 50; height := 50 |}.
Definition bigArea : AreaData := mkArea 7 "big.com" bigRectangle None.
Definition bigHtmlArea : InteractiveMap.HtmlMapArea :=
  {| InteractiveMap.h_coords := "990,990,1040,1040";
     InteractiveMap.h_href := "http://big.com";
     InteractiveMap.h_title := "";
     InteractiveMap.h_domain := "big.com" |}.

(** The areas of a dataset that have the domain [d], in dataset order. *)
Definition withDomain (d : string) (l : list AreaData) : list AreaData :=
  List.filter (fun a => String.eqb (domain a) d) l.

(** The placement that the specification's tooltip positioner gives:
    default offsets 15 and -10, flip to [pointer.x - 320 - 5] on right
    overflow, clamp to the padding 20; [referenceTopBelow] is the top when
    the tooltip is not placed above the pointer. *)
Definition referenceLeft (pointerX viewportWidth : Z) : Z :=
  let left := pointerX + 15 in
  let left := if viewportWidth - 20 <? left + 320 then pointerX - 320 - 5 else left in
  Z.max 20 left.

Definition referenceTopBelow (pointerY : Z) : Z := Z.max 20 (pointerY - 10).

(** The whole dataset as the export sees it. *)
Definition registry (s : AppStore.State) : list AreaData :=
  match AppStore.appData s with
  | Some data => areas data
  | None => []
  end.

Definition exportFiltered : ExportData.ExportOptions :=
  {| ExportData.format := ExportData.csv;
     ExportData.includeAnalytics := true;
     ExportData.includeCoordinates := false;
     ExportData.includeTimestamps := true;
     ExportData.onlyFiltered := true |}.

(** Observed attempts: a fetch aborted by the timeout, a body that is not
    JSON, a document with an empty [areas] array, a failure while offline
    and a well-formed document. *)
Definition jsonResponse (b : App.Body) : App.FetchResult :=
  App.Resolved {| App.status := 200; App.statusText := "OK";
                  App.contentType := Some "application/json"; App.body := b |}.

Definition someMetadata : App.RawMetadata :=
  {| App.totalAreasField := Some 3; App.areasWithAnalyticsField := 2;
     App.areasWithoutAnalyticsField := 1; App.matchRateField := "66.7%" |}.

Definition attTimeout : App.Attempt :=
  {| App.onLineAtStart := true;
     App.fetched := App.Rejected {| App.name := "AbortError";
                                    App.message := "The user aborted a request." |};
     App.onLineAtCatch := true |}.

Definition attInvalidJson : App.Attempt :=
  {| App.onLineAtStart := true;
     App.fetched := jsonResponse
       (App.InvalidJson {| App.name := "SyntaxError";
                           App.message := "Unexpected token < in JSON at position 0" |});
     App.onLineAtCatch := true |}.

Definition attEmptyAreas : App.Attempt :=
  {| App.onLineAtStart := true;
     App.fetched := jsonResponse (App.Json (App.Document (Some []) (Some someMetadata)));
     App.onLineAtCatch := true |}.

Definition attOffline : App.Attempt :=
  {| App.onLineAtStart := false;
     App.fetched := App.Rejected {| App.name := "TypeError";
                                    App.message := "Failed to fetch" |};
     App.onLineAtCatch := false |}.

Definition attGood : App.Attempt :=
  {| App.onLineAtStart := true;
     App.fetched := jsonResponse
       (App.Json (App.Document (Some [areaA; areaB; areaC]) (Some someMetadata)));
     App.onLineAtCatch := true |}.

(** ** Further predicates and fixtures *)

(** The index and the lookup map belong to the dataset the store holds. *)
Definition indexed (s : AppStore.State) : Prop :=
  match AppStore.appData s with
  | Some data =>
      AppStore.fuse s = Some {| AppStore.docs := areas data |} /\
      AppStore.domainMap s = Some (AppStore.buildDomainMap (areas data))
  | None => AppStore.fuse s = None /\ AppStore.domainMap s = None
  end.

Definition isSetAppData (a : AppStore.Action) : bool :=
  match a with AppStore.SetAppData _ => true | _ => false end.

Definition onlyHasAnalytics (v : bool) : SearchFilters :=
  {| dnsStatus := None; httpStatus := None; whoisStatus := None;
     f_hasAnalytics := Some v; domainLength := None; dateRange := None;
     hasNameservers := None; searchInTitle := None; sortBy := None;
     sortDirection := None |}.

Definition onlyHttp (v : string) : SearchFilters :=
  {| dnsStatus := None; httpStatus := Some v; whoisStatus := None;
     f_hasAnalytics := None; domainLength := None; dateRange := None;
     hasNameservers := None; searchInTitle := None; sortBy := None;
     sortDirection := None |}.

(** A filter object that sets only keys without a condition: a sort key,
    an empty length range and a date range whose start is the empty
    string. *)
Definition inertFilters : SearchFilters :=
  {| dnsStatus := None; httpStatus := None; whoisStatus := None;
     f_hasAnalytics := None;
     domainLength := Some {| min := None; max := None |};
     dateRange := Some {| start := Some ""; end_ := None |};
     hasNameservers := None; searchInTitle := Some true;
     sortBy := Some "domain"; sortDirection := Some "asc" |}.

Definition onlyDates (r : DateRange) : SearchFilters :=
  {| dnsStatus := None; httpStatus := None; whoisStatus := None;
     f_hasAnalytics := None; domainLength := None; dateRange := Some r;
     hasNameservers := None; searchInTitle := None; sortBy := None;
     sortDirection := None |}.

Definition digitChar (c : ascii) : bool :=
  let n := nat_of_ascii c in (48 <=? n)%nat && (n <=? 57)%nat.

Definition notDash (c : ascii) : bool := negb (Ascii.eqb c "-").

(** The part of an HTML area's render key that does not depend on its
    index. *)
Definition htmlName (h : InteractiveMap.HtmlMapArea) : string :=
  InteractiveMap.h_domain h +:+ "-" +:+ InteractiveMap.h_coords h.

Definition htmlAreaOf (d c : string) : InteractiveMap.HtmlMapArea :=
  {| InteractiveMap.h_coords := c; InteractiveMap.h_href := "http://" +:+ d;
     InteractiveMap.h_title := ""; InteractiveMap.h_domain := d |}.

(** The message [setError] receives for an attempt, [None] when the
    attempt succeeds. *)
Definition shownError (att : App.Attempt) : option string :=
  match App.tryLoad att with
  | inl e => Some (App.errorMessage e)
  | inr _ => None
  end.

(** Whether the [try] block of an attempt throws. *)
Definition fails (att : App.Attempt) : bool :=
  match App.tryLoad att with inl _ => true | inr _ => false end.

Definition jsonContentType (ct : option string) : bool :=
  match ct with
  | Some t => negb (String.eqb t "") && JS.includes t "application/json"
  | None => false
  end.

Definition okStatus (st : Z) : bool := (200 <=? st) && (st <=? 299).

(** An HTML page served with status 200 in place of the JSON file. *)
Definition attHtmlPage : App.Attempt :=
  {| App.onLineAtStart := true;
     App.fetched := App.Resolved
       {| App.status := 200; App.statusText := "OK";
          App.contentType := Some "text/html";
          App.body := App.InvalidJson {| App.name := "SyntaxError";
                                         App.message := "Unexpected token <" |} |};
     App.onLineAtCatch := true |}.

(** The dataset that [attGood] delivers. *)
Definition goodData : AppData :=
  {| metadata := {| totalAreas := 3; areasWithAnalytics := 2;
                    areasWithoutAnalytics := 1; matchRate := "66.7%" |};
     areas := [areaA; areaB; areaC] |}.

(** The second call of a load that first times out and then receives the
    HTML page. *)
Definition secondCall : App.Call :=
  {| App.attemptNo := 2;
     App.after := {| App.loading := false;
                     App.error := Some "Data parsing error";
                     App.retryCount := 1; App.store := AppStore.initial |};
     App.scheduled := Some {| App.delay := 4000; App.nextAttempt := 3 |} |}.

(** The area [a] with the HTTP status of its analytics replaced. *)
Definition withHttpStatus (v : option Z) (a : AreaData) : AreaData :=
  {| area_id := area_id a; domain := domain a; title := title a; href := href a;
     coordinates := coordinates a; rawCoords := rawCoords a;
     analytics :=
       (fun an => {| an_domain := an_domain an; dns_status := dns_status an;
                     http_status := v; whois_status := whois_status an;
                     analyzed_at := analyzed_at an;
                     registered_at := registered_at an;
                     expiry_date := expiry_date an;
                     last_updated := last_updated an;
                     nameservers := nameservers an |}) <$> analytics a;
     hasAnalytics := hasAnalytics a |}.

(** The pixel [(px, py)] lies in the rectangle [r]. *)
Definition covers (r : AreaCoordinates) (px py : Z) : Prop :=
  x r <= px < x r + width r /\ y r <= py < y r + height r.

(** The health category the buckets are filled by. *)
Definition isHealthy (a : AreaData) : bool :=
  hasAnalytics a && (80 <=? Utils.getDomainHealthScore (analytics a)).
Definition isWarning (a : AreaData) : bool :=
  hasAnalytics a && negb (80 <=? Utils.getDomainHealthScore (analytics a)) &&
  (50 <=? Utils.getDomainHealthScore (analytics a)).
Definition isCritical (a : AreaData) : bool :=
  hasAnalytics a && negb (80 <=? Utils.getDomainHealthScore (analytics a)) &&
  negb (50 <=? Utils.getDomainHealthScore (analytics a)).

(** Three adjacent tiles, the outer two of one domain. *)
Definition tile (x0 : Z) : AreaCoordinates :=
  {| x := x0; y := 0; width := 10; height := 10 |}.

Definition tiles : AppData :=
  mkData [mkArea 0 "a.com" (tile 0) None; mkArea 1 "b.com" (tile 10) None;
          mkArea 2 "a.com" (tile 20) None].

(** ** Reading a CSV text *)

(** A reader of comma-separated text in the usual convention: a double
    quote switches between quoted and unquoted text and is not part of the
    field, a comma outside quotes ends a field, a line feed outside quotes
    ends a record.  The result is the list of records, each a list of
    fields. *)
Module CsvReader.

Definition addChar (c : ascii) (t : list (list string)) : list (list string) :=
  match t with
  | (f :: fs) :: records => (String c f :: fs) :: records
  | [] :: records => [String c EmptyString] :: records
  | [] => [[String c EmptyString]]
  end.

Definition newField (t : list (list string)) : list (list string) :=
  match t with
  | record :: records => (EmptyString :: record) :: records
  | [] => [[EmptyString; EmptyString]]
  end.

Definition newRecord (t : list (list string)) : list (list string) :=
  [EmptyString] :: t.

Fixpoint read (inQuotes : bool) (s : string) : list (list string) :=
  match s with
  | EmptyString => [[EmptyString]]
  | String c r =>
      if Ascii.eqb c (ascii_of_nat 34) then read (negb inQuotes) r
      else if inQuotes then addChar c (read true r)
      else if Ascii.eqb c "," then newField (read false r)
      else if Ascii.eqb c (ascii_of_nat 10) then newRecord (read false r)
      else addChar c (read false r)
  end.

Definition parse (s : string) : list (list string) := read false s.

(** [p] put in front of the first field of the first record. *)
Fixpoint prepend (p : string) (t : list (list string)) : list (list string) :=
  match p with
  | EmptyString => t
  | String c r => addChar c (prepend r t)
  end.

End CsvReader.

Definition notQuote (c : ascii) : bool := negb (Ascii.eqb c (ascii_of_nat 34)).

(** A character that needs no quoting. *)
Definition plainChar (c : ascii) : bool :=
  notQuote c && negb (Ascii.eqb c ",") && negb (Ascii.eqb c (ascii_of_nat 10)).

(** None of the texts that the export puts between quotes holds a double
    quote. *)
Definition quoteFree (a : AreaData) : bool :=
  forallb (allChars notQuote)
    [domain a; title a;
     ExportCsv.orEmpty (analytics a ≫= dns_status);
     ExportCsv.orEmpty (analytics a ≫= whois_status);
     ExportCsv.orEmpty (analytics a ≫= registered_at);
     ExportCsv.orEmpty (analytics a ≫= expiry_date);
     ExportCsv.orEmpty (analytics a ≫= analyzed_at)].

(** The table row of an area: the value of each column. *)
Definition cells (o : ExportData.ExportOptions) (a : AreaData) : list string :=
  [domain a; title a] ++
  (if ExportData.includeCoordinates o
   then map JS.toString [x (coordinates a); y (coordinates a);
                         width (coordinates a); height (coordinates a)]
   else []) ++
  (if ExportData.includeAnalytics o
   then [ExportCsv.orEmpty (analytics a ≫= dns_status);
         ExportCsv.numberOrEmpty (analytics a ≫= http_status);
         ExportCsv.orEmpty (analytics a ≫= whois_status);
         if hasAnalytics a then "true" else "false"]
   else []) ++
  (if ExportData.includeTimestamps o
   then [ExportCsv.orEmpty (analytics a ≫= registered_at);
         ExportCsv.orEmpty (analytics a ≫= expiry_date);
         ExportCsv.orEmpty (analytics a ≫= analyzed_at)]
   else []).

(** An array element [e] of a row writes the value [v]: between quotes, or
    as it is when it needs no quoting. *)
Definition encodes (e v : string) : Prop :=
  (e = ExportCsv.quoted v /\ allChars notQuote v = true) \/
  (e = v /\ allChars plainChar v = true).

(** An area whose title closes its own quotes. *)
Definition quotedTitle : AreaData :=
  {| area_id := 9; domain := "q.com";
     title := String "x" (String (ascii_of_nat 34)
                (String "," (String (ascii_of_nat 34) "y")));
     href := "http://q.com"; coordinates := square; rawCoords := [];
     analytics := None; hasAnalytics := false |}.

Definition plainExport : ExportData.ExportOptions :=
  {| ExportData.format := ExportData.csv; ExportData.includeAnalytics := false;
     ExportData.includeCoordinates := false;
     ExportData.includeTimestamps := false; ExportData.onlyFiltered := false |}.

Definition fullExport : ExportData.ExportOptions :=
  {| ExportData.format := ExportData.csv; ExportData.includeAnalytics := true;
     ExportData.includeCoordinates := true;
     ExportData.includeTimestamps := true; ExportData.onlyFiltered := false |}.

(** * Properties *)

Example trim_ex : JS.trim "  ab c  " = "ab c". Proof. reflexivity. Qed.
Example split_ex : JS.split "," "1,2,,3," = ["1"; "2"; ""; "3"; ""].
Proof. reflexivity. Qed.
Example number_ex :
  map JS.Number ["100"; " -7 "; ""; "x1"; "-"; "+5"; "+-5"; "007"; "1 2"] =
  [Some 100; Some (-7); Some 0; None; None; Some 5; None; Some 7; None].
Proof. reflexivity. Qed.
Example toString_ex : map JS.toString [200; 0; -5] = ["200"; "0"; "-5"].
Proof. reflexivity. Qed.
Example set_ex : JS.arrayFromSet ["a"; "b"; "a"; "c"; "b"] = ["a"; "b"; "c"].
Proof. vm_compute. reflexivity. Qed.

(** ** Numerals and coordinate strings *)

Lemma allChars_impl (p q : ascii -> bool) (s : string) :
  (forall c, p c = true -> q c = true) ->
  allChars p s = true -> allChars q s = true.
Proof.
  intros Hpq. induction s as [|c r IH]; simpl; [done|].
  rewrite !andb_true_iff. intros [Hc Hr]. auto.
Qed.

Lemma allChars_app (p : ascii -> bool) (s t : string) :
  allChars p (s +:+ t) = allChars p s && allChars p t.
Proof.
  induction s as [|c r IH]; simpl; [done|]. by rewrite IH, andb_assoc.
Qed.

Lemma string_of_uint_numeral (d : Decimal.uint) :
  allChars numeralChar (NilEmpty.string_of_uint d) = true.
Proof. induction d; simpl; auto. Qed.

Lemma toString_numeral (z : Z) : allChars numeralChar (JS.toString z) = true.
Proof.
  unfold JS.toString, NilZero.string_of_int, NilZero.string_of_uint.
  destruct (Z.to_int z) as [d|d]; destruct d; simpl;
    auto using string_of_uint_numeral.
Qed.

Lemma numeral_not_space (c : ascii) :
  numeralChar c = true -> JS.isWhiteSpace c = false.
Proof.
  unfold numeralChar, JS.isWhiteSpace. generalize (nat_of_ascii c). intros n.
  rewrite orb_true_iff, andb_true_iff, orb_false_iff, andb_false_iff,
    !Nat.leb_le, !Nat.leb_gt, !Nat.eqb_eq, Nat.eqb_neq. lia.
Qed.

Lemma trim_numeral (s : string) : allChars numeralChar s = true -> JS.trim s = s.
Proof.
  intros Hs. unfold JS.trim.
  assert (Hstart : JS.trimStart s = s).
  { destruct s as [|c r]; simpl in *; [done|].
    apply andb_prop in Hs as [Hc _]. by rewrite (numeral_not_space c Hc). }
  rewrite Hstart. clear Hstart.
  induction s as [|c r IH]; simpl in *; [done|].
  apply andb_prop in Hs as [Hc Hr]. rewrite (IH Hr), (numeral_not_space c Hc).
  by destruct r.
Qed.

Lemma Number_toString (z : Z) : JS.Number (JS.toString z) = Some z.
Proof.
  unfold JS.Number. rewrite (trim_numeral _ (toString_numeral z)).
  pose proof (toString_numeral z) as Hnum.
  assert (Hparse : NilZero.int_of_string (JS.toString z) = Some (Z.to_int z)).
  { unfold JS.toString. apply NilZero.isi; destruct z; simpl; try discriminate;
      intros [= Hnil]; by apply DecimalPos.Unsigned.to_uint_nonnil in Hnil. }
  destruct (JS.toString z) as [|c r] eqn:Hz; [discriminate|].
  destruct (Ascii.eqb_spec c "+") as [-> | Hc].
  - simpl in Hnum. discriminate.
  - assert (Hgoal : Z.of_int <$> NilZero.int_of_string (String c r) = Some z).
    { rewrite Hparse. simpl. by rewrite DecimalZ.of_to. }
    destruct c as [[] [] [] [] [] [] [] []]; try exact Hgoal. by destruct Hc.
Qed.

Lemma split_no_comma (s : string) :
  allChars numeralChar s = true -> JS.split "," s = [s].
Proof.
  induction s as [|c r IH]; simpl; [done|].
  intros [Hc Hr]%andb_prop. rewrite (IH Hr).
  destruct (Ascii.eqb_spec c ",") as [-> | _]; [discriminate | done].
Qed.

Lemma split_comma (s rest : string) :
  allChars numeralChar s = true ->
  JS.split "," (s +:+ String "," rest) = s :: JS.split "," rest.
Proof.
  induction s as [|c r IH]; simpl; [done|].
  intros [Hc Hr]%andb_prop. rewrite (IH Hr).
  destruct (Ascii.eqb_spec c ",") as [-> | _]; [discriminate | done].
Qed.

Lemma quad_numbers (x1 y1 x2 y2 : Z) :
  map JS.Number (JS.split "," (quad x1 y1 x2 y2)) =
  [Some x1; Some y1; Some x2; Some y2].
Proof.
  change (quad x1 y1 x2 y2) with
    (JS.toString x1 +:+ String "," (JS.toString y1 +:+
       String "," (JS.toString x2 +:+ String "," (JS.toString y2)))).
  rewrite !split_comma, split_no_comma by apply toString_numeral.
  cbn [map]. by rewrite !Number_toString.
Qed.

(** ** Filters *)

Section FilterFacts.
Context `{Runtime}.
Import AppStore.

Lemma filter_all {A} (p : A -> bool) (l : list A) :
  (forall a, p a = true) -> List.filter p l = l.
Proof.
  intros Hp. induction l as [|a l IH]; simpl; [done|].
  by rewrite Hp, IH.
Qed.

Lemma filter_sublist {A} (p : A -> bool) (l : list A) :
  sublist (List.filter p l) l.
Proof.
  induction l as [|a l IH]; simpl; [constructor|].
  destruct (p a); by constructor.
Qed.

Lemma filter_sublist_mono {A} (p q : A -> bool) (l : list A) :
  (forall a, p a = true -> q a = true) ->
  sublist (List.filter p l) (List.filter q l).
Proof.
  intros Hpq. induction l as [|a l IH]; simpl; [constructor|].
  destruct (p a) eqn:Hpa.
  - rewrite (Hpq a Hpa). by constructor.
  - destruct (q a); [by constructor | done].
Qed.

Lemma no_filters_no_conditions f :
  hasFilters f = false -> filterConditions f = [].
Proof.
  unfold hasFilters, filterConditions. intros Hf.
  repeat (apply orb_false_elim in Hf; destruct Hf as [Hf ?]).
  destruct (dnsStatus f), (httpStatus f), (whoisStatus f), (f_hasAnalytics f),
    (domainLength f), (dateRange f), (hasNameservers f); simpl in *; congruence.
Qed.

(** With or without the early return, [applyFilters] keeps exactly the
    areas that pass. *)
Lemma applyFilters_filter l f : applyFilters l f = List.filter (passes f) l.
Proof.
  unfold applyFilters. destruct (hasFilters f) eqn:Hf; simpl; [done|].
  symmetry. apply filter_all. intros a. unfold passes.
  by rewrite (no_filters_no_conditions f Hf).
Qed.

End FilterFacts.

Section FilterMonotone.
Context `{Runtime}.
Import AppStore.

Lemma keeps_condition {A} (mk : A -> AreaData -> bool) (o o' : option A) a :
  keeps o o' ->
  forallb (fun c => c a) (match o' with Some v => [mk v] | None => [] end) = true ->
  forallb (fun c => c a) (match o with Some v => [mk v] | None => [] end) = true.
Proof. by intros [-> | ->]. Qed.

Lemma keepsLength_condition (o o' : option LengthRange) a :
  keepsLength o o' ->
  forallb (fun c => c a)
    (match o' with
     | Some r => if JS.defined (min r) || JS.defined (max r)
                 then [domainLengthCondition r] else []
     | None => []
     end) = true ->
  forallb (fun c => c a)
    (match o with
     | Some r => if JS.defined (min r) || JS.defined (max r)
                 then [domainLengthCondition r] else []
     | None => []
     end) = true.
Proof.
  destruct o as [[mn mx]|]; [|done]. intros ([mn' mx'] & -> & Hmin & Hmax).
  unfold domainLengthCondition. simpl in *.
  destruct Hmin as [Hmin | Hmin], Hmax as [Hmax | Hmax];
    destruct mn, mx, mn', mx'; simplify_eq; simpl;
    rewrite ?andb_true_iff; intuition.
Qed.

Lemma keepsDates_condition (o o' : option DateRange) a :
  keepsDates o o' ->
  forallb (fun c => c a)
    (match o' with
     | Some r => if truthy (start r) || truthy (end_ r)
                 then [dateRangeCondition r] else []
     | None => []
     end) = true ->
  forallb (fun c => c a)
    (match o with
     | Some r => if truthy (start r) || truthy (end_ r)
                 then [dateRangeCondition r] else []
     | None => []
     end) = true.
Proof.
  destruct o as [[st en]|]; [|done]. intros ([st' en'] & -> & Hst & Hen).
  unfold dateRangeCondition. simpl in *.
  destruct Hst as [Hst | Hst], Hen as [Hen | Hen]; subst; simpl;
    repeat match goal with |- context [truthy ?o] => destruct (truthy o) end;
    simpl; try done;
    (destruct (analytics a ≫= registered_at) as [reg|]; [|done]);
    destruct (negb (negb (reg =? "")%string)); try done;
    rewrite ?andb_true_iff; intuition.
Qed.

Lemma passes_addsFilters f f' a :
  addsFilters f f' -> passes f' a = true -> passes f a = true.
Proof.
  intros (H1 & H2 & H3 & H4 & H5 & H6 & H7 & _).
  unfold passes, filterConditions. rewrite !forallb_app, !andb_true_iff.
  intros (P1 & P2 & P3 & P4 & P5 & P6 & P7).
  repeat split;
    eauto using keeps_condition, keepsLength_condition, keepsDates_condition.
Qed.

(** C2.  [applyFilters] returns a subsequence of its input, made of
    exactly the areas that satisfy every active condition, and setting
    further filter keys never lengthens the result. *)
Theorem applyFilters_monotone (l : list AreaData) (f f' : SearchFilters) :
  addsFilters f f' ->
  sublist (applyFilters l f) l /\
  (forall a, a ∈ applyFilters l f <->
             a ∈ l /\ forall c, c ∈ filterConditions f -> c a = true) /\
  sublist (applyFilters l f') (applyFilters l f) /\
  (length (applyFilters l f') <= length (applyFilters l f))%nat.
Proof.
  intros Hadd. rewrite !applyFilters_filter.
  assert (Hsub : sublist (List.filter (passes f') l) (List.filter (passes f) l)).
  { apply filter_sublist_mono. intros a. by apply passes_addsFilters. }
  split; [apply filter_sublist|]. split.
  - intros a. rewrite !list_elem_of_In, filter_In.
    unfold passes. rewrite forallb_forall.
    by setoid_rewrite list_elem_of_In.
  - split; [done|]. by apply sublist_length.
Qed.

End FilterMonotone.

(** [monotone_witness]: adding the WHOIS filter to the empty filter set on
    the three-area dataset. *)
Lemma applyFilters_monotone_witness :
  addsFilters noFilters (onlyWhois "registered") /\
  (length (AppStore.applyFilters (H := exampleRuntime) (areas threeAreas)
             (onlyWhois "registered")) <=
   length (AppStore.applyFilters (H := exampleRuntime) (areas threeAreas)
             noFilters))%nat.
Proof.
  assert (Hadd : addsFilters noFilters (onlyWhois "registered")).
  { repeat split; by left. }
  split; [exact Hadd|].
  exact (proj2 (proj2 (proj2
    (applyFilters_monotone (H := exampleRuntime) (areas threeAreas)
       noFilters (onlyWhois "registered") Hadd)))).
Defined.

Example whois_filter_alone :
  AppStore.applyFilters (H := exampleRuntime) (areas threeAreas)
    (onlyWhois "registered") = [areaA].
Proof. reflexivity. Qed.

(** ** Absent analytics fields *)

Section AbsentFields.
Context `{Runtime}.
Import AppStore.

Lemma passes_false_of_condition f a c :
  c ∈ filterConditions f -> c a = false -> passes f a = false.
Proof.
  intros Hc Hca. unfold passes.
  destruct (forallb (fun c0 => c0 a) (filterConditions f)) eqn:Hall; [|done].
  rewrite forallb_forall in Hall.
  rewrite <- (Hall c), Hca; [done|]. by apply list_elem_of_In.
Qed.

Lemma constrainsMissingField_fails f a :
  constrainsMissingField f a -> passes f a = false.
Proof.
  unfold constrainsMissingField, passes, filterConditions.
  rewrite !forallb_app.
  intros [[[v ->] Ha] | [[[v ->] Ha] | [[[v ->] Ha] |
           [(r & -> & Hr & Ha) | [-> Ha]]]]]; simpl.
  - unfold dnsCondition. by rewrite Ha.
  - unfold httpCondition. rewrite Ha. simpl. by rewrite andb_false_r.
  - unfold whoisCondition. rewrite Ha. simpl. by rewrite !andb_false_r.
  - rewrite Hr. simpl. unfold dateRangeCondition. rewrite Ha.
    simpl. by rewrite !andb_false_r.
  - unfold nameserversCondition. rewrite Ha. simpl. by rewrite !andb_false_r.
Qed.

(** C3 (amended).  An area of the candidate list is excluded whenever an
    active [dnsStatus], [httpStatus], [whoisStatus], [dateRange] (with a
    non-empty bound) or [hasNameservers = true] filter constrains a field
    its analytics lack; under [hasNameservers = false] alone an area
    without nameservers is kept. *)
Theorem absent_field_policy (l : list AreaData) (f : SearchFilters) (a : AreaData) :
  a ∈ l ->
  (constrainsMissingField f a -> a ∉ applyFilters l f) /\
  (analytics a ≫= nameservers = None ->
   a ∈ applyFilters l (onlyNameservers false)).
Proof.
  intros Hin. rewrite !applyFilters_filter, !list_elem_of_In, !filter_In.
  split.
  - intros Hc [_ Hp]. rewrite constrainsMissingField_fails in Hp; done.
  - intros Ha. split; [by apply list_elem_of_In|].
    unfold passes, filterConditions, nameserversCondition. simpl.
    by rewrite Ha.
Qed.

End AbsentFields.

(** [absent_field_policy] at the area without analytics of the three-area
    dataset. *)
Lemma absent_field_policy_witness :
  areaB ∈ areas threeAreas /\
  areaB ∉ AppStore.applyFilters (H := exampleRuntime) (areas threeAreas)
            (onlyDns "NOERROR").
Proof.
  assert (Hin : areaB ∈ areas threeAreas).
  { apply list_elem_of_In. simpl. auto. }
  split; [exact Hin|].
  apply (proj1 (absent_field_policy (H := exampleRuntime)
                  (areas threeAreas) (onlyDns "NOERROR") areaB Hin)).
  left. split; [by eexists | reflexivity].
Defined.

(** C3 as stated fails: the filter [hasNameservers = false] keeps an area
    whose analytics are [null]. *)
Lemma nameservers_false_keeps_area_without_analytics :
  analytics areaB = None /\
  hasNameservers (onlyNameservers false) = Some false /\
  AppStore.applyFilters (H := exampleRuntime) [areaB] (onlyNameservers false)
    = [areaB].
Proof. repeat split. Qed.

(** ** The store's derived state *)

Lemma distinct_elem seen xs d :
  d ∈ JS.distinct seen xs <-> d ∈ xs /\ d ∉ seen.
Proof.
  revert seen. induction xs as [|x r IH]; intros seen; simpl.
  - set_solver.
  - case_bool_decide as Hx.
    + rewrite IH. set_solver.
    + rewrite elem_of_cons, IH. destruct (decide (d = x)); set_solver.
Qed.

Lemma distinct_NoDup seen xs : NoDup (JS.distinct seen xs).
Proof.
  revert seen. induction xs as [|x r IH]; intros seen; simpl.
  - constructor.
  - case_bool_decide; [apply IH|].
    constructor; [|apply IH].
    rewrite distinct_elem. set_solver.
Qed.

Section StoreFacts.
Context `{Runtime}.
Import AppStore.

Lemma highlightsOf_elem l d : d ∈ highlightsOf l <-> d ∈ map domain l.
Proof. unfold highlightsOf, JS.arrayFromSet. rewrite distinct_elem. set_solver. Qed.

Lemma highlightsOf_NoDup l : NoDup (highlightsOf l).
Proof. apply distinct_NoDup. Qed.

Lemma step_NoDup s a :
  NoDup (highlightedAreas s) -> NoDup (highlightedAreas (step s a)).
Proof.
  intros Hs. destruct a; simpl; try done.
  - unfold setSearchQuery.
    destruct (fuse s), (appData s); simpl;
      first [apply highlightsOf_NoDup | constructor].
  - unfold setFilters.
    destruct (fuse s), (appData s); simpl;
      first [apply highlightsOf_NoDup | done].
  - constructor.
  - unfold highlightDomain, JS.arrayIncludes.
    case_bool_decide as Hd; simpl; [done|].
    apply NoDup_app. split; [done|]. split; [|apply NoDup_singleton].
    intros x Hx Hx'. apply list_elem_of_singleton in Hx'. by subst.
  - constructor.
Qed.

(** C10.  Whatever actions the store has processed since it was created,
    [highlightedAreas] holds no domain twice. *)
Theorem highlightedAreas_NoDup (l : list Action) :
  NoDup (highlightedAreas (run initial l)).
Proof.
  assert (Hgen : forall s, NoDup (highlightedAreas s) ->
                           NoDup (highlightedAreas (run s l))).
  { unfold run. induction l as [|a l IH]; intros s Hs; simpl; [done|].
    apply IH. by apply step_NoDup. }
  apply Hgen. constructor.
Qed.

Lemma step_hasData s a : hasData s -> hasData (step s a).
Proof.
  intros [[fu Hfu] [data Hdata]]. unfold hasData.
  destruct a; simpl;
    unfold setSearchQuery, setFilters, highlightDomain;
    rewrite ?Hfu, ?Hdata; try destruct (negb _); simpl;
    rewrite ?Hfu, ?Hdata; split; by eexists.
Qed.

Lemma run_hasData s l : hasData s -> hasData (run s l).
Proof.
  unfold run. revert s. induction l as [|a l IH]; intros s Hs; simpl; [done|].
  apply IH. by apply step_hasData.
Qed.

Lemma step_keeps_data s a :
  isSetAppData a = false ->
  appData (step s a) = appData s /\ fuse (step s a) = fuse s /\
  domainMap (step s a) = domainMap s.
Proof.
  destruct a; simpl; try done; intros _.
  - unfold setSearchQuery. by destruct (fuse s), (appData s).
  - unfold setFilters. by destruct (fuse s), (appData s).
  - unfold highlightDomain. by destruct (negb _).
Qed.

(** *** The store against the coordinator of the specification *)

Lemma eqField_decide (o : option string) (v : string) :
  eqField o v = bool_decide (o = Some v).
Proof.
  destruct o as [w|]; simpl; [|done].
  destruct (String.eqb_spec w v) as [-> | Hne]; case_bool_decide; congruence.
Qed.

(** The conditions the store pushes accept exactly what the predicates of
    section 4.4 accept. *)
Lemma passes_accepts (f : SearchFilters) (a : AreaData) :
  passes f a = Coordinator.accepts f a.
Proof.
  unfold passes, filterConditions, Coordinator.accepts.
  rewrite !forallb_app, !andb_assoc.
  assert (Hdns : forallb (fun c => c a)
            match dnsStatus f with Some v => [dnsCondition v] | None => [] end =
          Coordinator.dnsStatusOk f a).
  { unfold Coordinator.dnsStatusOk, dnsCondition.
    destruct (dnsStatus f); simpl; [|done]. by rewrite andb_true_r, eqField_decide. }
  assert (Hhttp : forallb (fun c => c a)
            match httpStatus f with Some v => [httpCondition v] | None => [] end =
          Coordinator.httpStatusOk f a).
  { unfold Coordinator.httpStatusOk, httpCondition.
    destruct (httpStatus f); simpl; [|done]. by rewrite andb_true_r, eqField_decide. }
  assert (Hwhois : forallb (fun c => c a)
            match whoisStatus f with Some v => [whoisCondition v] | None => [] end =
          Coordinator.whoisStatusOk f a).
  { unfold Coordinator.whoisStatusOk, whoisCondition.
    destruct (whoisStatus f); simpl; [|done]. by rewrite andb_true_r, eqField_decide. }
  assert (Hhas : forallb (fun c => c a)
            match f_hasAnalytics f with
            | Some v => [hasAnalyticsCondition v] | None => [] end =
          Coordinator.hasAnalyticsOk f a).
  { unfold Coordinator.hasAnalyticsOk, hasAnalyticsCondition.
    destruct (f_hasAnalytics f) as [v|]; simpl; [|done].
    destruct (hasAnalytics a), v; simpl; try case_bool_decide; try done; congruence. }
  assert (Hlen : forallb (fun c => c a)
            match domainLength f with
            | Some r => if JS.defined (min r) || JS.defined (max r)
                        then [domainLengthCondition r] else []
            | None => []
            end = Coordinator.domainLengthOk f a).
  { unfold Coordinator.domainLengthOk, domainLengthCondition.
    destruct (domainLength f) as [r|]; [|done].
    destruct (min r), (max r); simpl; by rewrite ?andb_true_r. }
  assert (Hdate : forallb (fun c => c a)
            match dateRange f with
            | Some r => if truthy (start r) || truthy (end_ r)
                        then [dateRangeCondition r] else []
            | None => []
            end = Coordinator.dateRangeOk f a).
  { unfold Coordinator.dateRangeOk, dateRangeCondition, Coordinator.notBefore,
      Coordinator.notAfter, JS.geNum, JS.leNum.
    destruct (dateRange f) as [r|]; [|done].
    destruct (start r) as [[|c0 s0]|], (end_ r) as [[|c1 s1]|]; simpl; try done;
      destruct (analytics a ≫= registered_at) as [[|c2 s2]|]; simpl; try done;
      by rewrite ?andb_true_r. }
  assert (Hns : forallb (fun c => c a)
            match hasNameservers f with
            | Some v => [nameserversCondition v] | None => [] end =
          Coordinator.hasNameserversOk f a).
  { unfold Coordinator.hasNameserversOk, nameserversCondition.
    destruct (hasNameservers f) as [v|]; simpl; [|done].
    destruct v, (analytics a ≫= nameservers) as [[|n ns]|]; simpl;
      try case_bool_decide; try done; congruence. }
  by rewrite Hdns, Hhttp, Hwhois, Hhas, Hlen, Hdate, Hns.
Qed.

(** [applyFilters], early return included, is step 5 of the algorithm. *)
Lemma applyFilters_accepts (l : list AreaData) (f : SearchFilters) :
  applyFilters l f = List.filter (Coordinator.accepts f) l.
Proof.
  rewrite applyFilters_filter. apply List.filter_ext, passes_accepts.
Qed.

(** The candidate list of the store is that of steps 1 to 4 when the index
    is the one of the registry and the index honours its limit. *)
Lemma searchCandidates_candidates (fu : Fuse) (data : AppData) (q : string) :
  (forall l t, length (fuseSearch l t Coordinator.CAP) <= Coordinator.CAP)%nat ->
  docs fu = areas data ->
  searchCandidates fu data q = Coordinator.candidates (areas data) q.
Proof.
  intros Hlimit Hdocs. unfold searchCandidates, Coordinator.candidates.
  rewrite Hdocs. destruct (JS.trim q) as [|c [|c' r]]; simpl; try done.
  symmetry. apply take_ge, Hlimit.
Qed.

Lemma highlightsOf_set (l : list AreaData) :
  (list_to_set (highlightsOf l) : gset string) = Coordinator.highlightedDomains l.
Proof.
  unfold Coordinator.highlightedDomains. apply set_eq. intros d.
  by rewrite !elem_of_list_to_set, highlightsOf_elem.
Qed.

(** One action keeps the two facts the flags stand for. *)
Lemma step_tracked (data : AppData) (s : State) (a : Action) (b u : bool) :
  (forall l t, length (fuseSearch l t Coordinator.CAP) <= Coordinator.CAP)%nat ->
  appData s = Some data -> fuse s = Some {| docs := areas data |} ->
  isSetAppData a = false ->
  (if b then results s = Coordinator.compute (areas data) (query s) (filters s)
   else query s = "" /\ filters s = noFilters /\ results s = []) ->
  (u = true -> (list_to_set (highlightedAreas s) : gset string) =
               Coordinator.highlightedDomains (results s)) ->
  (if searchedAfter b a
   then results (step s a) =
        Coordinator.compute (areas data) (query (step s a)) (filters (step s a))
   else query (step s a) = "" /\ filters (step s a) = noFilters /\
        results (step s a) = []) /\
  (untouchedAfter u a = true ->
   (list_to_set (highlightedAreas (step s a)) : gset string) =
   Coordinator.highlightedDomains (results (step s a))).
Proof.
  intros Hlimit Hdata Hfu Ha Hb Hu. destruct a; try discriminate; simpl.
  - unfold setSearchQuery. rewrite Hfu, Hdata. simpl. split.
    + by rewrite applyFilters_accepts, searchCandidates_candidates.
    + intros _. apply highlightsOf_set.
  - unfold setFilters. rewrite Hfu, Hdata. simpl. split.
    + by rewrite applyFilters_accepts, searchCandidates_candidates.
    + intros _. apply highlightsOf_set.
  - done.
  - split; [done|]. intros _. done.
  - split; [|done]. unfold highlightDomain. by destruct (negb _).
  - done.
Qed.

Lemma run_tracked (data : AppData) (acts : list Action) (s : State) (b u : bool) :
  (forall l t, length (fuseSearch l t Coordinator.CAP) <= Coordinator.CAP)%nat ->
  forallb (fun a => negb (isSetAppData a)) acts = true ->
  appData s = Some data -> fuse s = Some {| docs := areas data |} ->
  (if b then results s = Coordinator.compute (areas data) (query s) (filters s)
   else query s = "" /\ filters s = noFilters /\ results s = []) ->
  (u = true -> (list_to_set (highlightedAreas s) : gset string) =
               Coordinator.highlightedDomains (results s)) ->
  (if fold_left searchedAfter acts b
   then results (run s acts) =
        Coordinator.compute (areas data) (query (run s acts)) (filters (run s acts))
   else query (run s acts) = "" /\ filters (run s acts) = noFilters /\
        results (run s acts) = []) /\
  (fold_left untouchedAfter acts u = true ->
   (list_to_set (highlightedAreas (run s acts)) : gset string) =
   Coordinator.highlightedDomains (results (run s acts))).
Proof.
  intros Hlimit. unfold run. revert s b u.
  induction acts as [|a acts IH]; intros s b u Hacts Hdata Hfu Hb Hu; simpl.
  - done.
  - simpl in Hacts. apply andb_prop in Hacts as [Ha Hacts].
    apply negb_true_iff in Ha.
    destruct (step_keeps_data s a Ha) as (Hd' & Hf' & _).
    destruct (step_tracked data s a b u Hlimit Hdata Hfu Ha Hb Hu) as [Hb' Hu'].
    apply IH; try done; congruence.
Qed.

(** C1 (amended).  From a loaded registry, through any sequence of the six
    actions, with an index that honours its limit:
    - once [setSearchQuery] or [setFilters] has run since loading or since
      the last [clearSearch], [results] is what the algorithm of the
      specification gives for the current query and filters, whatever
      [setSelectedDomain], [highlightDomain] and [clearHighlights] did
      since; otherwise the query, the filters and [results] are empty;
    - as long as no [highlightDomain] or [clearHighlights] has run since
      the last [setSearchQuery], [setFilters] or [clearSearch], the
      highlights are exactly the distinct domains of [results];
    - [clearSearch] empties the query, the filters, [results] and the
      highlights; [highlightDomain] adds its domain to the highlights and
      [clearHighlights] empties them, both leaving [results] alone. *)
Theorem results_recomputed (data : AppData) (acts : list Action) :
  (forall l t, length (fuseSearch l t Coordinator.CAP) <= Coordinator.CAP)%nat ->
  forallb (fun a => negb (isSetAppData a)) acts = true ->
  let s := run (loaded data) acts in
  (searched acts = true ->
   results s = Coordinator.compute (areas data) (query s) (filters s)) /\
  (searched acts = false ->
   query s = "" /\ filters s = noFilters /\ results s = []) /\
  (untouched acts = true ->
   (list_to_set (highlightedAreas s) : gset string) =
   Coordinator.highlightedDomains (results s)) /\
  (query (clearSearch s) = "" /\ filters (clearSearch s) = noFilters /\
   results (clearSearch s) = [] /\ highlightedAreas (clearSearch s) = []) /\
  (forall d, results (highlightDomain d s) = results s /\
             (list_to_set (highlightedAreas (highlightDomain d s)) : gset string) =
             {[ d ]} ∪ list_to_set (highlightedAreas s)) /\
  (results (clearHighlights s) = results s /\
   highlightedAreas (clearHighlights s) = []).
Proof.
  intros Hlimit Hacts. cbv zeta.
  destruct (run_tracked data acts (loaded data) false true Hlimit Hacts)
    as [Hres Hhl]; try done.
  fold (searched acts) in Hres. fold (untouched acts) in Hhl.
  split; [intros Hs; by rewrite Hs in Hres|].
  split; [intros Hs; by rewrite Hs in Hres|].
  split; [done|]. split; [done|]. split; [|done].
  intros d. unfold highlightDomain, JS.arrayIncludes.
  case_bool_decide as Hd; simpl; split; try done.
  - apply set_eq. intros e. rewrite elem_of_union, elem_of_singleton,
      !elem_of_list_to_set. split; [auto|]. by intros [-> | He].
  - rewrite list_to_set_app_L. set_solver.
Qed.

End StoreFacts.

Lemma exampleRuntime_limit (l : list AreaData) (t : string) :
  (length (fuseSearch (Runtime := exampleRuntime) l t Coordinator.CAP) <=
   Coordinator.CAP)%nat.
Proof. simpl. rewrite length_take. lia. Qed.

(** [results_recomputed] on the three-area dataset: a highlight, then the
    fuzzy query "a.c", then a selection. *)
Lemma results_recomputed_witness :
  AppStore.results
    (AppStore.run (H := exampleRuntime) (loaded threeAreas)
       [AppStore.HighlightDomain "c.org"; AppStore.SetSearchQuery "a.c";
        AppStore.SetSelectedDomain (Some "a.com")]) =
  Coordinator.compute (H := exampleRuntime) (areas threeAreas) "a.c" noFilters.
Proof.
  exact (proj1 (results_recomputed (H := exampleRuntime) threeAreas
                  [AppStore.HighlightDomain "c.org"; AppStore.SetSearchQuery "a.c";
                   AppStore.SetSelectedDomain (Some "a.com")]
                  exampleRuntime_limit eq_refl) eq_refl).
Defined.

(** C1 as stated fails on reachable states: after [clearSearch] the result
    list is empty although the algorithm gives the whole dataset for the
    empty query with no filters, and after [highlightDomain] the
    highlights hold a domain that no result has. *)
Lemma invariant_fails_after_clear_and_highlight :
  ~ Coordinator.invariant (H := exampleRuntime) (areas threeAreas)
      (AppStore.run (H := exampleRuntime) (loaded threeAreas)
         [AppStore.SetSearchQuery "a"; AppStore.ClearSearch]) /\
  ~ Coordinator.invariant (H := exampleRuntime) (areas threeAreas)
      (AppStore.run (H := exampleRuntime) (loaded threeAreas)
         [AppStore.SetSearchQuery ""; AppStore.HighlightDomain "x.com"]).
Proof.
  split.
  - intros [Hres _]. vm_compute in Hres. discriminate.
  - intros [_ Hhl].
    assert (Hin : "x.com" ∈ (list_to_set (AppStore.highlightedAreas
              (AppStore.run (H := exampleRuntime) (loaded threeAreas)
                 [AppStore.SetSearchQuery ""; AppStore.HighlightDomain "x.com"]))
              : gset string)).
    { apply elem_of_list_to_set, list_elem_of_In. vm_compute. auto 10. }
    rewrite Hhl in Hin. unfold Coordinator.highlightedDomains in Hin.
    apply elem_of_list_to_set, list_elem_of_In in Hin. vm_compute in Hin.
    intuition discriminate.
Qed.

(** ** Lookup by domain *)

Lemma fold_insert_lookup (l : list AreaData) (m : gmap string AreaData) (d : string) :
  fold_left (fun m a => <[domain a := a]> m) l m !! d =
  match last (withDomain d l) with
  | Some a => Some a
  | None => m !! d
  end.
Proof.
  revert m. induction l as [|a l IH]; intros m; simpl; [done|].
  rewrite IH. destruct (String.eqb_spec (domain a) d) as [Heq | Hne].
  - rewrite last_cons. destruct (last (withDomain d l)); [done|].
    subst d. apply lookup_insert_eq.
  - destruct (last (withDomain d l)); [done|]. by apply lookup_insert_ne.
Qed.

(** C7 (amended).  Both domain maps, the store's and the overlay's, return
    for a domain the last area of the dataset that has it. *)
Theorem domain_lookup_returns_last (data : AppData) (d : string) :
  AppStore.buildDomainMap (areas data) !! d = last (withDomain d (areas data)) /\
  InteractiveMap.domainLookupMap (Some data) !! d = last (withDomain d (areas data)).
Proof.
  unfold AppStore.buildDomainMap, InteractiveMap.domainLookupMap.
  rewrite !fold_insert_lookup, lookup_empty.
  by destruct (last (withDomain d (areas data))).
Qed.

(** The linear search of the scroll effect, by contrast, stops at the
    first area of the domain. *)
Lemma findByDomain_first (data : AppData) (d : string) :
  InteractiveMap.findByDomain data d = head (withDomain d (areas data)).
Proof.
  unfold InteractiveMap.findByDomain, withDomain.
  induction (areas data) as [|a l IH]; simpl; [done|].
  by destruct (String.eqb (domain a) d).
Qed.

(** C7 as stated fails: with two areas of one domain the maps return the
    second, not the first. *)
Lemma domain_lookup_not_first :
  head (withDomain "dup.com" [dupFirst; areaA; dupSecond]) = Some dupFirst /\
  AppStore.buildDomainMap [dupFirst; areaA; dupSecond] !! "dup.com" = Some dupSecond /\
  InteractiveMap.domainLookupMap (Some (mkData [dupFirst; areaA; dupSecond]))
    !! "dup.com" = Some dupSecond /\
  dupSecond <> dupFirst.
Proof.
  split; [reflexivity|].
  unfold AppStore.buildDomainMap, InteractiveMap.domainLookupMap.
  rewrite !fold_insert_lookup.
  split; [reflexivity|]. split; [reflexivity|]. discriminate.
Qed.

(** ** Coordinates *)

Lemma quad_nonempty (x1 y1 x2 y2 : Z) : String.eqb (quad x1 y1 x2 y2) "" = false.
Proof. unfold quad. by destruct (JS.toString x1). Qed.

(** The utility parser returns the normalised rectangle of every integer
    quad. *)
Lemma parseMapCoordinates_quad (x1 y1 x2 y2 : Z) :
  CoordinateUtils.parseMapCoordinates (quad x1 y1 x2 y2) =
  Some (CoordinateUtils.rectangle x1 y1 x2 y2).
Proof.
  unfold CoordinateUtils.parseMapCoordinates.
  by rewrite quad_nonempty, quad_numbers.
Qed.

(** The overlay stores the same rectangle for an HTML area, or [null] when
    the rectangle breaks the validity rule. *)
Lemma html_coordinates_quad (h : InteractiveMap.HtmlMapArea) (x1 y1 x2 y2 : Z) :
  InteractiveMap.h_coords h = quad x1 y1 x2 y2 ->
  InteractiveMap.coordinatesFor (InteractiveMap.HtmlArea h) =
  let r := CoordinateUtils.rectangle x1 y1 x2 y2 in
  if CoordinateUtils.isValidCoordinate (x r) (y r) (width r) (height r) 1000 1000
  then Some r else None.
Proof.
  intros Hq. unfold InteractiveMap.coordinatesFor.
  rewrite Hq, quad_numbers. reflexivity.
Qed.

(** C4.  The script parse-area-map.js keeps the corners in the order
    given: for every integer quad it writes [{x: x1, y: y1, width: x2 - x1,
    height: y2 - y1}], so on "300,400,100,200" it yields the corner
    (300,400) with extents -200, not the rectangle
    [{x:100, y:200, width:200, height:200}] that it yields on
    "100,200,300,400" and that the run-time parser yields on both. *)
Theorem script_conversion_depends_on_corner_order (x1 y1 x2 y2 : Z) :
  ParseAreaMap.convert (quad x1 y1 x2 y2) =
    {| ParseAreaMap.sx := Some x1; ParseAreaMap.sy := Some y1;
       ParseAreaMap.swidth := Some (x2 - x1);
       ParseAreaMap.sheight := Some (y2 - y1) |} /\
  quad 300 400 100 200 = "300,400,100,200" /\
  ParseAreaMap.convert "300,400,100,200" =
    {| ParseAreaMap.sx := Some 300; ParseAreaMap.sy := Some 400;
       ParseAreaMap.swidth := Some (-200); ParseAreaMap.sheight := Some (-200) |} /\
  ParseAreaMap.convert "100,200,300,400" =
    {| ParseAreaMap.sx := Some 100; ParseAreaMap.sy := Some 200;
       ParseAreaMap.swidth := Some 200; ParseAreaMap.sheight := Some 200 |} /\
  CoordinateUtils.parseMapCoordinates "300,400,100,200" =
    Some {| x := 100; y := 200; width := 200; height := 200 |} /\
  CoordinateUtils.parseMapCoordinates "100,200,300,400" =
    Some {| x := 100; y := 200; width := 200; height := 200 |}.
Proof.
  split; [|repeat split].
  unfold ParseAreaMap.convert. by rewrite quad_numbers.
Qed.

(** The run-time conversion does not depend on the corner order. *)
Lemma rectangle_corner_order (x1 y1 x2 y2 : Z) :
  CoordinateUtils.rectangle x1 y1 x2 y2 = CoordinateUtils.rectangle x2 y2 x1 y1.
Proof. unfold CoordinateUtils.rectangle. f_equal; lia. Qed.

(** An HTML area is given a rectangle only if that rectangle satisfies
    the validity rule. *)
Lemma html_coordinates_valid (h : InteractiveMap.HtmlMapArea) (c : AreaCoordinates) :
  InteractiveMap.coordinatesFor (InteractiveMap.HtmlArea h) = Some c ->
  CoordinateUtils.isValidCoordinate (x c) (y c) (width c) (height c) 1000 1000 = true.
Proof.
  unfold InteractiveMap.coordinatesFor, CoordinateUtils.isValidCoordinate.
  destruct (map JS.Number (JS.split "," (InteractiveMap.h_coords h)))
    as [|[c0|] [|[c1|] [|[c2|] [|[c3|] [|? ?]]]]]; try discriminate.
  destruct (_ && _) eqn:Hv; [|discriminate].
  intros [= <-]. simpl.
  unfold InteractiveMap.ORIGINAL_WIDTH, InteractiveMap.ORIGINAL_HEIGHT,
    CoordinateUtils.COORDINATE_MIN in *.
  repeat (apply andb_prop in Hv; destruct Hv as [Hv ?]).
  repeat (apply andb_true_intro; split); done.
Qed.

(** C5.  With the HTML map unavailable the overlay draws a dataset area
    with whatever rectangle it carries; so it draws the area whose
    rectangle [{x:990, y:990, width:50, height:50}] breaks the validity
    rule, while the same rectangle coming from the HTML map is not drawn.
    In both cases the area stays in the dataset. *)
Theorem invalid_dataset_rectangle_rendered (a : AreaData) (m : AppMetadata) :
  InteractiveMap.rendered [] (Some {| metadata := m; areas := [a] |}) [] None =
    ([], [Some (coordinates a)]) /\
  CoordinateUtils.isValidCoordinate 990 990 50 50 1000 1000 = false /\
  InteractiveMap.rendered [] (Some (mkData [bigArea])) [] None =
    ([], [Some bigRectangle]) /\
  InteractiveMap.rendered [bigHtmlArea] (Some (mkData [bigArea])) [] None =
    ([], [None]) /\
  bigArea ∈ areas (mkData [bigArea]).
Proof.
  split.
  - unfold InteractiveMap.rendered, InteractiveMap.areasToRender,
      InteractiveMap.highlightedAreasToRender, InteractiveMap.nonHighlightedAreas,
      InteractiveMap.parsedCoordinates, InteractiveMap.renderLayer.
    cbn -[InteractiveMap.uniqueKey InteractiveMap.isHighlighted].
    assert (Hhl : InteractiveMap.isHighlighted [] None (domain a) = false).
    { unfold InteractiveMap.isHighlighted, JS.arrayIncludes.
      rewrite bool_decide_eq_false_2; [done | apply not_elem_of_nil]. }
    rewrite Hhl. cbn -[InteractiveMap.uniqueKey]. rewrite lookup_insert_eq.
    cbn. by destruct (coordinates a).
  - split; [reflexivity|]. split; [by vm_compute|]. split; [by vm_compute|].
    apply list_elem_of_In. simpl. auto.
Qed.

(** ** Tooltip placement *)

(** C6 (amended).  On entering an area the tooltip is placed 20 to the
    right of the pointer (the overlay's offset 15 plus the tooltip's own
    5), or at [pointer.x - 310] when [pointer.x + 340] passes
    [viewport.width - 20], and never left of 20; vertically the overlay
    first moves the anchor 210 above the pointer in the lower half of the
    viewport or when [pointer.y + 200] passes [viewport.height - 20]
    (otherwise 10 above), and the tooltip sits 5 below that anchor, or 200
    above it when [anchor + 305] passes [viewport.height - 20], and never
    above 20.  A pointer at (950,950) in a 1000x1000 viewport gives
    (640,540), flipped both ways; a pointer at (10,10) gives (30,20). *)
Theorem tooltip_placement (clientX clientY innerWidth innerHeight : Z) :
  let p := DomainTooltip.placementOnHover clientX clientY innerWidth innerHeight in
  let anchor :=
    if (innerHeight <? 2 * clientY) || (innerHeight - 20 <? clientY + 200)
    then clientY - 210 else clientY - 10 in
  DomainTooltip.left p =
    Z.max 20 (if innerWidth - 20 <? clientX + 340 then clientX - 310
              else clientX + 20) /\
  DomainTooltip.top p =
    Z.max 20 (if innerHeight - 20 <? anchor + 305 then anchor - 200
              else anchor + 5) /\
  DomainTooltip.placementOnHover 950 950 1000 1000 =
    {| DomainTooltip.left := 640; DomainTooltip.top := 540 |} /\
  DomainTooltip.placementOnHover 10 10 1000 1000 =
    {| DomainTooltip.left := 30; DomainTooltip.top := 20 |}.
Proof.
  unfold DomainTooltip.placementOnHover, DomainTooltip.getTooltipPosition,
    InteractiveMap.hoverPosition, InteractiveMap.OFFSET_X, InteractiveMap.OFFSET_Y.
  cbn [DomainTooltip.left DomainTooltip.top InteractiveMap.px InteractiveMap.py].
  repeat split.
  - replace (clientX + 15 + 5 + 320) with (clientX + 340) by lia.
    destruct (innerWidth - 20 <? clientX + 340);
      match goal with |- context [?a <? 20] => destruct (Z.ltb_spec a 20) end; lia.
  - destruct (_ || _).
    + replace (clientY - 200 - 10 + 5 + 300) with (clientY - 210 + 305) by lia.
      destruct (innerHeight - 20 <? clientY - 210 + 305);
        match goal with |- context [?a <? 20] => destruct (Z.ltb_spec a 20) end; lia.
    + replace (clientY + -10 + 5 + 300) with (clientY - 10 + 305) by lia.
      destruct (innerHeight - 20 <? clientY - 10 + 305);
        match goal with |- context [?a <? 20] => destruct (Z.ltb_spec a 20) end; lia.
Qed.

(** C6 as stated fails: at (100,100) in a 1000x1000 viewport nothing
    overflows and the pointer is in the upper half, so the reference
    placement is (115,90); the tooltip is drawn at (120,95).  Taken on its
    own, [getTooltipPosition] adds 5 to both coordinates it is given. *)
Lemma tooltip_differs_from_reference :
  let p := DomainTooltip.placementOnHover 100 100 1000 1000 in
  p = {| DomainTooltip.left := 120; DomainTooltip.top := 95 |} /\
  referenceLeft 100 1000 = 115 /\
  referenceTopBelow 100 = 90 /\
  DomainTooltip.left p <> referenceLeft 100 1000 /\
  DomainTooltip.top p <> referenceTopBelow 100 /\
  DomainTooltip.getTooltipPosition
    {| InteractiveMap.px := 100; InteractiveMap.py := 100 |} 1000 1000 =
    {| DomainTooltip.left := 105; DomainTooltip.top := 105 |}.
Proof. repeat split; discriminate. Qed.

(** ** Export *)

(** C9 (amended).  With "only filtered" set and a non-empty result list the
    export takes exactly the results; with it unset, or with an empty
    result list, it takes the whole dataset (nothing when no dataset is
    loaded). *)
Theorem export_selection (o : ExportData.ExportOptions) (s : AppStore.State) :
  ExportData.exported o s =
    if ExportData.onlyFiltered o
    then match AppStore.results s with
         | [] => registry s
         | _ :: _ => AppStore.results s
         end
    else registry s.
Proof.
  unfold ExportData.exported, ExportData.getDataToExport, registry.
  destruct (ExportData.onlyFiltered o), (AppStore.results s); reflexivity.
Qed.

(** C9 as stated fails: after a query that matches nothing the result
    list is empty, and the export with "only filtered" set takes the three
    areas of the dataset. *)
Lemma export_of_empty_results_is_whole_dataset :
  let s := AppStore.run (H := exampleRuntime) (loaded threeAreas)
             [AppStore.SetSearchQuery "zzz"] in
  ExportData.onlyFiltered exportFiltered = true /\
  AppStore.results s = [] /\
  ExportData.exported exportFiltered s = [areaA; areaB; areaC].
Proof. repeat split. Qed.

(** ** Loading and retrying *)

Section Retry.
Import App.

Lemma loadFrom_length (n : nat) (atts : list Attempt) (st : Loader) :
  (length (loadFrom n atts st) <= S (3 - n))%nat.
Proof.
  revert n st. induction atts as [|att rest IH]; intros n st; simpl; [lia|].
  unfold loadAppData. destruct (tryLoad att) as [err | data]; simpl; [|lia].
  destruct (Nat.ltb_spec n 3) as [Hn | Hn]; simpl; [|lia].
  destruct (onLineAtCatch att); simpl; [|lia].
  specialize (IH (S n) (setRetryCount n
    {| loading := false; error := Some (errorMessage err);
       retryCount := retryCount st; store := store st |})).
  lia.
Qed.

Lemma loadFrom_call (n : nat) (atts : list Attempt) (st : Loader) (i : nat) (c : Call) :
  loadFrom n atts st !! i = Some c ->
  exists att, atts !! i = Some att /\ attemptNo c = (n + i)%nat /\
    match tryLoad att with
    | inl e =>
        error (after c) = Some (errorMessage e) /\
        scheduled c =
          if ((n + i <? 3)%nat && onLineAtCatch att)%bool
          then Some {| delay := 2 ^ Z.of_nat (n + i) * 1000;
                       nextAttempt := S (n + i) |}
          else None
    | inr data =>
        error (after c) = None /\ scheduled c = None /\
        AppStore.appData (store (after c)) = Some data
    end.
Proof.
  revert n st i. induction atts as [|att rest IH]; intros n st i; simpl; [done|].
  unfold loadAppData. destruct i as [|i].
  - rewrite Nat.add_0_r. exists att. split; [done|].
    destruct (tryLoad att); simpl in *; by simplify_eq.
  - destruct (tryLoad att) as [err | data]; simpl; [|done].
    destruct ((n <? 3)%nat && onLineAtCatch att)%bool; simpl; [|done].
    intros Hc. apply IH in Hc as (att' & Hatt' & Hno & Hrest).
    exists att'. replace (n + S i)%nat with (S n + i)%nat by lia. done.
Qed.

(** C8 (amended).  Starting from [loadAppData(1)], at most three calls are
    made.  A call that fails, whatever the failure (timeout, network,
    HTTP status, content type, invalid JSON or a document that does not
    validate), leaves its message as the error and schedules the next
    call after [2^attempt] seconds exactly when fewer than three attempts
    have been made and the browser is online; a call that succeeds clears
    the error and schedules nothing. *)
Theorem retry_policy (atts : list Attempt) (st : Loader) :
  let calls := loadFrom 1 atts st in
  (length calls <= 3)%nat /\
  forall i c, calls !! i = Some c ->
    exists att, atts !! i = Some att /\ attemptNo c = S i /\
      match tryLoad att with
      | inl e =>
          error (after c) = Some (errorMessage e) /\
          scheduled c =
            if ((S i <? 3)%nat && onLineAtCatch att)%bool
            then Some {| delay := 2 ^ Z.of_nat (S i) * 1000;
                         nextAttempt := S (S i) |}
            else None
      | inr data =>
          error (after c) = None /\ scheduled c = None /\
          AppStore.appData (store (after c)) = Some data
      end.
Proof.
  split; [apply (loadFrom_length 1)|].
  intros i c Hc. exact (loadFrom_call 1 atts st i c Hc).
Qed.

End Retry.

(** C8 as stated fails: a document with an empty [areas] array and a body
    that is not JSON are both retried after 2 s, and a failure while the
    browser is offline is not retried at all. *)
Lemma validation_and_parse_errors_are_retried :
  App.tryLoad attEmptyAreas = inl (App.mkError "No domain data available") /\
  (App.loadAppData 1 attEmptyAreas App.mounted).2 =
    Some {| App.delay := 2000; App.nextAttempt := 2 |} /\
  App.error (App.loadAppData 1 attInvalidJson App.mounted).1 =
    Some "Data parsing error" /\
  (App.loadAppData 1 attInvalidJson App.mounted).2 =
    Some {| App.delay := 2000; App.nextAttempt := 2 |} /\
  (App.loadAppData 1 attOffline App.mounted).2 = None.
Proof. repeat split. Qed.

Example three_failures :
  let calls := App.loadFrom 1 [attTimeout; attInvalidJson; attEmptyAreas; attGood]
                 App.mounted in
  map App.attemptNo calls = [1; 2; 3]%nat /\
  App.delays calls = [2000; 4000] /\
  (App.error ∘ App.after) <$> last calls = Some (Some "No domain data available").
Proof. repeat split. Qed.

Example two_failures_then_success :
  let calls := App.loadFrom 1 [attTimeout; attTimeout; attGood] App.mounted in
  map App.attemptNo calls = [1; 2; 3]%nat /\
  App.delays calls = [2000; 4000] /\
  (App.retryCount ∘ App.after) <$> calls !! 1%nat = Some 1%nat /\
  (App.error ∘ App.after) <$> last calls = Some None /\
  (fmap areas ∘ AppStore.appData ∘ App.store ∘ App.after) <$> last calls =
    Some (Some [areaA; areaB; areaC]).
Proof. repeat split. Qed.

(** * Further properties of the embedded code *)

(** ** The store *)

Lemma filter_filter_and {A} (p q : A -> bool) (l : list A) :
  List.filter p (List.filter q l) = List.filter (fun a => q a && p a) l.
Proof.
  induction l as [|a l IH]; simpl; [done|].
  destruct (q a); simpl; [destruct (p a)|]; by rewrite IH.
Qed.

Lemma filter_ext_bool {A} (p q : A -> bool) (l : list A) :
  (forall a, p a = q a) -> List.filter p l = List.filter q l.
Proof.
  intros Hpq. induction l as [|a l IH]; simpl; [done|]. by rewrite Hpq, IH.
Qed.

Lemma filter_none {A} (p : A -> bool) (l : list A) :
  (forall a, p a = false) -> List.filter p l = [].
Proof.
  intros Hp. induction l as [|a l IH]; simpl; [done|]. by rewrite Hp.
Qed.

Lemma filter_complement {A} (p : A -> bool) (l : list A) :
  (List.filter p l ++ List.filter (fun a => negb (p a)) l)%list ≡ₚ l.
Proof.
  induction l as [|a l IH]; simpl; [done|].
  destruct (p a); simpl.
  - by rewrite IH.
  - rewrite <- Permutation_middle. by rewrite IH.
Qed.

Lemma distinct_length seen xs : (length (JS.distinct seen xs) <= length xs)%nat.
Proof.
  revert seen. induction xs as [|x r IH]; intros seen; simpl; [done|].
  case_bool_decide; [specialize (IH seen) | specialize (IH (x :: seen))];
    simpl; lia.
Qed.

Section StoreMore.
Context `{Runtime}.
Import AppStore.

(** X1.  On a store holding a dataset, a query whose trimmed text is
    shorter than two characters never reaches the fuzzy index: the results
    are a subsequence of the dataset with at most 1000 entries; for a
    one-character query each result's lower-cased domain or title starts
    with the lower-cased character; for an empty query with no filters
    the results are the first 1000 areas. *)
Theorem short_query_results (s : State) (fu : Fuse) (data : AppData) (q : string) :
  fuse s = Some fu -> appData s = Some data ->
  (String.length (JS.trim q) < 2)%nat ->
  let r := results (setSearchQuery q s) in
  sublist r (areas data) /\
  (length r <= 1000)%nat /\
  (String.length (JS.trim q) = 1%nat ->
   forall a, a ∈ r ->
     JS.startsWith (JS.toLowerCase (domain a)) (JS.toLowerCase (JS.trim q)) ||
     JS.startsWith (JS.toLowerCase (title a)) (JS.toLowerCase (JS.trim q)) = true) /\
  (JS.trim q = "" -> filters s = noFilters -> r = take 1000 (areas data)).
Proof.
  intros Hfu Hdata Hlen. unfold setSearchQuery. rewrite Hfu, Hdata. simpl.
  rewrite applyFilters_filter. unfold searchCandidates, MIN_MATCH_CHAR_LENGTH, SEARCH_LIMIT.
  destruct (Nat.leb_spec 2 (String.length (JS.trim q))) as [Hge | _]; [lia|].
  rewrite andb_false_r.
  destruct (String.length (JS.trim q)) as [|[|n]] eqn:Hn; [| |lia]; simpl.
  - assert (Hsub : sublist (List.filter (passes (filters s)) (take 1000 (areas data)))
                     (areas data)).
    { transitivity (take 1000 (areas data)); [apply filter_sublist | apply sublist_take]. }
    split; [done|]. split.
    + transitivity (length (take 1000 (areas data)));
        [apply sublist_length, filter_sublist | rewrite length_take; lia].
    + split; [done|]. intros Hq ->. by apply filter_all.
  - set (pre := fun a : AreaData => _ || _).
    split.
    + transitivity (take 1000 (List.filter pre (areas data)));
        [apply filter_sublist|].
      transitivity (List.filter pre (areas data));
        [apply sublist_take | apply filter_sublist].
    + split.
      * transitivity (length (take 1000 (List.filter pre (areas data))));
          [apply sublist_length, filter_sublist | rewrite length_take; lia].
      * split.
        -- intros _ a Ha. apply list_elem_of_In, filter_In in Ha as [Ha _].
           apply list_elem_of_In in Ha.
           apply (sublist_subseteq _ _ (sublist_take _ 1000)) in Ha.
           apply list_elem_of_In in Ha.
           apply filter_In in Ha as [_ Ha]. exact Ha.
        -- intros Hq. destruct (JS.trim q); [done | discriminate].
Qed.

(** X2.  Setting the query and setting the filters commute, and repeating
    either action with the same argument changes nothing. *)
Theorem query_and_filters_commute (s : State) (q : string) (f : SearchFilters) :
  setSearchQuery q (setFilters f s) = setFilters f (setSearchQuery q s) /\
  setSearchQuery q (setSearchQuery q s) = setSearchQuery q s /\
  setFilters f (setFilters f s) = setFilters f s.
Proof.
  unfold setSearchQuery, setFilters.
  destruct (fuse s) eqn:Hfu, (appData s) eqn:Hdata; simpl;
    rewrite ?Hfu, ?Hdata; simpl; done.
Qed.

Lemma step_indexed s a : indexed s -> indexed (step s a).
Proof.
  unfold indexed. destruct a; simpl; try done.
  - unfold setSearchQuery. by destruct (fuse s), (appData s).
  - unfold setFilters. by destruct (fuse s), (appData s).
  - unfold highlightDomain. by destruct (negb _).
Qed.

(** X3.  In every state the store can reach, the fuzzy index and the
    domain map are those of the dataset it holds (or all three are
    absent): no action leaves an index of an earlier dataset behind. *)
Theorem index_matches_dataset (l : list Action) : indexed (run initial l).
Proof.
  assert (Hgen : forall s, indexed s -> indexed (run s l)).
  { unfold run. induction l as [|a l IH]; intros s Hs; simpl; [done|].
    by apply IH, step_indexed. }
  apply Hgen. by unfold indexed.
Qed.


End StoreMore.

(** [short_query_results] for the query "a" on the three-area dataset. *)
Lemma short_query_results_witness :
  sublist (AppStore.results
             (AppStore.setSearchQuery (H := exampleRuntime) " a " (loaded threeAreas)))
          (areas threeAreas).
Proof.
  refine (proj1 (short_query_results (H := exampleRuntime) (loaded threeAreas)
                   {| AppStore.docs := areas threeAreas |} threeAreas " a "
                   eq_refl eq_refl _)).
  vm_compute. lia.
Defined.


Lemma withDomain_elem (d : string) (l : list AreaData) (a : AreaData) :
  a ∈ withDomain d l <-> a ∈ l /\ domain a = d.
Proof.
  unfold withDomain. rewrite !list_elem_of_In, filter_In.
  by rewrite String.eqb_eq.
Qed.

(** X5.  The store's domain map answers for exactly the domains that
    occur in the dataset, and the area it returns belongs to the dataset
    and has the domain asked for. *)
Theorem domainMap_sound_and_complete (l : list AreaData) (d : string) :
  (forall a, AppStore.buildDomainMap l !! d = Some a -> a ∈ l /\ domain a = d) /\
  (is_Some (AppStore.buildDomainMap l !! d) <-> d ∈ map domain l).
Proof.
  unfold AppStore.buildDomainMap. rewrite fold_insert_lookup, lookup_empty.
  split.
  - intros a Ha. apply withDomain_elem.
    destruct (last (withDomain d l)) as [b|] eqn:Hlast; [|done].
    injection Ha as ->. by apply last_Some_elem_of.
  - rewrite list_elem_of_fmap. split.
    + intros [a Ha]. destruct (last (withDomain d l)) as [b|] eqn:Hlast; [|done].
      apply last_Some_elem_of, withDomain_elem in Hlast as [Hb Hd]. eauto.
    + intros (a & -> & Ha).
      destruct (last (withDomain (domain a) l)) as [b|] eqn:Hlast; [by eexists|].
      apply last_None in Hlast.
      assert (Hin : a ∈ withDomain (domain a) l) by by apply withDomain_elem.
      rewrite Hlast in Hin. by apply not_elem_of_nil in Hin.
Qed.

Section FilterMore.
Context `{Runtime}.
Import AppStore.

(** X6.  Filtering twice with the same filters is filtering once, two
    filter objects can be applied in either order, and filtering a
    concatenation filters its parts. *)
Theorem applyFilters_algebra (l l' : list AreaData) (f g : SearchFilters) :
  applyFilters (applyFilters l f) f = applyFilters l f /\
  applyFilters (applyFilters l f) g = applyFilters (applyFilters l g) f /\
  applyFilters (l ++ l') f = (applyFilters l f ++ applyFilters l' f)%list.
Proof.
  rewrite !applyFilters_filter, !filter_filter_and. split; [|split].
  - apply filter_ext_bool. intros a. by destruct (passes f a).
  - apply filter_ext_bool. intros a. apply andb_comm.
  - apply List.filter_app.
Qed.

(** X7.  A filter object that sets only keys without a condition (the
    sort keys, [searchInTitle], a length range with no bound, a date range
    whose bounds are absent or empty) returns the list unchanged. *)
Theorem inert_keys_filter_nothing (l : list AreaData) (f : SearchFilters) :
  dnsStatus f = None -> httpStatus f = None -> whoisStatus f = None ->
  f_hasAnalytics f = None -> hasNameservers f = None ->
  (forall r, domainLength f = Some r -> min r = None /\ max r = None) ->
  (forall r, dateRange f = Some r ->
             truthy (start r) = false /\ truthy (end_ r) = false) ->
  applyFilters l f = l.
Proof.
  intros H1 H2 H3 H4 H5 H6 H7. rewrite applyFilters_filter.
  apply filter_all. intros a. unfold passes, filterConditions.
  rewrite H1, H2, H3, H4, H5.
  destruct (domainLength f) as [r|]; [destruct (H6 r eq_refl) as [-> ->]|];
    (destruct (dateRange f) as [r'|]; [destruct (H7 r' eq_refl) as [-> ->]|]);
    reflexivity.
Qed.

Lemma passes_false_invalid_bound f r a :
  dateRange f = Some r ->
  (truthy (start r) = true /\ start r ≫= dateValue = None) \/
  (truthy (end_ r) = true /\ end_ r ≫= dateValue = None) ->
  passes f a = false.
Proof.
  intros Hr Hbad. apply (passes_false_of_condition f a (dateRangeCondition r)).
  - unfold filterConditions. rewrite Hr.
    assert (Hact : truthy (start r) || truthy (end_ r) = true).
    { destruct Hbad as [[-> _] | [-> _]]; [done | apply orb_true_r]. }
    rewrite Hact. rewrite !elem_of_app. do 5 right. left. apply list_elem_of_singleton. done.
  - unfold dateRangeCondition.
    destruct (analytics a ≫= registered_at) as [reg|]; [|done].
    destruct (negb (truthy (Some reg))); [done|].
    destruct Hbad as [[Ht Hv] | [Ht Hv]]; rewrite Ht.
    + destruct (start r) as [st|]; [|done]. simpl in *. rewrite Hv.
      unfold JS.geNum. by destruct (dateValue reg).
    + destruct (end_ r) as [en|]; [|done]. simpl in *. rewrite Hv.
      unfold JS.leNum. destruct (dateValue reg); by rewrite andb_false_r.
Qed.

(** X8.  A date-range filter with a non-empty bound that is not a valid
    date excludes every area, whatever its registration date. *)
Theorem invalid_date_bound_excludes_all (l : list AreaData) (f : SearchFilters)
    (r : DateRange) :
  dateRange f = Some r ->
  (truthy (start r) = true /\ start r ≫= dateValue = None) \/
  (truthy (end_ r) = true /\ end_ r ≫= dateValue = None) ->
  applyFilters l f = [].
Proof.
  intros Hr Hbad. rewrite applyFilters_filter. apply filter_none.
  intros a. by apply (passes_false_invalid_bound f r).
Qed.

(** The two values of the [hasAnalytics] filter, and likewise of the
    [hasNameservers] filter, split the list: every area is in the result
    of exactly one of them. *)
Theorem boolean_filters_split (l : list AreaData) :
  (applyFilters l (onlyHasAnalytics true) ++
   applyFilters l (onlyHasAnalytics false))%list ≡ₚ l /\
  (applyFilters l (onlyNameservers true) ++
   applyFilters l (onlyNameservers false))%list ≡ₚ l.
Proof.
  rewrite !applyFilters_filter. split.
  - rewrite <- (filter_complement (passes (onlyHasAnalytics true)) l) at 3.
    f_equiv. apply reflexive_eq, filter_ext_bool. intros a.
    unfold passes, filterConditions, hasAnalyticsCondition. simpl.
    by destruct (hasAnalytics a).
  - rewrite <- (filter_complement (passes (onlyNameservers true)) l) at 3.
    f_equiv. apply reflexive_eq, filter_ext_bool. intros a.
    unfold passes, filterConditions, nameserversCondition. simpl.
    by destruct (match analytics a ≫= nameservers with Some _ => _ | None => _ end).
Qed.

(** X9.  After [setSearchQuery], on any store, the statistics never show
    more highlighted domains than results, and the search counts as
    active exactly when the query has a character that is not white
    space. *)
Theorem search_stats_after_query (s : State) (q : string) :
  let st := Selectors.selectSearchStats (setSearchQuery q s) in
  (Selectors.highlightedCount st <= Selectors.filteredResults st)%nat /\
  (Selectors.hasActiveSearch st = true <-> JS.trim q <> "").
Proof.
  unfold Selectors.selectSearchStats, setSearchQuery.
  destruct (fuse s), (appData s); simpl; split;
    try (unfold highlightsOf, JS.arrayFromSet;
         etransitivity; [apply distinct_length | by rewrite length_map]);
    try done;
    (destruct (JS.trim q); simpl; [split; [discriminate | done] | done]).
Qed.

End FilterMore.

(** [inert_keys_filter_nothing] at a filter object with sort keys, an
    empty length range and an empty start date. *)
Lemma inert_keys_filter_nothing_witness :
  AppStore.applyFilters (H := exampleRuntime) (areas threeAreas) inertFilters =
  areas threeAreas.
Proof.
  apply (inert_keys_filter_nothing (H := exampleRuntime) (areas threeAreas) inertFilters);
    try reflexivity.
  - intros r [= <-]. by split.
  - intros r [= <-]. by split.
Defined.

(** [invalid_date_bound_excludes_all] at a start bound that is no date. *)
Lemma invalid_date_bound_excludes_all_witness :
  AppStore.applyFilters (H := exampleRuntime) (areas threeAreas)
    (onlyDates {| start := Some "soon"; end_ := None |}) = [].
Proof.
  apply (invalid_date_bound_excludes_all (H := exampleRuntime) (areas threeAreas)
           (onlyDates {| start := Some "soon"; end_ := None |})
           {| start := Some "soon"; end_ := None |} eq_refl).
  left. split; reflexivity.
Defined.

(** ** The overlay *)

Lemma append_assoc_string (a b c : string) : (a +:+ b) +:+ c = a +:+ (b +:+ c).
Proof.
  induction a as [|ch a IH]; [done|].
  change (String ch ((a +:+ b) +:+ c) = String ch (a +:+ (b +:+ c))).
  by rewrite IH.
Qed.

Lemma dash_in_appended (s t : string) : allChars notDash (s +:+ String "-" t) = false.
Proof.
  induction s as [|c s IH]; [done|].
  change (notDash c && allChars notDash (s +:+ String "-" t) = false).
  by rewrite IH, andb_false_r.
Qed.

Lemma suffix_after_dash (s1 s2 t1 t2 : string) :
  allChars notDash t1 = true -> allChars notDash t2 = true ->
  s1 +:+ String "-" t1 = s2 +:+ String "-" t2 -> s1 = s2 /\ t1 = t2.
Proof.
  intros Ht1 Ht2. revert s2.
  induction s1 as [|c s1 IH]; intros [|c' s2]; intros Heq;
    unfold String.append in Heq; fold String.append in Heq.
  - by injection Heq.
  - injection Heq as _ Heq. rewrite Heq, dash_in_appended in Ht1. discriminate.
  - injection Heq as _ Heq. rewrite <- Heq, dash_in_appended in Ht2. discriminate.
  - injection Heq as -> Heq. destruct (IH _ Heq) as [-> ->]. done.
Qed.

Lemma string_of_uint_digits (d : Decimal.uint) :
  allChars digitChar (NilEmpty.string_of_uint d) = true.
Proof. induction d; simpl; auto. Qed.

Lemma toString_nat_notDash (n : nat) :
  allChars notDash (JS.toString (Z.of_nat n)) = true.
Proof.
  apply (allChars_impl digitChar).
  - intros c. unfold digitChar, notDash.
    destruct (Ascii.eqb_spec c "-") as [-> | _]; [done | done].
  - unfold JS.toString, NilZero.string_of_int, NilZero.string_of_uint.
    destruct n as [|n]; [done|]. simpl.
    destruct (Pos.to_uint (Pos.of_succ_nat n)) eqn:Hd; try apply string_of_uint_digits.
    done.
Qed.

Lemma toString_inj (a b : Z) : JS.toString a = JS.toString b -> a = b.
Proof.
  intros Hab. pose proof (Number_toString a) as Ha.
  rewrite Hab, Number_toString in Ha. by injection Ha.
Qed.

Lemma htmlKey_shape (i : nat) (h : InteractiveMap.HtmlMapArea) :
  InteractiveMap.uniqueKey i (InteractiveMap.HtmlArea h) =
  "html-" +:+ (htmlName h +:+ String "-" (JS.toString (Z.of_nat i))).
Proof.
  unfold InteractiveMap.uniqueKey, htmlName.
  by rewrite !append_assoc_string.
Qed.

Lemma htmlKey_eq (i j : nat) (h h' : InteractiveMap.HtmlMapArea) :
  InteractiveMap.uniqueKey i (InteractiveMap.HtmlArea h) =
  InteractiveMap.uniqueKey j (InteractiveMap.HtmlArea h') ->
  i = j /\ htmlName h = htmlName h'.
Proof.
  rewrite !htmlKey_shape. intros Heq.
  unfold String.append in Heq at 1 3. fold String.append in Heq.
  injection Heq as Heq.
  apply suffix_after_dash in Heq as [Hname Hidx];
    try apply toString_nat_notDash.
  apply toString_inj, Nat2Z.inj in Hidx. done.
Qed.

Lemma fold_insert_pairs {V} (kvs : list (string * V)) (m : gmap string V) (k : string) :
  NoDup kvs.*1 ->
  fold_left (fun m kv => <[kv.1 := kv.2]> m) kvs m !! k =
  (list_to_map kvs ∪ m) !! k.
Proof.
  revert m. induction kvs as [|[k0 v0] kvs IH]; intros m Hnd.
  - simpl. by rewrite (left_id_L ∅ (∪)).
  - rewrite fmap_cons in Hnd. apply NoDup_cons in Hnd as [Hk0 Hnd].
    cbn [fold_left list_to_map foldr fst snd]. rewrite (IH _ Hnd).
    assert (Hnone : (list_to_map kvs : gmap string V) !! k0 = None)
      by by apply not_elem_of_list_to_map_1.
    rewrite !lookup_union. destruct (decide (k = k0)) as [-> | Hne].
    + rewrite !lookup_insert_eq, Hnone. by destruct (m !! k0).
    + by rewrite !lookup_insert_ne.
Qed.

Lemma htmlKeys_NoDup (hs : list InteractiveMap.HtmlMapArea) :
  NoDup (imap (fun index r => (InteractiveMap.uniqueKey index r,
                               InteractiveMap.coordinatesFor r))
              (map InteractiveMap.HtmlArea hs)).*1.
Proof.
  apply NoDup_alt. intros i j k Hi Hj.
  rewrite list_lookup_fmap, list_lookup_imap, list_lookup_fmap in Hi, Hj.
  destruct (hs !! i) as [h|] eqn:Hhi; [|done].
  destruct (hs !! j) as [h'|] eqn:Hhj; [|done].
  assert (Hi' : Some (InteractiveMap.uniqueKey i (InteractiveMap.HtmlArea h)) = Some k)
    by exact Hi.
  assert (Hj' : Some (InteractiveMap.uniqueKey j (InteractiveMap.HtmlArea h')) = Some k)
    by exact Hj.
  injection Hi' as Hi'. injection Hj' as Hj'. rewrite <- Hj' in Hi'.
  by apply htmlKey_eq in Hi' as [-> _].
Qed.

(** What the coordinate map of a list of HTML areas holds under a key. *)
Lemma html_coordMap_lookup (hs : list InteractiveMap.HtmlMapArea) (k : string)
    (v : option AreaCoordinates) :
  InteractiveMap.parsedCoordinates (map InteractiveMap.HtmlArea hs) !! k = Some v <->
  exists i h, hs !! i = Some h /\
    k = InteractiveMap.uniqueKey i (InteractiveMap.HtmlArea h) /\
    v = InteractiveMap.coordinatesFor (InteractiveMap.HtmlArea h).
Proof.
  unfold InteractiveMap.parsedCoordinates.
  rewrite fold_insert_pairs by apply htmlKeys_NoDup.
  rewrite (right_id_L ∅ (∪)).
  rewrite <- elem_of_list_to_map by apply htmlKeys_NoDup.
  rewrite list_elem_of_lookup. split.
  - intros [i Hi]. rewrite list_lookup_imap, list_lookup_fmap in Hi.
    destruct (hs !! i) as [h|] eqn:Hh; [|done].
    assert (Hi' : Some (InteractiveMap.uniqueKey i (InteractiveMap.HtmlArea h),
                        InteractiveMap.coordinatesFor (InteractiveMap.HtmlArea h)) =
                  Some (k, v)) by exact Hi.
    injection Hi' as <- <-. eauto.
  - intros (i & h & Hh & -> & ->). exists i.
    by rewrite list_lookup_imap, list_lookup_fmap, Hh.
Qed.

Lemma filter_none_highlighted (hl : list string) (sel : option string)
    (hs : list InteractiveMap.HtmlMapArea) :
  (forall h, h ∈ hs ->
     InteractiveMap.isHighlighted hl sel (InteractiveMap.h_domain h) = false) ->
  InteractiveMap.highlightedAreasToRender hl sel (map InteractiveMap.HtmlArea hs) = [] /\
  InteractiveMap.nonHighlightedAreas hl sel (map InteractiveMap.HtmlArea hs) =
    map InteractiveMap.HtmlArea hs.
Proof.
  intros Hno. unfold InteractiveMap.highlightedAreasToRender,
    InteractiveMap.nonHighlightedAreas.
  induction hs as [|h hs IH]; simpl; [done|].
  rewrite (Hno h) by apply list_elem_of_here. simpl.
  destruct IH as [-> ->]; [|done]. intros h' Hh'. apply Hno. by apply list_elem_of_further.
Qed.

Lemma renderLayer_lookup (m : gmap string (option AreaCoordinates))
    (layer : list InteractiveMap.Renderable) (i : nat) :
  InteractiveMap.renderLayer m layer !! i =
  (fun r => mjoin (m !! InteractiveMap.uniqueKey i r)) <$> layer !! i.
Proof. unfold InteractiveMap.renderLayer. apply list_lookup_imap. Qed.

(** X10.  When the HTML map is loaded and none of its areas is highlighted
    or selected, every area is offered to the click layer with its own
    rectangle, or skipped when its coordinates do not parse or leave the
    image; the highlighted layer is empty. *)
Theorem unhighlighted_html_areas_drawn (hs : list InteractiveMap.HtmlMapArea)
    (appData : option AppData) (hl : list string) (sel : option string) :
  hs <> [] ->
  (forall h, h ∈ hs ->
     InteractiveMap.isHighlighted hl sel (InteractiveMap.h_domain h) = false) ->
  InteractiveMap.rendered hs appData hl sel =
  ([], map (fun h => InteractiveMap.coordinatesFor (InteractiveMap.HtmlArea h)) hs).
Proof.
  intros Hne Hno. unfold InteractiveMap.rendered, InteractiveMap.areasToRender.
  destruct hs as [|h0 hs0] eqn:Hhs; [done|]. rewrite <- Hhs in *. clear Hne.
  replace (0 <? length hs)%nat with true by (rewrite Hhs; done).
  destruct (filter_none_highlighted hl sel hs Hno) as [-> ->].
  f_equal. apply list_eq. intros i.
  rewrite renderLayer_lookup, !list_lookup_fmap.
  destruct (hs !! i) as [h|] eqn:Hh; [|done].
  assert (Hlk : InteractiveMap.parsedCoordinates (map InteractiveMap.HtmlArea hs)
                  !! InteractiveMap.uniqueKey i (InteractiveMap.HtmlArea h) =
                Some (InteractiveMap.coordinatesFor (InteractiveMap.HtmlArea h))).
  { apply html_coordMap_lookup. eauto. }
  change (Some (mjoin (InteractiveMap.parsedCoordinates (map InteractiveMap.HtmlArea hs)
                         !! InteractiveMap.uniqueKey i (InteractiveMap.HtmlArea h))) =
          Some (InteractiveMap.coordinatesFor (InteractiveMap.HtmlArea h))).
  by rewrite Hlk.
Qed.

(** [unhighlighted_html_areas_drawn] for two HTML areas, the second of
    which leaves the image. *)
Lemma unhighlighted_html_areas_drawn_witness :
  InteractiveMap.rendered [htmlAreaOf "a.com" "0,0,10,10"; bigHtmlArea]
    (Some threeAreas) [] None =
  ([], [Some square; None]).
Proof.
  apply (unhighlighted_html_areas_drawn
           [htmlAreaOf "a.com" "0,0,10,10"; bigHtmlArea] (Some threeAreas) [] None).
  - discriminate.
  - intros h _. unfold InteractiveMap.isHighlighted, JS.arrayIncludes.
    rewrite bool_decide_eq_false_2; [done | apply not_elem_of_nil].
Defined.



Lemma in_layer (p : InteractiveMap.Renderable -> bool)
    (l : list InteractiveMap.Renderable) (r : InteractiveMap.Renderable) :
  r ∈ List.filter p l <-> r ∈ l /\ p r = true.
Proof. by rewrite !list_elem_of_In, filter_In. Qed.

Lemma prefix_before_dash (s1 s2 t1 t2 : string) :
  allChars notDash s1 = true -> allChars notDash s2 = true ->
  s1 +:+ String "-" t1 = s2 +:+ String "-" t2 -> s1 = s2 /\ t1 = t2.
Proof.
  revert s2. induction s1 as [|c s1 IH]; intros [|c' s2] H1 H2 Heq;
    unfold String.append in Heq; fold String.append in Heq.
  - by injection Heq.
  - injection Heq as <- _. simpl in H2. done.
  - injection Heq as -> _. simpl in H1. done.
  - injection Heq as -> Heq. simpl in H1, H2.
    apply andb_prop in H1 as [_ H1]. apply andb_prop in H2 as [_ H2].
    by destruct (IH _ H1 H2 Heq) as [-> ->].
Qed.

Lemma toString_nonneg_notDash (z : Z) :
  0 <= z -> allChars notDash (JS.toString z) = true.
Proof. intros Hz. rewrite <- (Z2Nat.id z Hz). apply toString_nat_notDash. Qed.

(** The key of a dataset area that has a non-zero id, or the index 0. *)
Lemma dataKey_shape (i : nat) (a : AreaData) :
  (area_id a = 0 -> i = 0%nat) ->
  InteractiveMap.uniqueKey i (InteractiveMap.DataArea a) =
  "area-" +:+ (JS.toString (area_id a) +:+ String "-" (domain a)).
Proof.
  intros Hi. unfold InteractiveMap.uniqueKey.
  destruct (Z.eqb_spec (area_id a) 0) as [H0 | _].
  - rewrite H0, (Hi H0). reflexivity.
  - reflexivity.
Qed.

Section DatasetOverlay.
Variable l : list AreaData.
Hypothesis ids_nonneg : Forall (fun a => 0 <= area_id a) l.
Hypothesis ids_distinct : NoDup (map area_id l).
Hypothesis id_zero_first : forall i a, l !! i = Some a -> area_id a = 0 -> i = 0%nat.

Lemma dataKeys_NoDup :
  NoDup (imap (fun index r => (InteractiveMap.uniqueKey index r,
                               InteractiveMap.coordinatesFor r))
              (map InteractiveMap.DataArea l)).*1.
Proof.
  apply NoDup_alt. intros i j k Hi Hj.
  rewrite list_lookup_fmap, list_lookup_imap, list_lookup_fmap in Hi, Hj.
  destruct (l !! i) as [a|] eqn:Hai; [|done].
  destruct (l !! j) as [a'|] eqn:Haj; [|done].
  assert (Hi' : InteractiveMap.uniqueKey i (InteractiveMap.DataArea a) =
                InteractiveMap.uniqueKey j (InteractiveMap.DataArea a')).
  { apply (inj Some). transitivity (Some k); [exact Hi | symmetry; exact Hj]. }
  rewrite !dataKey_shape in Hi' by eauto.
  unfold String.append in Hi' at 1 3. fold String.append in Hi'.
  injection Hi' as Hi'.
  apply prefix_before_dash in Hi' as [Hid _].
  - apply toString_inj in Hid.
    apply (NoDup_lookup (map area_id l) i j (area_id a)); [done| |].
    + by rewrite list_lookup_fmap, Hai.
    + by rewrite list_lookup_fmap, Haj, Hid.
  - apply toString_nonneg_notDash.
    by apply (proj1 (Forall_lookup _ _) ids_nonneg i).
  - apply toString_nonneg_notDash.
    by apply (proj1 (Forall_lookup _ _) ids_nonneg j).
Qed.

Lemma data_coordMap_lookup (i : nat) (a : AreaData) :
  l !! i = Some a ->
  InteractiveMap.parsedCoordinates (map InteractiveMap.DataArea l)
    !! InteractiveMap.uniqueKey i (InteractiveMap.DataArea a) =
  Some (InteractiveMap.coordinatesFor (InteractiveMap.DataArea a)).
Proof.
  intros Ha. unfold InteractiveMap.parsedCoordinates.
  rewrite fold_insert_pairs by apply dataKeys_NoDup.
  rewrite (right_id_L ∅ (∪)).
  apply elem_of_list_to_map; [apply dataKeys_NoDup|].
  apply list_elem_of_lookup. exists i.
  by rewrite list_lookup_imap, list_lookup_fmap, Ha.
Qed.

Lemma filter_lookup_le {A} (p : A -> bool) (xs : list A) (j : nat) (r : A) :
  List.filter p xs !! j = Some r -> exists i, xs !! i = Some r /\ (j <= i)%nat.
Proof.
  revert j. induction xs as [|x xs IH]; intros j; simpl; [done|].
  destruct (p x).
  - destruct j as [|j]; simpl.
    + intros [= ->]. by exists 0%nat.
    + intros Hj. destruct (IH _ Hj) as (i & Hi & Hle). exists (S i). split; [done|lia].
  - intros Hj. destruct (IH _ Hj) as (i & Hi & Hle). exists (S i). split; [done|lia].
Qed.

(** A layer of dataset areas is drawn area by area. *)
Lemma data_layer (p : InteractiveMap.Renderable -> bool) :
  InteractiveMap.renderLayer
    (InteractiveMap.parsedCoordinates (map InteractiveMap.DataArea l))
    (List.filter p (map InteractiveMap.DataArea l)) =
  map (fun a => Some (coordinates a))
      (List.filter (fun a => p (InteractiveMap.DataArea a)) l).
Proof.
  transitivity (map InteractiveMap.coordinatesFor
                  (List.filter p (map InteractiveMap.DataArea l))).
  - apply list_eq. intros j. rewrite renderLayer_lookup, list_lookup_fmap.
    destruct (List.filter p (map InteractiveMap.DataArea l) !! j) as [r|] eqn:Hr;
      [|done].
    simpl. f_equal.
    destruct (filter_lookup_le _ _ _ _ Hr) as (i & Hi & Hle).
    rewrite list_lookup_fmap in Hi.
    destruct (l !! i) as [a|] eqn:Ha; [|done]. injection Hi as <-.
    assert (Hkey : InteractiveMap.uniqueKey j (InteractiveMap.DataArea a) =
                   InteractiveMap.uniqueKey i (InteractiveMap.DataArea a)).
    { rewrite !dataKey_shape; [done|eauto|].
      intros H0. specialize (id_zero_first i a Ha H0). lia. }
    by rewrite Hkey, (data_coordMap_lookup i a Ha).
  - clear. induction l as [|a l' IH]; simpl; [done|].
    destruct (p (InteractiveMap.DataArea a)); simpl; rewrite IH; [|done].
    by destruct (coordinates a).
Qed.

End DatasetOverlay.

(** X12.  When the overlay draws the dataset (the HTML map is not loaded)
    and the areas have distinct ids, none negative and 0 only for the
    first area, every area is drawn exactly once with its own rectangle:
    in the highlighted layer when the store highlights or selects its
    domain, among the click targets otherwise.  So after [highlightDomain]
    or [setSelectedDomain] the rectangles of that domain are drawn
    highlighted, and after [clearSearch] every area is a click target.
    (With the HTML map loaded the keys depend on the position in the
    layer, and a highlighted area can lose its rectangle.) *)
Theorem highlighted_domain_reaches_overlay (data : AppData) (s : AppStore.State)
    (d : string) :
  AppStore.appData s = Some data ->
  Forall (fun a => 0 <= area_id a) (areas data) ->
  NoDup (map area_id (areas data)) ->
  (forall i a, areas data !! i = Some a -> area_id a = 0 -> i = 0%nat) ->
  let draw st :=
    InteractiveMap.rendered [] (AppStore.appData st)
      (AppStore.highlightedAreas st) (AppStore.selectedDomain st) in
  let lit st a :=
    InteractiveMap.isHighlighted (AppStore.highlightedAreas st)
      (AppStore.selectedDomain st) (domain a) in
  let drawn p := map (fun a => Some (coordinates a)) (List.filter p (areas data)) in
  draw s = (drawn (lit s), drawn (fun a => negb (lit s a))) /\
  sublist (drawn (fun a => String.eqb (domain a) d))
          (draw (AppStore.highlightDomain d s)).1 /\
  sublist (drawn (fun a => String.eqb (domain a) d))
          (draw (AppStore.setSelectedDomain (Some d) s)).1 /\
  draw (AppStore.clearSearch s) = ([], map (fun a => Some (coordinates a)) (areas data)).
Proof.
  intros Hdata Hnn Hnd H0. cbv zeta.
  assert (Hdraw : forall st, AppStore.appData st = Some data ->
    InteractiveMap.rendered [] (AppStore.appData st)
      (AppStore.highlightedAreas st) (AppStore.selectedDomain st) =
    (map (fun a => Some (coordinates a))
       (List.filter (fun a => InteractiveMap.isHighlighted
          (AppStore.highlightedAreas st) (AppStore.selectedDomain st) (domain a))
          (areas data)),
     map (fun a => Some (coordinates a))
       (List.filter (fun a => negb (InteractiveMap.isHighlighted
          (AppStore.highlightedAreas st) (AppStore.selectedDomain st) (domain a)))
          (areas data)))).
  { intros st Hst. unfold InteractiveMap.rendered, InteractiveMap.areasToRender,
      InteractiveMap.highlightedAreasToRender, InteractiveMap.nonHighlightedAreas.
    rewrite Hst. cbn [length Nat.ltb Nat.leb].
    by rewrite !(data_layer (areas data) Hnn Hnd H0). }
  split; [by apply Hdraw|]. split; [|split].
  - rewrite Hdraw by (unfold AppStore.highlightDomain; by destruct (negb _)).
    cbn [fst]. apply fmap_sublist, filter_sublist_mono. intros a Ha.
    apply String.eqb_eq in Ha. rewrite Ha.
    unfold AppStore.highlightDomain, InteractiveMap.isHighlighted, JS.arrayIncludes.
    destruct (bool_decide (d ∈ AppStore.highlightedAreas s)) eqn:Hin;
      cbn [negb AppStore.highlightedAreas AppStore.selectedDomain].
    + by rewrite Hin.
    + apply orb_true_iff. left. apply bool_decide_eq_true_2, elem_of_app.
      right. by apply list_elem_of_singleton.
  - rewrite Hdraw by done.
    cbn [fst]. apply fmap_sublist, filter_sublist_mono. intros a Ha.
    apply String.eqb_eq in Ha. rewrite Ha.
    unfold InteractiveMap.isHighlighted. simpl.
    by rewrite String.eqb_refl, orb_true_r.
  - rewrite Hdraw by done. unfold AppStore.clearSearch.
    cbn [AppStore.highlightedAreas AppStore.selectedDomain].
    unfold InteractiveMap.isHighlighted, JS.arrayIncludes.
    rewrite filter_none, filter_all; [done| |]; intros a;
      (rewrite bool_decide_eq_false_2; [done | apply not_elem_of_nil]).
Qed.

(** [highlighted_domain_reaches_overlay] on three tiles, the middle one
    highlighted. *)
Lemma highlighted_domain_reaches_overlay_witness :
  InteractiveMap.rendered [] (Some tiles) ["b.com"] None =
  ([Some (tile 10)], [Some (tile 0); Some (tile 20)]).
Proof.
  refine (proj1 (highlighted_domain_reaches_overlay tiles
            (AppStore.highlightDomain "b.com" (loaded tiles)) "b.com"
            eq_refl _ _ _)).
  - repeat constructor; simpl; lia.
  - repeat (constructor; [set_solver|]). constructor.
  - intros [|i] a Ha Hid; [done|].
    destruct i as [|[|i]]; simpl in Ha; [| |done]; injection Ha as <-; done.
Defined.

(** The two layers split the list of areas: together they hold
    every area exactly once, each in the order of the list. *)
Theorem layers_split_areas (hl : list string) (sel : option string)
    (l : list InteractiveMap.Renderable) :
  (InteractiveMap.highlightedAreasToRender hl sel l ++
   InteractiveMap.nonHighlightedAreas hl sel l)%list ≡ₚ l /\
  sublist (InteractiveMap.highlightedAreasToRender hl sel l) l /\
  sublist (InteractiveMap.nonHighlightedAreas hl sel l) l /\
  (forall r, r ∈ InteractiveMap.highlightedAreasToRender hl sel l ->
             r ∉ InteractiveMap.nonHighlightedAreas hl sel l).
Proof.
  unfold InteractiveMap.highlightedAreasToRender, InteractiveMap.nonHighlightedAreas.
  split; [apply filter_complement|]. split; [apply filter_sublist|].
  split; [apply filter_sublist|].
  intros r. rewrite !in_layer. intros [_ Hr] [_ Hr']. by rewrite Hr in Hr'.
Qed.

(** X13.  A rectangle obtained from two corners passes the validity rule
    exactly when both corners lie between 0 and the bounds and differ in
    both coordinates. *)
Theorem valid_rectangle_iff (x1 y1 x2 y2 maxWidth maxHeight : Z) :
  let r := CoordinateUtils.rectangle x1 y1 x2 y2 in
  CoordinateUtils.isValidCoordinate (x r) (y r) (width r) (height r)
    maxWidth maxHeight = true <->
  0 <= Z.min x1 x2 /\ 0 <= Z.min y1 y2 /\
  Z.max x1 x2 <= maxWidth /\ Z.max y1 y2 <= maxHeight /\
  x1 <> x2 /\ y1 <> y2.
Proof.
  unfold CoordinateUtils.isValidCoordinate, CoordinateUtils.rectangle,
    CoordinateUtils.COORDINATE_MIN. simpl.
  rewrite !andb_true_iff, !Z.leb_le, !Z.ltb_lt. lia.
Qed.

(** ** Tooltip placement inside the viewport *)

(** X14.  In a viewport of at least 360 by 340, for a pointer at most 30
    short of the right edge and not below the bottom edge, the tooltip box
    of 320 by 300 that the code assumes lies within the padding of 20 on
    all four sides. *)
Theorem tooltip_within_viewport (clientX clientY innerWidth innerHeight : Z) :
  360 <= innerWidth -> 340 <= innerHeight ->
  clientX <= innerWidth - 30 -> clientY <= innerHeight ->
  let p := DomainTooltip.placementOnHover clientX clientY innerWidth innerHeight in
  20 <= DomainTooltip.left p /\ DomainTooltip.left p + 320 <= innerWidth - 20 /\
  20 <= DomainTooltip.top p /\ DomainTooltip.top p + 300 <= innerHeight - 20.
Proof.
  intros Hw Hh Hx Hy.
  unfold DomainTooltip.placementOnHover, DomainTooltip.getTooltipPosition,
    InteractiveMap.hoverPosition, InteractiveMap.OFFSET_X, InteractiveMap.OFFSET_Y.
  cbn [DomainTooltip.left DomainTooltip.top InteractiveMap.px InteractiveMap.py].
  destruct (_ || _) eqn:Habove;
    [apply orb_true_iff in Habove; rewrite !Z.ltb_lt in Habove
    |apply orb_false_iff in Habove; rewrite !Z.ltb_ge in Habove];
    (destruct (innerWidth - 20 <? clientX + 15 + 5 + 320) eqn:Hflip;
     [apply Z.ltb_lt in Hflip | apply Z.ltb_ge in Hflip]);
    repeat match goal with
           | |- context [?a <? ?b] => destruct (Z.ltb_spec a b)
           end; lia.
Qed.

(** [tooltip_within_viewport] for a pointer near the lower right corner
    of a 1000 by 1000 viewport. *)
Lemma tooltip_within_viewport_witness :
  let p := DomainTooltip.placementOnHover 950 950 1000 1000 in
  20 <= DomainTooltip.left p /\ DomainTooltip.left p + 320 <= 1000 - 20 /\
  20 <= DomainTooltip.top p /\ DomainTooltip.top p + 300 <= 1000 - 20.
Proof. apply (tooltip_within_viewport 950 950 1000 1000); lia. Defined.

(** ** Loading *)

Section LoadMore.
Import App.

Lemma validate_nonempty (doc : RawDocument) (data : AppData) :
  validate doc = inr data -> areas data <> [] /\ 0 < totalAreas (metadata data).
Proof.
  unfold validate. destruct doc as [|[l|] m]; try discriminate.
  destruct l as [|a l]; [discriminate|]. simpl.
  destruct m as [md|]; [|discriminate].
  destruct (totalAreasField md) as [t|]; [|discriminate].
  destruct (Z.leb_spec t 0); [discriminate|].
  intros [= <-]. simpl. split; [done | lia].
Qed.

Lemma tryLoad_nonempty (att : Attempt) (data : AppData) :
  tryLoad att = inr data -> areas data <> [] /\ 0 < totalAreas (metadata data).
Proof.
  unfold tryLoad. destruct (negb (onLineAtStart att)); [discriminate|].
  destruct (fetched att) as [e|r]; [discriminate|].
  destruct (negb _);
    [destruct (status r =? 404); [discriminate|];
     destruct (500 <=? status r); discriminate|].
  destruct (contentType r) as [ct|]; [|discriminate].
  destruct (_ && _); [|discriminate].
  destruct (body r) as [e|doc]; [discriminate|]. apply validate_nonempty.
Qed.

(** X15.  Whatever the server sends, a dataset that the loader hands to
    the store has at least one area and a positive [totalAreas]. *)
Theorem loaded_dataset_nonempty (n : nat) (atts : list Attempt) (i : nat)
    (c : Call) (data : AppData) :
  loadFrom n atts mounted !! i = Some c ->
  AppStore.appData (store (after c)) = Some data ->
  areas data <> [] /\ 0 < totalAreas (metadata data).
Proof.
  assert (Hgen : forall atts n st i c,
    loadFrom n atts st !! i = Some c ->
    AppStore.appData (store (after c)) = Some data ->
    AppStore.appData (store st) = Some data \/
    (areas data <> [] /\ 0 < totalAreas (metadata data))).
  { clear. induction atts as [|att rest IH]; intros n st i c; [done|].
    cbn [loadFrom]. unfold loadAppData.
    destruct (tryLoad att) as [err|d] eqn:Htry.
    - destruct i as [|i]; [intros [= <-]; simpl; auto|].
      destruct (_ && _); [|done]. cbn [lookup list_lookup]. intros Hc Hd.
      apply (IH _ _ _ _ Hc) in Hd. exact Hd.
    - destruct i as [|i]; [|done]. intros [= <-]. simpl. intros [= <-].
      right. by apply (tryLoad_nonempty att). }
  intros Hc Hd. by destruct (Hgen atts n mounted i c Hc Hd).
Qed.

(** X16.  While the attempts fail, the store keeps the dataset it had:
    after every failed call the store is unchanged and an error message is
    set. *)
Theorem failed_loads_keep_store (n : nat) (atts : list Attempt) (st : Loader)
    (i : nat) (c : Call) :
  forallb fails atts = true ->
  loadFrom n atts st !! i = Some c ->
  store (after c) = store st /\ is_Some (error (after c)).
Proof.
  revert n st i. induction atts as [|att rest IH]; intros n st i Hf; [done|].
  cbn [forallb] in Hf. apply andb_prop in Hf as [Hatt Hf].
  cbn [loadFrom]. unfold loadAppData. unfold fails in Hatt.
  destruct (tryLoad att) as [err|d]; [|discriminate].
  destruct i as [|i]; [intros [= <-]; simpl; eauto|].
  destruct (_ && _); [|done]. cbn [lookup list_lookup]. intros Hc.
  by apply (IH _ _ _ Hf) in Hc.
Qed.

End LoadMore.

(** [loaded_dataset_nonempty] for a load that succeeds at the third
    attempt. *)
Lemma loaded_dataset_nonempty_witness :
  areas goodData <> [] /\ 0 < totalAreas (metadata goodData).
Proof.
  eapply (loaded_dataset_nonempty 1 [attTimeout; attTimeout; attGood] 2);
    reflexivity.
Defined.

(** [failed_loads_keep_store] for a timeout followed by a page that is not
    JSON. *)
Lemma failed_loads_keep_store_witness :
  App.store (App.after secondCall) = App.store App.mounted /\
  is_Some (App.error (App.after secondCall)).
Proof.
  apply (failed_loads_keep_store 1 [attTimeout; attHtmlPage] App.mounted 1 secondCall);
    reflexivity.
Defined.

Section ShownErrors.
Import App.

Lemma validate_message (doc : RawDocument) (e : JsError) :
  validate doc = inl e -> errorMessage e = message e.
Proof.
  unfold validate. destruct doc as [|[l|] m]; try (by intros [= <-]).
  destruct (length l =? 0)%nat; [by intros [= <-]|].
  destruct m as [md|]; [|by intros [= <-]].
  destruct (totalAreasField md) as [t|]; [|by intros [= <-]].
  destruct (t <=? 0); [by intros [= <-] | discriminate].
Qed.

(** X17.  What the error screen shows: an attempt made while offline shows
    the no-connection message without looking at the fetch; a response
    with a success status whose content type is not JSON is reported as
    "Data parsing error" (its own message mentions JSON); a document that
    fails validation shows the validation message itself; an aborted
    fetch shows "Request timed out" whatever its message. *)
Theorem shown_error_by_kind (att : Attempt) :
  (onLineAtStart att = false ->
   shownError att =
     Some "No internet connection. Please check your network and try again.") /\
  (forall r, onLineAtStart att = true -> fetched att = Resolved r ->
     okStatus (status r) = true -> jsonContentType (contentType r) = false ->
     shownError att = Some "Data parsing error") /\
  (forall r doc e, onLineAtStart att = true -> fetched att = Resolved r ->
     okStatus (status r) = true -> jsonContentType (contentType r) = true ->
     body r = Json doc -> validate doc = inl e ->
     shownError att = Some (message e)) /\
  (forall e, onLineAtStart att = true -> fetched att = Rejected e ->
     name e = "AbortError" -> shownError att = Some "Request timed out").
Proof.
  unfold shownError, tryLoad, okStatus, jsonContentType. repeat split.
  - by intros ->.
  - intros r -> -> -> Hct. simpl.
    destruct (contentType r) as [ct|]; [|done]. by rewrite Hct.
  - intros r doc e -> -> -> Hct -> Hv. simpl.
    destruct (contentType r) as [ct|]; [|done]. rewrite Hct, Hv.
    by rewrite (validate_message doc e Hv).
  - intros e -> -> Hname. simpl. unfold errorMessage. by rewrite Hname.
Qed.

End ShownErrors.

(** ** The build scripts *)

Lemma replaceFirst_prefix (pat rep s : string) :
  Scripts.replaceFirst pat rep (pat +:+ s) = rep +:+ s.
Proof.
  assert (Hpre : String.prefix pat (pat +:+ s) = true).
  { induction pat as [|c pat IH]; [by destruct s|].
    change (String.prefix (String c pat) (String c (pat +:+ s)) = true).
    cbn [String.prefix]. by destruct (ascii_dec c c). }
  assert (Hdrop : Scripts.dropChars (String.length pat) (pat +:+ s) = s).
  { clear Hpre. induction pat as [|c pat IH]; [done|]. exact IH. }
  assert (Hunfold : forall t, Scripts.replaceFirst pat rep t =
            if String.prefix pat t
            then rep +:+ Scripts.dropChars (String.length pat) t
            else match t with
                 | EmptyString => EmptyString
                 | String c r => String c (Scripts.replaceFirst pat rep r)
                 end) by by intros [|c r].
  by rewrite Hunfold, Hpre, Hdrop.
Qed.

Lemma toLowerCase_app (s t : string) :
  JS.toLowerCase (s +:+ t) = JS.toLowerCase s +:+ JS.toLowerCase t.
Proof.
  induction s as [|c s IH]; [done|].
  change (String (JS.lowerChar c) (JS.toLowerCase (s +:+ t)) =
          String (JS.lowerChar c) (JS.toLowerCase s +:+ JS.toLowerCase t)).
  by rewrite IH.
Qed.

Lemma fold_insert_key_sound {V} (key : V -> string) (l : list V)
    (m : gmap string V) (k : string) (v : V) :
  fold_left (fun m a => <[key a := a]> m) l m !! k = Some v ->
  (v ∈ l /\ key v = k) \/ m !! k = Some v.
Proof.
  revert m. induction l as [|a l IH]; intros m; simpl; [auto|].
  intros Hv. apply IH in Hv as [[Hin Hk] | Hv].
  - left. split; [by apply list_elem_of_further | done].
  - destruct (decide (key a = k)) as [<- | Hne].
    + rewrite lookup_insert_eq in Hv. injection Hv as <-.
      left. split; [apply list_elem_of_here | done].
    + rewrite lookup_insert_ne in Hv by done. auto.
Qed.

Lemma fold_insert_key_complete {V} (key : V -> string) (l : list V)
    (m : gmap string V) (k : string) :
  (exists v, v ∈ l /\ key v = k) \/ is_Some (m !! k) ->
  is_Some (fold_left (fun m a => <[key a := a]> m) l m !! k).
Proof.
  revert m. induction l as [|a l IH]; intros m; simpl.
  - intros [(v & Hv & _) | Hm]; [by apply not_elem_of_nil in Hv | done].
  - intros [(v & Hv & Hk) | Hm]; apply IH.
    + apply elem_of_cons in Hv as [-> | Hv]; [|left; eauto].
      right. rewrite Hk, lookup_insert_eq. by eexists.
    + right. destruct (decide (key a = k)) as [<- | Hne].
      * rewrite lookup_insert_eq. by eexists.
      * by rewrite lookup_insert_ne.
Qed.

(** X18.  Integration attaches to each area the analytics record whose
    cleaned domain (lower case, first "www." removed) equals the area's,
    and only such a record; [hasAnalytics] is set exactly when a record
    was attached; the areas keep their order and domains; and the two
    counts written to the metadata add up to the number of areas. *)
Theorem integration_matches_by_clean_domain (l : list AreaData)
    (ds : list DomainAnalytics) :
  let out := Scripts.integratedData l ds in
  map domain out = map domain l /\
  (forall a, a ∈ out ->
     (hasAnalytics a = true <-> is_Some (analytics a)) /\
     (is_Some (analytics a) <->
      exists an, an ∈ ds /\
        Scripts.cleanDomain (an_domain an) = Scripts.cleanDomain (domain a)) /\
     (forall an, analytics a = Some an ->
        an ∈ ds /\ Scripts.cleanDomain (an_domain an) = Scripts.cleanDomain (domain a))) /\
  Scripts.withAnalytics out + Scripts.withoutAnalytics out = Z.of_nat (length l) /\
  0 <= Scripts.withoutAnalytics out.
Proof.
  unfold Scripts.integratedData. cbv zeta. split; [|split; [|split]].
  - rewrite map_map. by apply map_ext.
  - intros a Ha. apply list_elem_of_fmap in Ha as (a0 & -> & _).
    unfold Scripts.integrate, Scripts.analyticsMap. simpl.
    split; [|split].
    + destruct (fold_left _ ds ∅ !! _); simpl; split; (done || by eexists || by intros []).
    + split.
      * intros [an Han]. apply fold_insert_key_sound in Han as [[? ?] | Han]; [eauto|].
        by rewrite lookup_empty in Han.
      * intros Hex. apply fold_insert_key_complete. by left.
    + intros an Han. apply fold_insert_key_sound in Han as [[? ?] | Han]; [done|].
      by rewrite lookup_empty in Han.
  - unfold Scripts.withoutAnalytics, Scripts.withAnalytics.
    rewrite length_map. lia.
  - unfold Scripts.withoutAnalytics, Scripts.withAnalytics.
    pose proof (sublist_length _ _
      (filter_sublist hasAnalytics (map (Scripts.integrate (Scripts.analyticsMap ds)) l))).
    lia.
Qed.

(** A leading "www." is removed whatever the letter case of the
    domain, and cleaning never depends on letter case. *)
Theorem cleanDomain_www (d d' : string) :
  Scripts.cleanDomain ("www." +:+ d) = JS.toLowerCase d /\
  Scripts.cleanDomain ("WWW." +:+ d) = JS.toLowerCase d /\
  (JS.toLowerCase d = JS.toLowerCase d' ->
   Scripts.cleanDomain d = Scripts.cleanDomain d').
Proof.
  unfold Scripts.cleanDomain. rewrite !toLowerCase_app.
  change (JS.toLowerCase "www.") with "www.".
  change (JS.toLowerCase "WWW.") with "www.".
  rewrite replaceFirst_prefix. repeat split. by intros ->.
Qed.

(** X19.  On a dataset produced by the integration script, hovering an
    HTML area shows the analytics record matched to the cleaned form of
    its domain whenever the dataset has an area with exactly that
    domain, and no analytics when it has none, even if a record for the
    domain exists. *)
Theorem hover_shows_matched_analytics (l : list AreaData) (ds : list DomainAnalytics)
    (m : AppMetadata) (h : InteractiveMap.HtmlMapArea) :
  let data := {| metadata := m; areas := Scripts.integratedData l ds |} in
  let d := InteractiveMap.h_domain h in
  (d ∈ map domain l ->
   InteractiveMap.hoverAnalytics (Some data) (InteractiveMap.HtmlArea h) =
   Scripts.analyticsMap ds !! Scripts.cleanDomain d) /\
  (d ∉ map domain l ->
   InteractiveMap.hoverAnalytics (Some data) (InteractiveMap.HtmlArea h) = None).
Proof.
  cbv zeta. unfold InteractiveMap.hoverAnalytics, InteractiveMap.domainLookupMap.
  cbn [areas]. rewrite fold_insert_lookup, lookup_empty.
  set (d := InteractiveMap.h_domain h).
  set (out := Scripts.integratedData l ds).
  assert (Hdom : map domain out = map domain l).
  { unfold out, Scripts.integratedData. rewrite map_map. by apply map_ext. }
  split; intros Hd.
  - destruct (last (withDomain d out)) as [a|] eqn:Hlast.
    + apply last_Some_elem_of, withDomain_elem in Hlast as [Ha Hda].
      apply list_elem_of_fmap in Ha as (a0 & -> & _). simpl in *. by rewrite Hda.
    + apply last_None in Hlast. rewrite <- Hdom in Hd.
      apply list_elem_of_fmap in Hd as (a & Hda & Ha).
      assert (Hin : a ∈ withDomain d out) by by apply withDomain_elem.
      rewrite Hlast in Hin. by apply not_elem_of_nil in Hin.
  - destruct (last (withDomain d out)) as [a|] eqn:Hlast; [|done].
    apply last_Some_elem_of, withDomain_elem in Hlast as [Ha Hda].
    destruct Hd. rewrite <- Hdom, <- Hda. by apply list_elem_of_fmap_2.
Qed.

Lemma omap_length_le {A B} (f : A -> option B) (l : list A) :
  (length (omap f l) <= length l)%nat.
Proof.
  induction l as [|a l IH]; [done|]. cbn [omap list_omap].
  destruct (f a); simpl; lia.
Qed.

Section AreaMapScript.
Variable hostname : string -> option string.

Lemma parsed_from (n : nat) (tags : list Scripts.AreaTag) :
  let out := omap (fun o => o)
               (imap (fun i => Scripts.parseTag hostname (n + i)) tags) in
  Forall (fun p => (n <= Scripts.p_id p)%nat) out /\
  StronglySorted lt (map Scripts.p_id out).
Proof.
  revert n. induction tags as [|t tags IH]; intros n; cbv zeta.
  - split; constructor.
  - rewrite imap_cons. cbn [omap list_omap].
    assert (Hext : imap ((fun i => Scripts.parseTag hostname (n + i)) ∘ S) tags =
                   imap (fun i => Scripts.parseTag hostname (S n + i)) tags).
    { apply imap_ext. intros i x _. simpl. f_equal. lia. }
    rewrite Hext. destruct (IH (S n)) as [Hge Hsorted].
    assert (Hge' : Forall (fun p => (n <= Scripts.p_id p)%nat)
                     (omap (fun o => o)
                        (imap (fun i => Scripts.parseTag hostname (S n + i)) tags))).
    { eapply Forall_impl; [exact Hge|]. intros p Hp. simpl in Hp. lia. }
    destruct (Scripts.parseTag hostname (n + 0) t) as [p|] eqn:Hp; [|done].
    assert (Hid : Scripts.p_id p = n).
    { unfold Scripts.parseTag in Hp.
      destruct (Scripts.coordsAttr t), (Scripts.hrefAttr t); try discriminate.
      injection Hp as <-. simpl. lia. }
    split.
    + constructor; [lia | done].
    + cbn [map]. constructor; [done|]. rewrite Forall_fmap.
      eapply Forall_impl; [exact Hge|]. intros q Hq. simpl in *. lia.
Qed.

(** X20.  The script numbers the areas by the position of their tag: the
    ids of the parsed areas increase strictly (so no two areas share an
    id), a tag without [coords] or without [href] yields no area, and each
    parsed area carries the [href] of the tag at the position of its id. *)
Theorem parsed_area_ids (tags : list Scripts.AreaTag) :
  let out := Scripts.parsedAreas hostname tags in
  StronglySorted lt (map Scripts.p_id out) /\
  (length out <= length tags)%nat /\
  (forall p, p ∈ out ->
     exists t, tags !! Scripts.p_id p = Some t /\
       Scripts.hrefAttr t = Some (Scripts.p_href p) /\
       is_Some (Scripts.coordsAttr t)).
Proof.
  cbv zeta. unfold Scripts.parsedAreas. split; [|split].
  - apply (parsed_from 0 tags).
  - etransitivity; [apply omap_length_le|]. by rewrite length_imap.
  - intros p Hp. apply list_elem_of_omap in Hp as (o & Ho & Hop).
    simpl in Hop. subst o. apply list_elem_of_lookup in Ho as [i Hi].
    rewrite list_lookup_imap in Hi.
    destruct (tags !! i) as [t|] eqn:Ht; [|done]. simpl in Hi.
    unfold Scripts.parseTag in Hi.
    destruct (Scripts.coordsAttr t) as [c|] eqn:Hc; [|done].
    destruct (Scripts.hrefAttr t) as [hr|] eqn:Hh; [|done].
    injection Hi as <-. simpl. exists t. rewrite Ht, Hc, Hh. by eauto.
Qed.

End AreaMapScript.

(** ** The statistics bar *)

Section TopBarFacts.
Context `{Runtime}.

Lemma toString_eq_200 (v : Z) : String.eqb (JS.toString v) "200" = (v =? 200).
Proof.
  destruct (Z.eqb_spec v 200) as [-> | Hne]; [done|].
  apply String.eqb_neq. intros Heq. apply Hne.
  by apply (toString_inj v 200).
Qed.

(** X21.  Each number of the statistics bar is the number of areas that
    the corresponding filter returns on the whole dataset: "registered"
    for the WHOIS filter, "DNS resolved" for the DNS filter [NOERROR],
    "HTTP success" for the HTTP filter "200"; the second number of each
    pair is the rest of the dataset, areas without analytics included. *)
Theorem top_bar_counts_are_filter_counts (data : AppData) :
  let st := TopBar.stats data in
  let n f := Z.of_nat (length (AppStore.applyFilters (areas data) f)) in
  TopBar.registered st = n (onlyWhois "registered") /\
  TopBar.dnsResolved st = n (onlyDns "NOERROR") /\
  TopBar.httpSuccess st = n (onlyHttp "200") /\
  TopBar.registered st + TopBar.available st = TopBar.total st /\
  TopBar.dnsResolved st + TopBar.dnsErrors st = TopBar.total st /\
  TopBar.httpSuccess st + TopBar.httpErrors st = TopBar.total st /\
  0 <= TopBar.available st /\ 0 <= TopBar.dnsErrors st /\ 0 <= TopBar.httpErrors st.
Proof.
  cbv beta zeta. rewrite !applyFilters_filter. unfold TopBar.stats, TopBar.count.
  cbn [TopBar.registered TopBar.available TopBar.dnsResolved TopBar.dnsErrors
       TopBar.httpSuccess TopBar.httpErrors TopBar.total].
  assert (Hbound : forall p : AreaData -> bool,
            (length (List.filter p (areas data)) <= length (areas data))%nat)
    by (intros p; apply sublist_length, filter_sublist).
  repeat split; try lia;
    try (pose proof (Hbound (fun a => Utils.isSome (fun v => String.eqb v "registered")
                               (analytics a ≫= whois_status)));
         pose proof (Hbound (fun a => Utils.isSome (fun v => String.eqb v "NOERROR")
                               (analytics a ≫= dns_status)));
         pose proof (Hbound (fun a => Utils.isSome (fun v => v =? 200)
                               (analytics a ≫= http_status)));
         lia);
    do 2 f_equal; apply filter_ext_bool; intros a;
    unfold passes, AppStore.filterConditions; simpl;
    unfold AppStore.whoisCondition, AppStore.dnsCondition, AppStore.httpCondition,
      AppStore.eqField, Utils.isSome;
    rewrite andb_true_r.
  - by destruct (analytics a ≫= whois_status).
  - by destruct (analytics a ≫= dns_status).
  - destruct (analytics a ≫= http_status) as [v|]; simpl; [|done].
    symmetry. apply toString_eq_200.
Qed.

End TopBarFacts.

(** ** CSV export *)

Section CsvFacts.
Import ExportData ExportCsv.

Lemma append_nil_r_string (t : string) : t +:+ "" = t.
Proof.
  induction t as [|c t IH]; [done|].
  change (String c (t +:+ "") = String c t). by rewrite IH.
Qed.

Lemma prepend_field (v f : string) (fs : list string) (rs : list (list string)) :
  CsvReader.prepend v ((f :: fs) :: rs) = ((v +:+ f) :: fs) :: rs.
Proof.
  induction v as [|c v IH]; [done|].
  cbn [CsvReader.prepend]. rewrite IH. reflexivity.
Qed.

Lemma plainChar_tests (c : ascii) :
  plainChar c = true ->
  Ascii.eqb c (ascii_of_nat 34) = false /\ Ascii.eqb c "," = false /\
  Ascii.eqb c (ascii_of_nat 10) = false.
Proof.
  unfold plainChar, notQuote. rewrite !andb_true_iff, !negb_true_iff. tauto.
Qed.

Lemma read_plain (v rest : string) :
  allChars plainChar v = true ->
  CsvReader.read false (v +:+ rest) = CsvReader.prepend v (CsvReader.read false rest).
Proof.
  induction v as [|c v IH]; [done|]. cbn [allChars].
  intros [Hc Hv]%andb_prop. apply plainChar_tests in Hc as (Hq & Hcomma & Hlf).
  change (CsvReader.read false (String c (v +:+ rest)) =
          CsvReader.addChar c (CsvReader.prepend v (CsvReader.read false rest))).
  cbn [CsvReader.read]. by rewrite Hq, Hcomma, Hlf, IH.
Qed.

Lemma read_to_closing_quote (v rest : string) :
  allChars notQuote v = true ->
  CsvReader.read true (v +:+ String (ascii_of_nat 34) rest) =
  CsvReader.prepend v (CsvReader.read false rest).
Proof.
  induction v as [|c v IH]; [done|]. cbn [allChars].
  intros [Hc Hv]%andb_prop. unfold notQuote in Hc. apply negb_true_iff in Hc.
  change (CsvReader.read true (String c (v +:+ String (ascii_of_nat 34) rest)) =
          CsvReader.addChar c (CsvReader.prepend v (CsvReader.read false rest))).
  cbn [CsvReader.read]. by rewrite Hc, IH.
Qed.

Lemma read_quoted (v rest : string) :
  allChars notQuote v = true ->
  CsvReader.read false (quoted v +:+ rest) =
  CsvReader.prepend v (CsvReader.read false rest).
Proof.
  intros Hv. unfold quoted, doubleQuote. rewrite !append_assoc_string.
  change (CsvReader.read true (v +:+ String (ascii_of_nat 34) rest) =
          CsvReader.prepend v (CsvReader.read false rest)).
  by apply read_to_closing_quote.
Qed.

Lemma read_encoded (e v rest : string) :
  encodes e v ->
  CsvReader.read false (e +:+ rest) = CsvReader.prepend v (CsvReader.read false rest).
Proof. intros [[-> Hv] | [-> Hv]]; [by apply read_quoted | by apply read_plain]. Qed.

(** One line: the joined elements read back as the values they write. *)
Lemma read_record (es vs : list string) (rest : string) (rs : list (list string)) :
  Forall2 encodes es vs -> es <> [] ->
  CsvReader.read false rest = [EmptyString] :: rs ->
  CsvReader.read false (join "," es +:+ rest) = vs :: rs.
Proof.
  intros Hes Hne Hrest. induction Hes as [|e v es vs He Hes IH]; [done|].
  clear Hne. destruct Hes as [|e' v' es vs He' Hes].
  -
 cbn [join]. rewrite (read_encoded e v rest He), Hrest, prepend_field.
    by rewrite append_nil_r_string.
  - change (join "," (e :: e' :: es)) with (e +:+ "," +:+ join "," (e' :: es)).
    rewrite !append_assoc_string, (read_encoded e v _ He).
    change (CsvReader.read false ("," +:+ join "," (e' :: es) +:+ rest))
      with (CsvReader.newField (CsvReader.read false (join "," (e' :: es) +:+ rest))).
    rewrite IH by done. cbn [CsvReader.newField]. rewrite prepend_field.
    by rewrite append_nil_r_string.
Qed.

(** The whole text: the joined lines read back as the table. *)
Lemma read_text (lines table : list (list string)) :
  Forall2 (Forall2 encodes) lines table -> Forall (fun es => es <> []) lines ->
  lines <> [] ->
  CsvReader.read false (join lineFeed (map (join ",") lines)) = table.
Proof.
  intros Hlines. induction Hlines as [|es vs lines table Hes Hlines IH];
    intros Hne Hnil; [done|].
  apply Forall_cons in Hne as [Hes_ne Hne].
  destruct Hlines as [|es' vs' lines table Hes' Hlines].
  - cbn [map join]. rewrite <- (append_nil_r_string (join "," es)).
    by apply read_record.
  - change (join lineFeed (map (join ",") (es :: es' :: lines)))
      with (join "," es +:+ lineFeed +:+ join lineFeed (map (join ",") (es' :: lines))).
    apply read_record; [done|done|].
    change (CsvReader.read false (lineFeed +:+ join lineFeed (map (join ",") (es' :: lines))))
      with (CsvReader.newRecord
              (CsvReader.read false (join lineFeed (map (join ",") (es' :: lines))))).
    unfold CsvReader.newRecord. f_equal. by apply IH.
Qed.

Lemma toString_plain (z : Z) : allChars plainChar (JS.toString z) = true.
Proof.
  apply (allChars_impl numeralChar); [|apply toString_numeral].
  intros c. unfold numeralChar, plainChar, notQuote.
  destruct (Ascii.eqb_spec c (ascii_of_nat 34)) as [-> | _]; [done|].
  destruct (Ascii.eqb_spec c ",") as [-> | _]; [done|].
  by destruct (Ascii.eqb_spec c (ascii_of_nat 10)) as [-> | _].
Qed.

Lemma numberOrEmpty_notQuote (o : option Z) :
  allChars notQuote (numberOrEmpty o) = true.
Proof.
  unfold numberOrEmpty. destruct o as [n|]; [|done]. destruct (n =? 0); [done|].
  apply (allChars_impl plainChar); [|apply toString_plain].
  intros c. unfold plainChar. by intros [[? _]%andb_prop _]%andb_prop.
Qed.

Lemma header_encodes (o : ExportOptions) :
  Forall2 encodes (csvHeaders o) (csvHeaders o).
Proof.
  unfold csvHeaders.
  destruct (includeCoordinates o), (includeAnalytics o), (includeTimestamps o);
    cbn [app];
    repeat (apply List.Forall2_cons; [right; split; reflexivity|]); apply List.Forall2_nil.
Qed.

Lemma row_encodes (o : ExportOptions) (a : AreaData) :
  quoteFree a = true -> Forall2 encodes (csvRow o a) (cells o a).
Proof.
  unfold quoteFree. cbn [forallb]. rewrite !andb_true_iff.
  intros (Hdom & Htitle & Hdns & Hwhois & Hreg & Hexp & Han & _).
  unfold csvRow, cells.
  destruct (includeCoordinates o), (includeAnalytics o), (includeTimestamps o);
    cbn [map app];
    repeat (apply List.Forall2_cons;
            [first [ left; split;
                       [reflexivity
                       | first [assumption | apply numberOrEmpty_notQuote]]
                   | right; split; [reflexivity | apply toString_plain]
                   | right; destruct (hasAnalytics a); split; reflexivity ]|]);
    apply List.Forall2_nil.
Qed.

(** X22.  The CSV text reads back as the table it was written from: when
    no domain, title, status or date of the exported areas holds a double
    quote, reading the text with a CSV reader gives the header record and
    then, for each area in order, one record with the value of every
    column, so every record has as many fields as the header (2, plus 4
    for coordinates, 4 for analytics, 3 for timestamps).  Commas and line
    feeds inside the quoted texts do no harm. *)
Theorem csv_rows_match_header (o : ExportOptions) (data : list AreaData) :
  forallb quoteFree data = true ->
  CsvReader.parse (generateCSV o data) = csvHeaders o :: map (cells o) data /\
  Forall (fun record => length record = length (csvHeaders o))
         (CsvReader.parse (generateCSV o data)) /\
  length (csvHeaders o) =
    (2 + (if includeCoordinates o then 4 else 0) +
         (if includeAnalytics o then 4 else 0) +
         (if includeTimestamps o then 3 else 0))%nat.
Proof.
  intros Hdata.
  assert (Hparse : CsvReader.parse (generateCSV o data) =
                   csvHeaders o :: map (cells o) data).
  { unfold CsvReader.parse, generateCSV, csvRows.
    rewrite <- (map_map (csvRow o) (join ",")).
    change (join lineFeed (join "," (csvHeaders o) ::
                           map (join ",") (map (csvRow o) data)))
      with (join lineFeed (map (join ",") (csvHeaders o :: map (csvRow o) data))).
    apply read_text; [| |done].
    - constructor; [apply header_encodes|].
      induction data as [|a data IH]; [constructor|].
      cbn [forallb] in Hdata. apply andb_prop in Hdata as [Ha Hdata].
      constructor; [by apply row_encodes | by apply IH].
    - constructor; [done|]. apply Forall_forall. intros es Hes.
      apply list_elem_of_fmap in Hes as (a & -> & _). done. }
  split; [done|]. split.
  - rewrite Hparse. constructor; [done|]. apply Forall_forall. intros vs Hvs.
    apply list_elem_of_fmap in Hvs as (a & -> & _). unfold cells, csvHeaders.
    destruct (includeCoordinates o), (includeAnalytics o), (includeTimestamps o);
      reflexivity.
  - unfold csvHeaders.
    destruct (includeCoordinates o), (includeAnalytics o), (includeTimestamps o);
      reflexivity.
Qed.

(** A double quote in a title is written as it is, so such a title ends
    its field early: the record of an area titled [x","y] has three fields
    under a header of two. *)
Lemma csv_quote_in_title_splits_field :
  CsvReader.parse (generateCSV plainExport [quotedTitle]) =
  [["Domain"; "Title"]; ["q.com"; "x"; "y"]].
Proof. vm_compute. reflexivity. Qed.

(** X23.  The CSV does not tell an HTTP status of 0 (no response) from a
    missing one: both are written as an empty quoted field, while any
    other status is written in decimal. *)
Theorem csv_blank_for_status_zero (o : ExportOptions) (a : AreaData) (v : Z) :
  csvRow o (withHttpStatus (Some 0) a) = csvRow o (withHttpStatus None a) /\
  (v <> 0 -> numberOrEmpty (Some v) = JS.toString v /\
             numberOrEmpty (Some v) <> numberOrEmpty None).
Proof.
  split.
  - unfold csvRow, withHttpStatus. simpl. by destruct (analytics a).
  - intros Hv. unfold numberOrEmpty. destruct (Z.eqb_spec v 0); [done|].
    split; [done|]. intros Heq.
    pose proof (toString_numeral v) as Hn. rewrite Heq in Hn.
    pose proof (Number_toString v) as Hnum. rewrite Heq in Hnum.
    vm_compute in Hnum. by injection Hnum.
Qed.

Lemma sanitize_fixed (q : string) :
  allChars isAlphaNumeric q = true -> sanitize q = q.
Proof.
  induction q as [|c q IH]; simpl; [done|].
  intros [Hc Hq]%andb_prop. by rewrite Hc, IH.
Qed.

(** X24.  The query part of the export file name keeps the length of the
    query, consists of letters, digits and underscores only, leaves a
    query of letters and digits as it is, and sanitising twice changes
    nothing more. *)
Theorem export_filename_safe (o : ExportOptions) (q timestamp : string) :
  String.length (sanitize q) = String.length q /\
  allChars (fun c => isAlphaNumeric c || Ascii.eqb c "_") (sanitize q) = true /\
  sanitize (sanitize q) = sanitize q /\
  (allChars isAlphaNumeric q = true -> sanitize q = q) /\
  (q <> "" ->
   filename o q timestamp =
     "mdh-search-" +:+ sanitize q +:+ "-" +:+ timestamp +:+ extension (format o)) /\
  filename o "" timestamp = "mdh-domains-" +:+ timestamp +:+ extension (format o).
Proof.
  split; [|split; [|split; [|split; [|split]]]].
  - induction q as [|c q IH]; simpl; [done|]. by rewrite IH.
  - induction q as [|c q IH]; simpl; [done|]. rewrite IH.
    destruct (isAlphaNumeric c) eqn:Hc; [by rewrite Hc | done].
  - induction q as [|c q IH]; simpl; [done|]. rewrite IH.
    destruct (isAlphaNumeric c) eqn:Hc; [by rewrite Hc | done].
  - apply sanitize_fixed.
  - intros Hq. unfold filename, baseFilename.
    destruct q as [|c q]; [done|]. simpl negb. cbv iota.
    by rewrite !append_assoc_string.
  - reflexivity.
Qed.

End CsvFacts.

(** [csv_rows_match_header] for two of the three areas with every
    column. *)
Lemma csv_rows_match_header_witness :
  CsvReader.parse (ExportCsv.generateCSV fullExport [areaA; areaB]) =
  ExportCsv.csvHeaders fullExport :: map (cells fullExport) [areaA; areaB].
Proof.
  exact (proj1 (csv_rows_match_header fullExport [areaA; areaB] eq_refl)).
Defined.

(** ** Utilities *)

Section UtilsFacts.
Import Utils.

(** X25.  The health score is a multiple of 10 between 0 and 100; missing
    analytics score 0; a healthy domain scores at least 90, and only a
    healthy domain scores 100. *)
Theorem health_score_range (an : option DomainAnalytics) :
  0 <= getDomainHealthScore an <= 100 /\
  getDomainHealthScore an mod 10 = 0 /\
  (an = None -> getDomainHealthScore an = 0) /\
  (isDomainHealthy an = true -> 90 <= getDomainHealthScore an) /\
  (getDomainHealthScore an = 100 -> isDomainHealthy an = true).
Proof.
  destruct an as [a|]; [|repeat split; (done || lia)].
  unfold getDomainHealthScore, isDomainHealthy.
  destruct (isSome _ (dns_status a)), (isSome (fun v => v =? OK) (http_status a)),
    (isSome (fun v => (200 <=? v) && (v <? 400)) (http_status a)),
    (isSome _ (whois_status a)), (isSome _ (nameservers a));
    repeat split; (done || lia).
Qed.

Lemma categorize_from (l : list AreaData) (acc : HealthBuckets) :
  fold_left pushByHealth l acc =
  {| healthy := (healthy acc ++ List.filter isHealthy l)%list;
     warning := (warning acc ++ List.filter isWarning l)%list;
     critical := (critical acc ++ List.filter isCritical l)%list;
     unknown := (unknown acc ++ List.filter (fun a => negb (hasAnalytics a)) l)%list |}.
Proof.
  revert acc. induction l as [|a l IH]; intros acc; simpl.
  - rewrite !app_nil_r. by destruct acc.
  - rewrite IH. unfold pushByHealth, isHealthy, isWarning, isCritical.
    destruct (hasAnalytics a); simpl;
      [destruct (80 <=? _); simpl; [|destruct (50 <=? _); simpl]|];
      by rewrite <- ?app_assoc.
Qed.

(** X26.  The health buckets split the list: every area lands in exactly
    one bucket, in list order; an area whose [hasAnalytics] flag is off is
    "unknown" whatever its analytics say, and among the others the score
    decides (80 and above healthy, 50 to 79 warning, below 50
    critical). *)
Theorem health_buckets_split (l : list AreaData) :
  let b := categorizeDomainsByHealth l in
  healthy b = List.filter isHealthy l /\
  warning b = List.filter isWarning l /\
  critical b = List.filter isCritical l /\
  unknown b = List.filter (fun a => negb (hasAnalytics a)) l /\
  (healthy b ++ warning b ++ critical b ++ unknown b)%list ≡ₚ l /\
  (length (healthy b) + length (warning b) + length (critical b) +
   length (unknown b) = length l)%nat.
Proof.
  cbv zeta. unfold categorizeDomainsByHealth. rewrite categorize_from. simpl.
  assert (Hperm : (List.filter isHealthy l ++ List.filter isWarning l ++
                   List.filter isCritical l ++
                   List.filter (fun a => negb (hasAnalytics a)) l)%list ≡ₚ l).
  { induction l as [|a l IH]; simpl; [done|].
    unfold isHealthy, isWarning, isCritical.
    destruct (hasAnalytics a); simpl;
      [destruct (80 <=? _); simpl; [|destruct (50 <=? _); simpl]|];
      rewrite <- ?Permutation_middle; by rewrite IH. }
  repeat split; try done.
  rewrite <- (Permutation_length Hperm). rewrite !length_app. lia.
Qed.

Lemma batchLoop_done {T R} (fuel : nat) (items : list T) (processor : T -> R)
    (batchSize i : nat) :
  (0 < batchSize)%nat -> (length items - i < fuel)%nat ->
  batchLoop fuel items processor batchSize i (map processor (take i items)) =
  Some (map processor items).
Proof.
  intros Hbs. revert i. induction fuel as [|fuel IH]; intros i Hfuel; simpl.
  - lia.
  - destruct (Nat.ltb_spec i (length items)) as [Hi | Hi].
    + rewrite <- map_app, take_take_drop. apply IH. lia.
    + by rewrite take_ge.
Qed.

(** X27.  With a positive batch size, batching is invisible: the result is
    the processor applied to every item in order, reached within
    [items.length + 1] turns of the loop.  With batch size 0 and at least
    one item the loop never ends. *)
Theorem batchProcess_is_map {T R} (items : list T) (processor : T -> R)
    (batchSize fuel : nat) :
  ((0 < batchSize)%nat -> (length items < fuel)%nat ->
   batchProcess fuel items processor batchSize = Some (map processor items)) /\
  (items <> [] -> batchProcess fuel items processor 0 = None).
Proof.
  unfold batchProcess. split.
  - intros Hbs Hfuel. apply (batchLoop_done fuel items processor batchSize 0); [done|lia].
  - intros Hne. generalize (@nil R).
    induction fuel as [|fuel IH]; intros results; simpl; [done|].
    destruct items as [|a items]; [done|]. simpl. apply IH.
Qed.

Lemma throttleRuns_spaced (delay lastCall : Z) (times : list Z) :
  let runs := throttleRuns delay lastCall times in
  (forall a, head runs = Some a -> delay <= a - lastCall) /\
  (forall i a b, runs !! i = Some a -> runs !! S i = Some b -> delay <= b - a) /\
  sublist runs times.
Proof.
  revert lastCall. induction times as [|now rest IH]; intros lastCall; cbv zeta.
  - repeat split; try done; try constructor.
  - cbn [throttleRuns]. unfold throttleCall.
    destruct (Z.leb_spec delay (now - lastCall)) as [Hrun | Hskip].
    + destruct (IH now) as (Hhead & Hpairs & Hsub). repeat split.
      * intros a [= <-]. done.
      * intros [|i] a b Ha Hb.
        -- injection Ha as <-. apply Hhead. by destruct (throttleRuns delay now rest).
        -- by apply (Hpairs i).
      * by constructor.
    + destruct (IH lastCall) as (Hhead & Hpairs & Hsub). repeat split; try done.
      by constructor.
Qed.

(** X28.  Through a throttled function, two consecutive calls that run are
    at least [delay] apart, the first call that runs comes at least
    [delay] after time 0, and the calls that run are a subsequence of the
    calls made. *)
Theorem throttle_spacing (delay : Z) (times : list Z) :
  let runs := throttle delay times in
  (forall a, head runs = Some a -> delay <= a) /\
  (forall i a b, runs !! i = Some a -> runs !! S i = Some b -> delay <= b - a) /\
  sublist runs times.
Proof.
  cbv zeta. unfold throttle.
  destruct (throttleRuns_spaced delay 0 times) as (Hhead & Hpairs & Hsub).
  repeat split; try done. intros a Ha. specialize (Hhead a Ha). lia.
Qed.

(** X29.  Two rectangles of positive size overlap exactly when some pixel
    lies in both, and the test does not depend on the order of its
    arguments. *)
Theorem overlap_iff_common_pixel (r1 r2 : AreaCoordinates) :
  0 < width r1 -> 0 < height r1 -> 0 < width r2 -> 0 < height r2 ->
  (rectanglesOverlap r1 r2 = true <-> exists px py, covers r1 px py /\ covers r2 px py) /\
  rectanglesOverlap r1 r2 = rectanglesOverlap r2 r1.
Proof.
  intros Hw1 Hh1 Hw2 Hh2. unfold rectanglesOverlap, covers.
  rewrite negb_true_iff, !orb_false_iff, !Z.leb_gt. split.
  - split.
    + intros [[[? ?] ?] ?].
      exists (Z.max (x r1) (x r2)), (Z.max (y r1) (y r2)). lia.
    + intros (px & py & ? & ?). lia.
  - f_equal. repeat match goal with |- context [?a <=? ?b] =>
      destruct (Z.leb_spec a b) end; simpl; try done; lia.
Qed.

End UtilsFacts.

(** [overlap_iff_common_pixel] for two unit-overlapping squares. *)
Lemma overlap_iff_common_pixel_witness :
  Utils.rectanglesOverlap square {| x := 9; y := 9; width := 10; height := 10 |} =
  Utils.rectanglesOverlap {| x := 9; y := 9; width := 10; height := 10 |} square.
Proof.
  apply (overlap_iff_common_pixel square
           {| x := 9; y := 9; width := 10; height := 10 |}); simpl; lia.
Defined.

(** ** List navigation *)

(** X30.  On a non-empty list, moving down from the initial index -1 or
    from any index up to the length lands on a valid index, and so does
    moving up; with looping, up and down undo each other on valid
    indices, the step after the last item is the first and the step
    before the first is the last; without looping the two ends stay
    where they are. *)
Theorem list_navigation_in_range (n idx : Z) (loop : bool) :
  0 < n -> -1 <= idx <= n ->
  0 <= ListNavigation.navigateDown n loop idx < n /\
  0 <= ListNavigation.navigateUp n loop idx < n /\
  (0 <= idx < n ->
   ListNavigation.navigateUp n true (ListNavigation.navigateDown n true idx) = idx /\
   ListNavigation.navigateDown n true (ListNavigation.navigateUp n true idx) = idx) /\
  ListNavigation.navigateDown n true (n - 1) = 0 /\
  ListNavigation.navigateUp n true 0 = n - 1 /\
  ListNavigation.navigateDown n false (n - 1) = n - 1 /\
  ListNavigation.navigateUp n false 0 = 0.
Proof.
  intros Hn Hidx. unfold ListNavigation.navigateDown, ListNavigation.navigateUp.
  destruct loop;
    repeat match goal with
           | |- context [?a =? ?b] => destruct (Z.eqb_spec a b)
           | |- context [?a <=? ?b] => destruct (Z.leb_spec a b)
           end; repeat split; try lia;
    intros; repeat match goal with
           | |- context [?a =? ?b] => destruct (Z.eqb_spec a b)
           | |- context [?a <=? ?b] => destruct (Z.leb_spec a b)
           end; lia.
Qed.

(** [list_navigation_in_range] for the first key press on a list of three
    items. *)
Lemma list_navigation_in_range_witness :
  0 <= ListNavigation.navigateDown 3 true ListNavigation.initialIndex < 3.
Proof.
  apply (list_navigation_in_range 3 ListNavigation.initialIndex true);
    unfold ListNavigation.initialIndex; lia.
Defined.
